(** * Phosphate Rock Dashboard: extraction pipeline and derived metrics

    A shallow embedding of [streamlit_app.py]: the World Bank price
    extractor [fetch_worldbank_price], the USGS production extractor
    [fetch_usgs_world] and the module-level computation of the three
    price metrics (latest, MoM, YoY).

    Conventions of the embedding.
    - A Python [str] is a [string]; a character is a code point below 256.
      In that range [\d] matches exactly ['0'..'9'].
    - A [float64] is a primitive binary64 [float], with its IEEE
      arithmetic (a division by zero gives an infinity or NaN, as numpy
      does; it raises nothing).
    - A Python exception is the [Raise] case of [result]; [try/except]
      is a [match] on it.
    - The network and the two text parsers of pandas that the program
      calls on arbitrary text are parameters of the development. *)

From Stdlib Require Import ZArith List String Ascii Bool Lia.
From Stdlib Require Import Sorted Permutation.
From Stdlib Require Import Floats.
Import ListNotations.

Local Open Scope string_scope.
Local Open Scope Z_scope.

(** ** Exceptions *)

Inductive Exc : Type :=
| RequestException   (* requests.get failed: transport error, timeout *)
| HTTPError          (* raise_for_status on a 4xx/5xx response *)
| BadFile            (* the body is not a workbook / not a CSV *)
| ValueError         (* sheet not found, date out of range, ... *)
| KeyError
| IndexError
| AttributeError     (* .str asked of a frame, not of a column *)
| TypeError          (* to_numeric given a frame, not a column *)
| RuntimeError.

Inductive result (A : Type) : Type :=
| Ok (a : A)
| Raise (e : Exc).
Arguments Ok {A} a.
Arguments Raise {A} e.

Definition bind {A B : Type} (r : result A) (k : A -> result B) : result B :=
  match r with
  | Ok a => k a
  | Raise e => Raise e
  end.

Notation "x <- r ;; k" := (bind r (fun x => k))
  (at level 61, r at next level, right associativity).

(** A list comprehension whose body may raise: the first exception
    aborts the whole comprehension. *)
Fixpoint mapM {A B : Type} (f : A -> result B) (l : list A) : result (list B) :=
  match l with
  | [] => Ok []
  | a :: l' =>
      b <- f a ;;
      bs <- mapM f l' ;;
      Ok (b :: bs)
  end.

(** ** Python strings *)

Module Py.

Definition code (c : ascii) : Z := Z.of_nat (nat_of_ascii c).

Definition is_digit (c : ascii) : bool := (48 <=? code c) && (code c <=? 57).

Definition digit_val (c : ascii) : Z := code c - 48.

(** [str.lower] and [str.upper] on the ASCII letters.  The needles the
    program searches for are ASCII, and no other code point below 256
    is mapped onto one of their letters, except U+00DF, which [upper]
    turns into "SS": two adjacent S, which no needle of the program
    contains. *)
Definition lower_char (c : ascii) : ascii :=
  if (65 <=? code c) && (code c <=? 90)
  then ascii_of_nat (nat_of_ascii c + 32) else c.

Definition upper_char (c : ascii) : ascii :=
  if (97 <=? code c) && (code c <=? 122)
  then ascii_of_nat (nat_of_ascii c - 32) else c.

Fixpoint lower (s : string) : string :=
  match s with
  | EmptyString => EmptyString
  | String c s' => String (lower_char c) (lower s')
  end.

Fixpoint upper (s : string) : string :=
  match s with
  | EmptyString => EmptyString
  | String c s' => String (upper_char c) (upper s')
  end.

(** [needle in hay]. *)
Fixpoint str_in (needle hay : string) : bool :=
  String.prefix needle hay ||
  match hay with
  | EmptyString => false
  | String _ hay' => str_in needle hay'
  end.

(** [str.isspace] on one code point below 256. *)
Definition is_space (c : ascii) : bool :=
  let n := code c in
  ((9 <=? n) && (n <=? 13)) || ((28 <=? n) && (n <=? 32))
  || (n =? 133) || (n =? 160).

Fixpoint lstrip (s : string) : string :=
  match s with
  | EmptyString => EmptyString
  | String c s' => if is_space c then lstrip s' else s
  end.

Fixpoint rstrip (s : string) : string :=
  match s with
  | EmptyString => EmptyString
  | String c s' =>
      match rstrip s' with
      | EmptyString => if is_space c then EmptyString else String c EmptyString
      | t => String c t
      end
  end.

(** [s.strip()]. *)
Definition strip (s : string) : string := rstrip (lstrip s).

(** [s[:n]]. *)
Definition slice_to (n : nat) (s : string) : string := String.substring 0 n s.

(** [s[-n:]]. *)
Definition slice_last (n : nat) (s : string) : string :=
  String.substring (String.length s - n) n s.

(** [c in cols]. *)
Definition mem (c : string) (cols : list string) : bool :=
  existsb (String.eqb c) cols.

(** [cols.count(c)]. *)
Definition count (c : string) (cols : list string) : nat :=
  List.length (filter (String.eqb c) cols).

(** Position of the first label equal to [c]. *)
Fixpoint index (c : string) (cols : list string) : option nat :=
  match cols with
  | [] => None
  | c' :: cols' =>
      if String.eqb c c' then Some O
      else match index c cols' with
           | Some i => Some (S i)
           | None => None
           end
  end.

End Py.

(** ** Regular expressions of the program

    [re.match(p, c)] anchors at the start; Python's [$] matches at the
    end of the string and also just before a newline that ends it. *)

Definition newline : string := String (ascii_of_nat 10) EmptyString.

Definition at_dollar (tl : string) : bool :=
  String.eqb tl EmptyString || String.eqb tl newline.

(** [re.match(r"^\d{4}M\d{2}$", c)]. *)
Definition re_match_ym (c : string) : bool :=
  match c with
  | String y1 (String y2 (String y3 (String y4
      (String m (String m1 (String m2 tl)))))) =>
      Py.is_digit y1 && Py.is_digit y2 && Py.is_digit y3 && Py.is_digit y4
      && Ascii.eqb m "M" && Py.is_digit m1 && Py.is_digit m2 && at_dollar tl
  | _ => false
  end.

(** [re.match(r"^\d{4}$", str(c))]. *)
Definition re_match_year (c : string) : bool :=
  match c with
  | String y1 (String y2 (String y3 (String y4 tl))) =>
      Py.is_digit y1 && Py.is_digit y2 && Py.is_digit y3 && Py.is_digit y4
      && at_dollar tl
  | _ => false
  end.

(** ** Timestamps

    A [pd.Timestamp] at midnight is its calendar date.  A Timestamp
    counts nanoseconds in 64 bits: the midnights it can hold run from
    1677-09-22 to 2262-04-11, and [pd.to_datetime] raises outside. *)

Record Timestamp : Type := mkTs { ts_year : Z; ts_month : Z; ts_day : Z }.

Definition ts_eqb (a b : Timestamp) : bool :=
  (ts_year a =? ts_year b) && (ts_month a =? ts_month b) && (ts_day a =? ts_day b).

Definition ts_ltb (a b : Timestamp) : bool :=
  (ts_year a <? ts_year b)
  || ((ts_year a =? ts_year b)
      && ((ts_month a <? ts_month b)
          || ((ts_month a =? ts_month b) && (ts_day a <? ts_day b)))).

Definition ts_lt (a b : Timestamp) : Prop := ts_ltb a b = true.

(** [pd.Timestamp.min] and [pd.Timestamp.max], as the first and the last
    midnight between them. *)
Definition Timestamp_min : Timestamp := mkTs 1677 9 22.
Definition Timestamp_max : Timestamp := mkTs 2262 4 11.

Definition in_bounds (ts : Timestamp) : bool :=
  negb (ts_ltb ts Timestamp_min) && negb (ts_ltb Timestamp_max ts).

Definition is_leap (y : Z) : bool :=
  ((y mod 4 =? 0) && negb (y mod 100 =? 0)) || (y mod 400 =? 0).

Definition days_in_month (y m : Z) : Z :=
  if m =? 2 then (if is_leap y then 29 else 28)
  else if (m =? 4) || (m =? 6) || (m =? 9) || (m =? 11) then 30
  else 31.

Definition valid_date (y m d : Z) : bool :=
  (1 <=? y) && (1 <=? m) && (m <=? 12) && (1 <=? d) && (d <=? days_in_month y m).

(** [ts - pd.DateOffset(years=1)]: same month one year earlier, the day
    clipped to the length of that month. *)
Definition minus_one_year (ts : Timestamp) : Timestamp :=
  let y := ts_year ts - 1 in
  mkTs y (ts_month ts) (Z.min (ts_day ts) (days_in_month y (ts_month ts))).

(** The text ["YYYY-MM-DD"], read as three numbers. *)
Definition parse_iso (s : string) : option (Z * Z * Z) :=
  match s with
  | String y1 (String y2 (String y3 (String y4 (String s1
      (String m1 (String m2 (String s2
        (String d1 (String d2 EmptyString))))))))) =>
      if Py.is_digit y1 && Py.is_digit y2 && Py.is_digit y3 && Py.is_digit y4
         && Ascii.eqb s1 "-" && Py.is_digit m1 && Py.is_digit m2
         && Ascii.eqb s2 "-" && Py.is_digit d1 && Py.is_digit d2
      then Some (1000 * Py.digit_val y1 + 100 * Py.digit_val y2
                 + 10 * Py.digit_val y3 + Py.digit_val y4,
                 10 * Py.digit_val m1 + Py.digit_val m2,
                 10 * Py.digit_val d1 + Py.digit_val d2)
      else None
  | _ => None
  end.

(** ** Cells and frames *)

(** A cell of a parsed sheet or CSV: a number (an empty cell is NaN) or
    text.  Booleans and dates in cells are not modelled. *)
Inductive Cell : Type :=
| CNum (f : float)
| CStr (s : string).

Definition NaN : Cell := CNum nan.

(** A [DataFrame], row by row.  [columns] are the labels as text (for a
    sheet: after [str(c)]); a row holds one cell per column, a missing
    cell reads as NaN.  Labels are looked up by first occurrence: the
    readers of pandas hand out distinct labels, and a frame with a
    repeated label is outside the model. *)
Record DataFrame : Type := mkDF { columns : list string; rows : list (list Cell) }.

Definition cell_at (i : nat) (row : list Cell) : Cell := nth i row NaN.

(** [row[c]]. *)
Definition getitem (cols : list string) (row : list Cell) (c : string) : Cell :=
  match Py.index c cols with
  | Some i => cell_at i row
  | None => NaN
  end.

(** [isinstance(x, str) and needle in x.lower()], which is also what
    [astype(str).str.contains(needle, case=False, na=False)] gives for
    an ASCII lower-case [needle]: the text of a number is made of
    digits, signs, ['.'], ['e'] and the words inf and nan. *)
Definition contains_lower (needle : string) (x : Cell) : bool :=
  match x with
  | CStr s => Py.str_in needle (Py.lower s)
  | CNum _ => false
  end.

(** [astype(str).str.upper().str.contains(needle)] for an ASCII
    upper-case [needle]. *)
Definition contains_upper (needle : string) (x : Cell) : bool :=
  match x with
  | CStr s => Py.str_in needle (Py.upper s)
  | CNum _ => false
  end.

(** A price series: the frame with columns [date] and
    [price_usd_per_t], row by row. *)
Definition Series : Type := list (Timestamp * float).

(** [dropna()] on a price series (a date is never NaT). *)
Definition dropna (data : Series) : Series :=
  filter (fun p => negb (is_nan (snd p))) data.

(** [sort_values("date")]: insertion into an ascending list.  Rows of
    equal date keep their order here; pandas promises no order for
    them. *)
Fixpoint insert_by_date (p : Timestamp * float) (l : Series) : Series :=
  match l with
  | [] => [p]
  | q :: l' => if ts_ltb (fst p) (fst q) then p :: l else q :: insert_by_date p l'
  end.

Fixpoint sort_by_date (l : Series) : Series :=
  match l with
  | [] => []
  | p :: l' => insert_by_date p (sort_by_date l')
  end.

(** The new label of column [c] under [rename(columns={old: new})]. *)
Definition relabel (old new : string) (c : string) : string :=
  if String.eqb c old then new else c.

(** ** The network *)

(** A parsed workbook: its sheets in [sheet_names] order. *)
Definition ExcelFile : Type := list (string * DataFrame).

(** An HTTP response.  [workbook] is what [pd.ExcelFile] makes of the
    body and [csv] what [pd.read_csv] makes of it; [None] when that
    parser raises. *)
Record Response : Type := mkResponse {
  status_code : Z;
  workbook : option ExcelFile;
  csv : option DataFrame
}.

(** [r.raise_for_status()]. *)
Definition raise_for_status (r : Response) : result unit :=
  if (400 <=? status_code r) && (status_code r <? 600) then Raise HTTPError else Ok tt.

Definition WB_URL_PRIMARY : string :=
  "https://www.worldbank.org/content/dam/Worldbank/GEP/GEPcommodities/CMO-Historical-Data-Monthly.xlsx".
Definition WB_URL_FALLBACK : string :=
  "https://thedocs.worldbank.org/en/doc/5d903e848db1d1b83e0ec8f744e55570-0350012021/related/CMO-Historical-Data-Monthly.xlsx".
Definition USGS_WORLD_ITEM_ID : string := "6798fd34d34ea8c18376e8ee".
Definition USGS_WORLD_CSV : string :=
  "https://www.sciencebase.gov/catalog/file/get/" ++ USGS_WORLD_ITEM_ID
  ++ "?name=MCS2025_World_Data.csv".

(** ** The two extractors *)

Section Extractors.

(** [requests.get(url, timeout=60)]: the response, or the exception. *)
Variable requests_get : string -> result Response.

(** The number pandas reads in a text cell under [errors="coerce"]; NaN
    when it reads none. *)
Variable parse_number : string -> float.

(** [pd.to_datetime] on a text that is not of the form YYYY-MM-DD, where
    pandas falls back on a lenient parser. *)
Variable to_datetime_lenient : string -> result Timestamp.

(** [pd.to_numeric(x, errors="coerce")]. *)
Definition to_numeric (x : Cell) : float :=
  match x with
  | CNum f => f
  | CStr s => parse_number s
  end.

(** [pd.to_datetime(s)]: a YYYY-MM-DD text is that date, and raises
    when it names no day of the calendar ([ValueError]) or a day no
    Timestamp can hold ([OutOfBoundsDatetime], a [ValueError]). *)
Definition to_datetime (s : string) : result Timestamp :=
  match parse_iso s with
  | Some (y, m, d) =>
      if valid_date y m d && in_bounds (mkTs y m d)
      then Ok (mkTs y m d) else Raise ValueError
  | None => to_datetime_lenient s
  end.

(** *** fetch_worldbank_price *)

(** [pd.read_excel(xls, sheet_name=name)]. *)
Fixpoint read_excel (xls : ExcelFile) (name : string) : result DataFrame :=
  match xls with
  | [] => Raise ValueError
  | (sn, df) :: rest => if String.eqb sn name then Ok df else read_excel rest name
  end.

(** [df.applymap(lambda x: isinstance(x, str) and "phosphate" in x.lower()).any().any()]. *)
Definition mentions_phosphate (df : DataFrame) : bool :=
  existsb (existsb (contains_lower "phosphate")) (rows df).

(** The scan of all sheets, up to its [break]. *)
Fixpoint scan_sheets (xls : ExcelFile) : option DataFrame :=
  match xls with
  | [] => None
  | (_, df) :: rest => if mentions_phosphate df then Some df else scan_sheets rest
  end.

(** Lines 31-41: [target_df], or [None]. *)
Definition select_sheet (xls : ExcelFile) : option DataFrame :=
  match read_excel xls "Monthly Prices" with
  | Ok df => Some df
  | Raise _ => scan_sheets xls
  end.

(** [f"{c[:4]}-{c[-2:]}-01"]. *)
Definition date_text (c : string) : string :=
  Py.slice_to 4 c ++ "-" ++ Py.slice_last 2 c ++ "-01".

(** Rows of [target_df] whose cell in the first column contains [needle]. *)
Definition rows_containing (needle : string) (target_df : DataFrame) (first_col : string)
  : list (list Cell) :=
  filter (fun r => contains_lower needle (getitem (columns target_df) r first_col))
         (rows target_df).

(** Lines 47-71 on the chosen sheet.  [Ok (Some data)] is [return data],
    [Ok None] is [continue]. *)
Definition extract_series (target_df : DataFrame) : result (option Series) :=
  match columns target_df with
  | [] => Raise IndexError
  | first_col :: _ =>
      let row := rows_containing "phosphate rock" target_df first_col in
      let row := match row with
                 | [] => rows_containing "phosphate" target_df first_col
                 | _ => row
                 end in
      match row with
      | [] => Ok None
      | row :: _ =>
          let ym_cols := filter re_match_ym (columns target_df) in
          match ym_cols with
          | [] => Ok None
          | _ =>
              dates <- mapM (fun c => to_datetime (date_text c)) ym_cols ;;
              let prices := map (fun c => to_numeric (getitem (columns target_df) row c)) ym_cols in
              let data := dropna (combine dates prices) in
              let data := sort_by_date data in
              Ok (Some data)
          end
      end
  end.

(** The body of the loop for one URL (lines 27-71). *)
Definition attempt (url : string) : result (option Series) :=
  r <- requests_get url ;;
  _ <- raise_for_status r ;;
  xls <- match workbook r with Some x => Ok x | None => Raise BadFile end ;;
  match select_sheet xls with
  | None => Ok None
  | Some target_df => extract_series target_df
  end.

(** The loop over the URLs: [continue] and [except Exception: continue]
    both go on to the next URL; after the last one, line 74 raises. *)
Fixpoint try_urls (urls : list string) : result Series :=
  match urls with
  | [] => Raise RuntimeError
  | url :: rest =>
      match attempt url with
      | Ok (Some data) => Ok data
      | Ok None => try_urls rest
      | Raise _ => try_urls rest
      end
  end.

Definition fetch_worldbank_price : result Series :=
  try_urls [WB_URL_PRIMARY; WB_URL_FALLBACK].

(** *** fetch_usgs_world *)

Definition candidates : list string :=
  ["Production"; "Mine Production"; "Mine production"; "World Production"; "Production (kt)"].

(** [next((c for c in candidates if c in df.columns), None)]. *)
Definition value_col_of (cols : list string) : option string :=
  find (fun c => Py.mem c cols) candidates.

(** [isna] on a cell. *)
Definition isna (x : Cell) : bool :=
  match x with
  | CNum f => is_nan f
  | CStr _ => false
  end.

Fixpoint set_at (i : nat) (v : Cell) (row : list Cell) : list Cell :=
  match i, row with
  | O, [] => [v]
  | O, _ :: r => v :: r
  | S i', [] => NaN :: set_at i' v []
  | S i', x :: r => x :: set_at i' v r
  end.

(** The frame with the column labelled [c] coerced to numbers. *)
Definition coerced (c : string) (df : DataFrame) : DataFrame :=
  match Py.index c (columns df) with
  | Some i =>
      mkDF (columns df) (map (fun r => set_at i (CNum (to_numeric (cell_at i r))) r) (rows df))
  | None => df
  end.

(** [df[c] = pd.to_numeric(df[c], errors="coerce")].  Under a label
    that several columns carry, [df[c]] is a frame and [to_numeric]
    refuses it. *)
Definition assign_numeric (c : string) (df : DataFrame) : result DataFrame :=
  match Py.count c (columns df) with
  | O => Raise KeyError
  | S O => Ok (coerced c df)
  | _ => Raise TypeError
  end.

(** [df.rename(columns={old: new})]. *)
Definition rename (old new : string) (df : DataFrame) : DataFrame :=
  mkDF (map (relabel old new) (columns df)) (rows df).

(** [df.dropna(subset=labels)]. *)
Definition dropna_subset (labels : list string) (df : DataFrame) : DataFrame :=
  mkDF (columns df)
       (filter (fun r => forallb (fun c => negb (isna (getitem (columns df) r c))) labels)
               (rows df)).

(** [df.melt(id_vars=..., value_vars=year_cols, var_name="Year",
    value_name="Production")]: one block of rows per year column, in
    the order of the columns.  The cells are looked up by label, which
    is what pandas does on a frame whose labels are distinct; the
    statements about the melt carry that hypothesis.  A column [Year]
    of [df] is an identifier column like the others and stands beside
    the new one. *)
Definition melt (df : DataFrame) (year_cols : list string) : DataFrame :=
  let id_vars := filter (fun c => negb (Py.mem c year_cols)) (columns df) in
  mkDF (id_vars ++ ["Year"; "Production"])%list
       (flat_map (fun yc =>
          map (fun r => (map (getitem (columns df) r) id_vars
                         ++ [CStr yc; getitem (columns df) r yc])%list)
              (rows df))
          year_cols).

(** Lines 95-108, reached when [df] has no named production column.
    When [df] has a column [Year] the melted frame has two, and the
    assignment of line 103 raises. *)
Definition wide_branch (df : DataFrame) : result DataFrame :=
  let year_cols := filter re_match_year (columns df) in
  match year_cols with
  | _ :: _ =>
      let long_df := melt df year_cols in
      long_df <- assign_numeric "Year" long_df ;;
      long_df <- assign_numeric "Production" long_df ;;
      let long_df := rename "Country" "CountryName" long_df in
      Ok (dropna_subset ["Production"; "Year"] long_df)
  | [] => Raise RuntimeError
  end.

(** Lines 110-123: a named production column [value_col] exists. *)
Definition long_branch (df : DataFrame) (value_col : string) : result DataFrame :=
  let df := if Py.mem "Country" (columns df) then rename "Country" "CountryName" df else df in
  df <- (if Py.mem "Year" (columns df) then assign_numeric "Year" df else Ok df) ;;
  df <- assign_numeric value_col df ;;
  let df := rename value_col "Production" df in
  Ok (dropna_subset ["Production"] df).

(** The tables the two branches return when every assignment goes
    through. *)
Definition wide_table (df : DataFrame) : DataFrame :=
  let long_df := melt df (filter re_match_year (columns df)) in
  let long_df := coerced "Year" long_df in
  let long_df := coerced "Production" long_df in
  let long_df := rename "Country" "CountryName" long_df in
  dropna_subset ["Production"; "Year"] long_df.

Definition long_table (df : DataFrame) (value_col : string) : DataFrame :=
  let df := if Py.mem "Country" (columns df) then rename "Country" "CountryName" df else df in
  let df := if Py.mem "Year" (columns df) then coerced "Year" df else df in
  let df := coerced value_col df in
  let df := rename value_col "Production" df in
  dropna_subset ["Production"] df.

(** Lines 84-87: strip the labels, keep the PHOSPHATE ROCK rows.  When
    several stripped labels are [Commodity], [df["Commodity"]] is a
    frame, which has no [.str]. *)
Definition filter_commodity (df : DataFrame) : result DataFrame :=
  let cols := map Py.strip (columns df) in
  match Py.index "Commodity" cols with
  | None => Raise KeyError
  | Some i =>
      if (1 <? Py.count "Commodity" cols)%nat then Raise AttributeError
      else Ok (mkDF cols
                    (filter (fun r => contains_upper "PHOSPHATE ROCK" (cell_at i r)) (rows df)))
  end.

Definition fetch_usgs_world : result DataFrame :=
  r <- requests_get USGS_WORLD_CSV ;;
  _ <- raise_for_status r ;;
  df <- match csv r with Some d => Ok d | None => Raise BadFile end ;;
  df <- filter_commodity df ;;
  match value_col_of (columns df) with
  | None => wide_branch df
  | Some value_col => long_branch df value_col
  end.

End Extractors.

(** ** The price metrics (lines 143-153) *)

(** [df.iloc[-1]] and [df.iloc[-2]]. *)
Definition iloc_last {A : Type} (l : list A) : result A :=
  match rev l with
  | x :: _ => Ok x
  | [] => Raise IndexError
  end.

Definition iloc_second_last {A : Type} (l : list A) : result A :=
  match rev l with
  | _ :: x :: _ => Ok x
  | _ => Raise IndexError
  end.

(** [(new - old) / old * 100] on float64. *)
Definition pct (new old : float) : float := ((new - old) / old * 100)%float.

(** What the three metric tiles show: [None] is the dash. *)
Record Metrics : Type := mkMetrics {
  latest : Timestamp * float;
  delta : option float;
  mom : option float;
  yoy : option float
}.

Definition price_metrics (price_df : Series) : result Metrics :=
  latest <- iloc_last (dropna price_df) ;;
  prev_m <- (if (2 <=? List.length price_df)%nat
             then p <- iloc_second_last (dropna price_df) ;; Ok (Some p)
             else Ok None) ;;
  let prev_y := filter (fun p => ts_eqb (fst p) (minus_one_year (fst latest))) price_df in
  let yoy := match prev_y with
             | old :: _ => Some (pct (snd latest) (snd old))
             | [] => None
             end in
  Ok (mkMetrics latest
        (option_map (fun p => (snd latest - snd p)%float) prev_m)
        (option_map (fun p => pct (snd latest) (snd p)) prev_m)
        yoy).

(** * Vocabulary of the statements *)

(** A label of exactly the form YYYYMmm: seven characters, nothing after
    the month. *)
Definition strict_ym (c : string) : bool :=
  re_match_ym c && (String.length c =? 7)%nat.

Definition label_year (c : string) : Z :=
  match c with
  | String y1 (String y2 (String y3 (String y4 _))) =>
      1000 * Py.digit_val y1 + 100 * Py.digit_val y2 + 10 * Py.digit_val y3 + Py.digit_val y4
  | _ => 0
  end.

Definition label_month (c : string) : Z :=
  match c with
  | String _ (String _ (String _ (String _ (String _ (String m1 (String m2 _)))))) =>
      10 * Py.digit_val m1 + Py.digit_val m2
  | _ => 0
  end.

(** The label names a month of the calendar, in a year that a
    nanosecond Timestamp can hold whole. *)
Definition calendar_label (c : string) : Prop :=
  1678 <= label_year c <= 2261 /\ 1 <= label_month c <= 12.


(** The status is not one [raise_for_status] raises on. *)
Definition status_ok (r : Response) : Prop :=
  status_code r < 400 \/ 600 <= status_code r.

(** Some row carries [needle] in its first cell. *)
Definition has_row (needle : string) (df : DataFrame) : Prop :=
  exists row, In row (rows df) /\ contains_lower needle (cell_at 0 row) = true.

(** The point the YoY tile compares with: the first row dated one year
    before [latest]. *)
Definition year_ago_point (price_df : Series) (latest : Timestamp * float)
  : option (Timestamp * float) :=
  find (fun p => ts_eqb (fst p) (minus_one_year (fst latest))) price_df.

Definition year_cols_of (df : DataFrame) : list string :=
  filter re_match_year (columns df).

Definition id_vars_of (df : DataFrame) : list string :=
  filter (fun c => negb (Py.mem c (year_cols_of df))) (columns df).

(** The record melted from row [r] and year column [yc]. *)
Definition melted_record (parse_number : string -> float)
    (df : DataFrame) (r : list Cell) (yc : string) : list Cell :=
  (map (getitem (columns df) r) (id_vars_of df)
   ++ [CNum (parse_number yc); CNum (to_numeric parse_number (getitem (columns df) r yc))])%list.

(** A source from which lines 27-64 get nothing to extract. *)
Inductive unusable (requests_get : string -> result Response) (url : string) : Prop :=
| transport_failed (e : Exc) :
    requests_get url = Raise e -> unusable requests_get url
| status_refused (r : Response) :
    requests_get url = Ok r -> 400 <= status_code r < 600 -> unusable requests_get url
| not_a_workbook (r : Response) :
    requests_get url = Ok r -> workbook r = None -> unusable requests_get url
| no_sheet (r : Response) (xls : ExcelFile) :
    requests_get url = Ok r -> workbook r = Some xls -> select_sheet xls = None ->
    unusable requests_get url
| no_phosphate_row (r : Response) (xls : ExcelFile) (df : DataFrame) :
    requests_get url = Ok r -> workbook r = Some xls -> select_sheet xls = Some df ->
    (forall row, In row (rows df) -> contains_lower "phosphate" (cell_at 0 row) = false) ->
    unusable requests_get url
| no_year_month_column (r : Response) (xls : ExcelFile) (df : DataFrame) :
    requests_get url = Ok r -> workbook r = Some xls -> select_sheet xls = Some df ->
    (forall c, In c (columns df) -> re_match_ym c = false) ->
    unusable requests_get url.

(** The ways [fetch_usgs_world] fails, with the exception of each. *)
Inductive usgs_failure (requests_get : string -> result Response) : Exc -> Prop :=
| usgs_transport_failed (e : Exc) :
    requests_get USGS_WORLD_CSV = Raise e -> usgs_failure requests_get e
| usgs_status_refused (r : Response) :
    requests_get USGS_WORLD_CSV = Ok r -> 400 <= status_code r < 600 ->
    usgs_failure requests_get HTTPError
| usgs_not_a_csv (r : Response) :
    requests_get USGS_WORLD_CSV = Ok r -> status_ok r -> csv r = None ->
    usgs_failure requests_get BadFile
| usgs_no_commodity_column (r : Response) (raw : DataFrame) :
    requests_get USGS_WORLD_CSV = Ok r -> status_ok r -> csv r = Some raw ->
    (forall c, In c (columns raw) -> Py.strip c <> "Commodity") ->
    usgs_failure requests_get KeyError
| usgs_unknown_layout (r : Response) (raw : DataFrame) :
    requests_get USGS_WORLD_CSV = Ok r -> status_ok r -> csv r = Some raw ->
    (exists c, In c (columns raw) /\ Py.strip c = "Commodity") ->
    (forall c, In c (columns raw) ->
       Py.mem (Py.strip c) candidates = false /\ re_match_year (Py.strip c) = false) ->
    usgs_failure requests_get RuntimeError
| usgs_year_beside_year_columns (r : Response) (raw : DataFrame) :
    requests_get USGS_WORLD_CSV = Ok r -> status_ok r -> csv r = Some raw ->
    (exists c, In c (columns raw) /\ Py.strip c = "Commodity") ->
    (forall c, In c (columns raw) -> Py.mem (Py.strip c) candidates = false) ->
    (exists c, In c (columns raw) /\ re_match_year (Py.strip c) = true) ->
    (exists c, In c (columns raw) /\ Py.strip c = "Year") ->
    usgs_failure requests_get TypeError.

(** Year and production of the pair (year column, row) are both
    present numbers. *)
Definition pair_is_numeric (parse_number : string -> float)
    (df : DataFrame) (yr : string * list Cell) : bool :=
  negb (is_nan (to_numeric parse_number (getitem (columns df) (snd yr) (fst yr))))
  && negb (is_nan (parse_number (fst yr))).

(** The text is whitespace only. *)
Fixpoint all_space (s : string) : bool :=
  match s with
  | EmptyString => true
  | String c s' => Py.is_space c && all_space s'
  end.

(** [a] is not later than [b]. *)
Definition ts_le (a b : Timestamp) : Prop := ts_ltb b a = false.

(** * Sample parameters and inputs *)

(** A reader of text cells that reads plain digit strings of at most
    fifteen digits, as pandas does, and nothing else. *)
Fixpoint digits_value (acc : Z) (s : string) : option Z :=
  match s with
  | EmptyString => Some acc
  | String c s' =>
      if Py.is_digit c then digits_value (10 * acc + Py.digit_val c) s' else None
  end.

Definition sample_parse_number (s : string) : float :=
  match s with
  | EmptyString => nan
  | _ =>
      match digits_value 0 s with
      | Some n =>
          if (String.length s <=? 15)%nat then PrimFloat.of_uint63 (Uint63.of_Z n) else nan
      | None => nan
      end
  end.

(** A lenient date parser that gives up on every text. *)
Definition sample_lenient (s : string) : result Timestamp := Raise ValueError.

(** A network that serves [primary] and [fallback] at the two World
    Bank URLs and [usgs] at the USGS one. *)
Definition serve (primary fallback usgs : result Response) (url : string)
  : result Response :=
  if String.eqb url WB_URL_PRIMARY then primary
  else if String.eqb url WB_URL_FALLBACK then fallback
  else if String.eqb url USGS_WORLD_CSV then usgs
  else Raise RequestException.

Definition serve_workbook (df : DataFrame) : result Response :=
  Ok (mkResponse 200 (Some [("Monthly Prices", df)]) None).

Definition serve_csv (df : DataFrame) : result Response :=
  Ok (mkResponse 200 None (Some df)).

Definition sheet_2023 : DataFrame :=
  mkDF ["Commodity"; "2023M01"; "2023M02"; "2023M03"]
       [[CStr "Phosphate rock (Morocco)"; CNum 100; CNum 110; CNum 121];
        [CStr "Crude oil, average"; CNum 80; CNum 81; CNum 82]].

(** The phosphate rock row has no number in any month. *)
Definition sheet_all_absent : DataFrame :=
  mkDF ["Commodity"; "2023M01"; "2023M02"]
       [[CStr "Phosphate rock (Morocco)"; NaN; NaN]].

Definition sheet_negative : DataFrame :=
  mkDF ["Commodity"; "2023M01"]
       [[CStr "Phosphate rock (Morocco)"; CNum (-5)]].

Definition sheet_month_13 : DataFrame :=
  mkDF ["Commodity"; "2023M12"; "2023M13"]
       [[CStr "Phosphate rock (Morocco)"; CNum 100; CNum 110]].

Definition csv_wide : DataFrame :=
  mkDF ["Commodity"; "Country"; "2020"; "2021"]
       [[CStr "Phosphate rock"; CStr "Morocco"; CNum 37000; CNum 38000];
        [CStr "Phosphate rock"; CStr "China"; CNum 88000; CStr "W"];
        [CStr "Zinc"; CStr "Peru"; CNum 1; CNum 2]].

(** The first row has a year that is no number, the second has no
    production. *)
Definition csv_long : DataFrame :=
  mkDF ["Commodity"; "Country"; "Year"; "Production"]
       [[CStr "Phosphate rock"; CStr "Morocco"; CStr "unknown"; CNum 38000];
        [CStr "Phosphate rock"; CStr "China"; CNum 2023; NaN];
        [CStr "Zinc"; CStr "Peru"; CNum 2023; CNum 5]].

(** [csv_long] after the commodity filter. *)
Definition csv_long_phosphate : DataFrame :=
  mkDF ["Commodity"; "Country"; "Year"; "Production"]
       [[CStr "Phosphate rock"; CStr "Morocco"; CStr "unknown"; CNum 38000];
        [CStr "Phosphate rock"; CStr "China"; CNum 2023; NaN]].


Definition serve_usgs (df : DataFrame) : string -> result Response :=
  serve (Raise RequestException) (Raise RequestException) (serve_csv df).

Definition net_2023 : string -> result Response :=
  serve (serve_workbook sheet_2023) (Raise RequestException) (Raise RequestException).

Definition net_month_13 : string -> result Response :=
  serve (serve_workbook sheet_month_13) (serve_workbook sheet_2023)
        (Raise RequestException).

Definition series_2023 : Series :=
  [(mkTs 2023 1 1, 100%float); (mkTs 2023 2 1, 110%float); (mkTs 2023 3 1, 121%float)].



(** The phosphate rock row comes second. *)
Definition sheet_rock_second : DataFrame :=
  mkDF ["Commodity"; "2023M01"; "2023M02"; "2023M03"]
       [[CStr "Crude oil, average"; CNum 80; CNum 81; CNum 82];
        [CStr "Phosphate rock (Morocco)"; CNum 100; CNum 110; CNum 121];
        [CStr "Phosphate, TSP"; CNum 1; CNum 2; CNum 3]].

(** The primary URL is down, the fallback serves [sheet_2023]. *)
Definition net_primary_down : string -> result Response :=
  serve (Raise RequestException) (serve_workbook sheet_2023) (Raise RequestException).

(** As [net_2023], with another workbook at the fallback URL. *)
Definition net_2023_other_fallback : string -> result Response :=
  serve (serve_workbook sheet_2023) (serve_workbook sheet_negative)
        (Raise RequestException).

(** A sheet with a year that no Timestamp holds. *)
Definition sheet_year_1500 : DataFrame :=
  mkDF ["Commodity"; "1500M01"; "2023M01"]
       [[CStr "Phosphate rock (Morocco)"; CNum 100; CNum 110]].

(** Two labels that are one once stripped. *)
Definition csv_two_commodity : DataFrame :=
  mkDF ["Commodity"; " Commodity"; "Country"; "Year"; "Production"]
       [[CStr "Phosphate rock"; CStr "Phosphate rock"; CStr "Morocco"; CNum 2023; CNum 38000]].

Definition csv_two_year : DataFrame :=
  mkDF ["Commodity"; "Year"; "Year "; "Production"]
       [[CStr "Phosphate rock"; CNum 2023; CNum 2024; CNum 38000]].

(** A table with year columns that has a column Year already. *)
Definition csv_year_beside_years : DataFrame :=
  mkDF ["Commodity"; "Country"; "Year"; "2020"]
       [[CStr "Phosphate rock"; CStr "Morocco"; CNum 2019; CNum 37000]].

(** [csv_wide] after the commodity filter. *)
Definition csv_wide_phosphate : DataFrame :=
  mkDF ["Commodity"; "Country"; "2020"; "2021"]
       [[CStr "Phosphate rock"; CStr "Morocco"; CNum 37000; CNum 38000];
        [CStr "Phosphate rock"; CStr "China"; CNum 88000; CStr "W"]].

(** * Properties *)

(** ** Strings and labels *)

Lemma raise_for_status_ok (r : Response) :
  status_ok r -> raise_for_status r = Ok tt.
Proof.
  unfold status_ok, raise_for_status. intros H.
  destruct (400 <=? status_code r) eqn:E1; destruct (status_code r <? 600) eqn:E2;
    try reflexivity.
  apply Z.leb_le in E1. apply Z.ltb_lt in E2. lia.
Qed.

Lemma is_digit_range (c : ascii) :
  Py.is_digit c = true -> 0 <= Py.digit_val c <= 9.
Proof.
  unfold Py.is_digit, Py.digit_val. intros H.
  apply andb_prop in H. destruct H as [H1 H2].
  apply Z.leb_le in H1. apply Z.leb_le in H2. lia.
Qed.

Lemma digit_val_inj (a b : ascii) : Py.digit_val a = Py.digit_val b -> a = b.
Proof.
  unfold Py.digit_val, Py.code. intros H.
  assert (E : nat_of_ascii a = nat_of_ascii b) by lia.
  rewrite <- (ascii_nat_embedding a), <- (ascii_nat_embedding b), E. reflexivity.
Qed.

Lemma index_mem (c : string) (cols : list string) :
  Py.mem c cols = true -> exists i, Py.index c cols = Some i.
Proof.
  induction cols as [|c' cols IH]; simpl; intros H.
  - discriminate.
  - destruct (String.eqb c c') eqn:E.
    + exists O. reflexivity.
    + simpl in H. destruct (IH H) as [i Hi]. exists (S i). rewrite Hi. reflexivity.
Qed.

Lemma mem_In (c : string) (cols : list string) :
  Py.mem c cols = true <-> In c cols.
Proof.
  unfold Py.mem. rewrite existsb_exists. split.
  - intros [x [Hx E]]. apply String.eqb_eq in E. subst. exact Hx.
  - intros H. exists c. split; [exact H | apply String.eqb_refl].
Qed.

(** What a strict label is made of. *)
Lemma strict_ym_inv (c : string) :
  strict_ym c = true ->
  exists y1 y2 y3 y4 m1 m2,
    c = String y1 (String y2 (String y3 (String y4 (String "M" (String m1 (String m2 ""))))))
    /\ Py.is_digit y1 = true /\ Py.is_digit y2 = true /\ Py.is_digit y3 = true
    /\ Py.is_digit y4 = true /\ Py.is_digit m1 = true /\ Py.is_digit m2 = true.
Proof.
  unfold strict_ym. intros H. apply andb_true_iff in H. destruct H as [Hm Hl].
  destruct c as [|y1 [|y2 [|y3 [|y4 [|m [|m1 [|m2 tl]]]]]]]; try discriminate.
  destruct tl; [|discriminate].
  cbn [re_match_ym] in Hm. rewrite !andb_true_iff in Hm.
  destruct Hm as [[[[[[[H1 H2] H3] H4] HM] H5] H6] _].
  apply Ascii.eqb_eq in HM. subst m.
  exists y1, y2, y3, y4, m1, m2. repeat split; assumption.
Qed.

(** The date text of a strict label is the ISO text of its year and
    month. *)
Lemma date_text_strict (c : string) :
  strict_ym c = true ->
  parse_iso (date_text c) = Some (label_year c, label_month c, 1).
Proof.
  intros H. apply strict_ym_inv in H.
  destruct H as (y1 & y2 & y3 & y4 & m1 & m2 & -> & H1 & H2 & H3 & H4 & H5 & H6).
  change (date_text (String y1 (String y2 (String y3 (String y4
            (String "M" (String m1 (String m2 ""))))))))
    with (String y1 (String y2 (String y3 (String y4
            (String "-" (String m1 (String m2 "-01"))))))).
  unfold parse_iso. rewrite H1, H2, H3, H4, H5, H6.
  reflexivity.
Qed.

Lemma strict_label_inj (a b : string) :
  strict_ym a = true -> strict_ym b = true ->
  label_year a = label_year b -> label_month a = label_month b -> a = b.
Proof.
  intros Ha Hb Hy Hmo.
  apply strict_ym_inv in Ha. apply strict_ym_inv in Hb.
  destruct Ha as (a1 & a2 & a3 & a4 & a5 & a6 & -> & A1 & A2 & A3 & A4 & A5 & A6).
  destruct Hb as (b1 & b2 & b3 & b4 & b5 & b6 & -> & B1 & B2 & B3 & B4 & B5 & B6).
  cbn [label_year label_month] in Hy, Hmo.
  apply is_digit_range in A1, A2, A3, A4, A5, A6, B1, B2, B3, B4, B5, B6.
  assert (E1 : Py.digit_val a1 = Py.digit_val b1) by lia.
  assert (E2 : Py.digit_val a2 = Py.digit_val b2) by lia.
  assert (E3 : Py.digit_val a3 = Py.digit_val b3) by lia.
  assert (E4 : Py.digit_val a4 = Py.digit_val b4) by lia.
  assert (E5 : Py.digit_val a5 = Py.digit_val b5) by lia.
  assert (E6 : Py.digit_val a6 = Py.digit_val b6) by lia.
  apply digit_val_inj in E1, E2, E3, E4, E5, E6. subst. reflexivity.
Qed.

(** ** The order on timestamps and the sort *)

Lemma ts_ltb_spec (a b : Timestamp) :
  ts_ltb a b = true <->
  ts_year a < ts_year b
  \/ (ts_year a = ts_year b
      /\ (ts_month a < ts_month b
          \/ (ts_month a = ts_month b /\ ts_day a < ts_day b))).
Proof.
  unfold ts_ltb.
  rewrite !orb_true_iff, !andb_true_iff, !orb_true_iff, !andb_true_iff,
    !Z.ltb_lt, !Z.eqb_eq.
  reflexivity.
Qed.

Lemma ts_lt_trans (a b c : Timestamp) : ts_lt a b -> ts_lt b c -> ts_lt a c.
Proof. unfold ts_lt. rewrite !ts_ltb_spec. lia. Qed.

Lemma ts_lt_irrefl (a : Timestamp) : ~ ts_lt a a.
Proof. unfold ts_lt. rewrite ts_ltb_spec. lia. Qed.

Lemma ts_ltb_total (a b : Timestamp) :
  ts_ltb a b = false -> a <> b -> ts_ltb b a = true.
Proof.
  intros H Hne. apply ts_ltb_spec.
  assert (N : ~ (ts_ltb a b = true)) by (rewrite H; discriminate).
  rewrite ts_ltb_spec in N.
  destruct a as [ya ma da], b as [yb mb db]. simpl in *.
  assert (~ (ya = yb /\ ma = mb /\ da = db)).
  { intros (-> & -> & ->). apply Hne. reflexivity. }
  lia.
Qed.

Lemma insert_by_date_perm (p : Timestamp * float) (l : Series) :
  Permutation (insert_by_date p l) (p :: l).
Proof.
  induction l as [|q l IH]; simpl.
  - apply Permutation_refl.
  - destruct (ts_ltb (fst p) (fst q)).
    + apply Permutation_refl.
    + eapply Permutation_trans; [apply perm_skip, IH | apply perm_swap].
Qed.

Lemma sort_by_date_perm (l : Series) : Permutation (sort_by_date l) l.
Proof.
  induction l as [|p l IH]; simpl.
  - constructor.
  - eapply Permutation_trans; [apply insert_by_date_perm | apply perm_skip, IH].
Qed.

Lemma insert_by_date_sorted (p : Timestamp * float) (l : Series) :
  StronglySorted ts_lt (map fst l) ->
  ~ In (fst p) (map fst l) ->
  StronglySorted ts_lt (map fst (insert_by_date p l)).
Proof.
  induction l as [|q l IH]; simpl; intros Hs Hn.
  - repeat constructor.
  - inversion Hs as [|x xs Hs' Hall]; subst.
    destruct (ts_ltb (fst p) (fst q)) eqn:E; simpl.
    + constructor; [exact Hs|].
      constructor; [exact E|].
      eapply Forall_impl; [|exact Hall].
      intros t Ht. eapply ts_lt_trans; [exact E | exact Ht].
    + assert (Hqp : ts_lt (fst q) (fst p)).
      { apply ts_ltb_total; [exact E | intros Heq; apply Hn; left; symmetry; exact Heq]. }
      constructor.
      * apply IH; [exact Hs' | intros Hin; apply Hn; right; exact Hin].
      * apply Forall_forall. intros t Ht.
        apply (Permutation_in _ (Permutation_map fst (insert_by_date_perm p l))) in Ht.
        simpl in Ht. destruct Ht as [<- | Ht]; [exact Hqp|].
        rewrite Forall_forall in Hall. apply Hall, Ht.
Qed.

(** Sorting dates that are all different gives a strictly increasing
    series. *)
Lemma sort_by_date_strict (l : Series) :
  NoDup (map fst l) -> StronglySorted ts_lt (map fst (sort_by_date l)).
Proof.
  induction l as [|p l IH]; simpl; intros Hnd.
  - constructor.
  - inversion Hnd as [|x xs Hnin Hnd']; subst.
    apply insert_by_date_sorted; [apply IH, Hnd'|].
    intros Hin. apply Hnin.
    apply (Permutation_in _ (Permutation_map fst (sort_by_date_perm l))), Hin.
Qed.

Lemma strictly_sorted_NoDup (l : list Timestamp) :
  StronglySorted ts_lt l -> NoDup l.
Proof.
  induction 1 as [|a l Hs IH Hall]; constructor; [|exact IH].
  intros Hin. rewrite Forall_forall in Hall.
  exact (ts_lt_irrefl a (Hall a Hin)).
Qed.

(** Dropping rows keeps the dates distinct. *)
Lemma dropna_dates_NoDup (data : Series) :
  NoDup (map fst data) -> NoDup (map fst (dropna data)).
Proof.
  unfold dropna. induction data as [|pt data IH]; simpl; intros Hnd.
  - constructor.
  - apply NoDup_cons_iff in Hnd. destruct Hnd as [Hfresh Hnd].
    destruct (negb (is_nan (snd pt))); simpl; [|apply IH, Hnd].
    apply NoDup_cons_iff. split; [|apply IH, Hnd].
    intros Hin. apply Hfresh. apply in_map_iff in Hin.
    destruct Hin as [q [Hq Hin]]. apply filter_In in Hin.
    apply in_map_iff. exists q. tauto.
Qed.

Lemma map_fst_combine {A B : Type} (l : list A) (l' : list B) :
  List.length l = List.length l' -> map fst (combine l l') = l.
Proof.
  revert l'. induction l as [|a l IH]; intros [|b l'] H; simpl in *;
    try discriminate; [reflexivity|].
  f_equal. apply IH. lia.
Qed.

(** ** Comprehensions that may raise *)

Lemma mapM_ok {A B : Type} (f : A -> result B) (l : list A) (bs : list B) :
  mapM f l = Ok bs -> Forall2 (fun a b => f a = Ok b) l bs.
Proof.
  revert bs. induction l as [|a l IH]; simpl; intros bs H.
  - inversion H. constructor.
  - destruct (f a) as [b|e] eqn:Ea; simpl in H; [|discriminate].
    destruct (mapM f l) as [bs'|e] eqn:El; simpl in H; [|discriminate].
    inversion H; subst. constructor; [exact Ea | apply IH; reflexivity].
Qed.

Lemma mapM_total {A B : Type} (f : A -> result B) (g : A -> B) (l : list A) :
  (forall a, In a l -> f a = Ok (g a)) -> mapM f l = Ok (map g l).
Proof.
  induction l as [|a l IH]; simpl; intros H.
  - reflexivity.
  - rewrite (H a (or_introl eq_refl)). simpl.
    rewrite IH by (intros; apply H; right; assumption). reflexivity.
Qed.

Lemma mapM_raises {A B : Type} (f : A -> result B) (l : list A) (a : A) (e : Exc) :
  In a l -> f a = Raise e -> exists e', mapM f l = Raise e'.
Proof.
  induction l as [|x l IH]; simpl; intros Hin Hf.
  - contradiction.
  - destruct (f x) as [b|e0] eqn:Ex; simpl.
    + destruct Hin as [-> | Hin]; [congruence|].
      destruct (IH Hin Hf) as [e' He']. rewrite He'. simpl. exists e'. reflexivity.
    + exists e0. reflexivity.
Qed.

(** ** The price extractor *)

Lemma filter_all_false {A : Type} (p : A -> bool) (l : list A) :
  (forall a, In a l -> p a = false) -> filter p l = [].
Proof.
  induction l as [|a l IH]; simpl; intros H; [reflexivity|].
  rewrite (H a (or_introl eq_refl)). apply IH. intros b Hb. apply H. right. exact Hb.
Qed.

Lemma filter_first_hit {A : Type} (p : A -> bool) (pre post : list A) (a : A) :
  (forall x, In x pre -> p x = false) -> p a = true ->
  filter p (pre ++ a :: post) = a :: filter p post.
Proof.
  intros Hpre Ha. rewrite filter_app, (filter_all_false p pre Hpre). simpl.
  rewrite Ha. reflexivity.
Qed.

Section PriceProperties.

Variable requests_get : string -> result Response.
Variable parse_number : string -> float.
Variable to_datetime_lenient : string -> result Timestamp.

Local Abbreviation to_datetime' := (to_datetime to_datetime_lenient).
Local Abbreviation extract_series' := (extract_series parse_number to_datetime_lenient).
Local Abbreviation attempt' := (attempt requests_get parse_number to_datetime_lenient).
Local Abbreviation try_urls' := (try_urls requests_get parse_number to_datetime_lenient).
Local Abbreviation fetch_worldbank_price' :=
  (fetch_worldbank_price requests_get parse_number to_datetime_lenient).

Lemma days_in_month_pos (y m : Z) : 1 <= days_in_month y m.
Proof.
  unfold days_in_month.
  destruct (m =? 2); [destruct (is_leap y); lia|].
  destruct ((m =? 4) || (m =? 6) || (m =? 9) || (m =? 11)); lia.
Qed.

Lemma valid_first_of_month (y m : Z) :
  valid_date y m 1 = true <-> 1 <= y /\ 1 <= m <= 12.
Proof.
  unfold valid_date. rewrite !andb_true_iff, !Z.leb_le.
  pose proof (days_in_month_pos y m). lia.
Qed.

Lemma in_bounds_years (ts : Timestamp) :
  in_bounds ts = true -> 1677 <= ts_year ts <= 2262.
Proof.
  unfold in_bounds, ts_ltb, Timestamp_min, Timestamp_max. cbn [ts_year ts_month ts_day].
  rewrite andb_true_iff, !negb_true_iff, !orb_false_iff.
  rewrite !Z.ltb_ge. lia.
Qed.

Lemma in_bounds_first_of_month (y m : Z) :
  1678 <= y <= 2261 -> in_bounds (mkTs y m 1) = true.
Proof.
  intros H. unfold in_bounds, ts_ltb, Timestamp_min, Timestamp_max.
  cbn [ts_year ts_month ts_day].
  replace (y <? 1677) with false by (symmetry; apply Z.ltb_ge; lia).
  replace (y =? 1677) with false by (symmetry; apply Z.eqb_neq; lia).
  replace (2262 <? y) with false by (symmetry; apply Z.ltb_ge; lia).
  replace (2262 =? y) with false by (symmetry; apply Z.eqb_neq; lia).
  reflexivity.
Qed.

(** On a strict label the date is the first day of the labelled month,
    and the construction raises when that month is not on the calendar. *)
Lemma to_datetime_strict_ok (c : string) :
  strict_ym c = true -> calendar_label c ->
  to_datetime' (date_text c) = Ok (mkTs (label_year c) (label_month c) 1).
Proof.
  intros Hs Hc. unfold to_datetime. rewrite (date_text_strict c Hs).
  assert (Hv : valid_date (label_year c) (label_month c) 1 = true).
  { apply valid_first_of_month. unfold calendar_label in Hc. lia. }
  assert (Hb : in_bounds (mkTs (label_year c) (label_month c) 1) = true).
  { apply in_bounds_first_of_month. unfold calendar_label in Hc. lia. }
  rewrite Hv, Hb. reflexivity.
Qed.

Lemma to_datetime_strict_raises (c : string) :
  strict_ym c = true -> ~ (1 <= label_month c <= 12) ->
  to_datetime' (date_text c) = Raise ValueError.
Proof.
  intros Hs Hc. unfold to_datetime. rewrite (date_text_strict c Hs).
  destruct (valid_date (label_year c) (label_month c) 1) eqn:E; [|reflexivity].
  apply valid_first_of_month in E. tauto.
Qed.

(** A year no Timestamp can hold aborts the construction too. *)
Lemma to_datetime_strict_out_of_bounds (c : string) :
  strict_ym c = true -> ~ (1677 <= label_year c <= 2262) ->
  to_datetime' (date_text c) = Raise ValueError.
Proof.
  intros Hs Hc. unfold to_datetime. rewrite (date_text_strict c Hs).
  destruct (in_bounds (mkTs (label_year c) (label_month c) 1)) eqn:E;
    [|rewrite andb_false_r; reflexivity].
  apply in_bounds_years in E. cbn [ts_year] in E. lia.
Qed.

Lemma to_datetime_strict_inv (c : string) (ts : Timestamp) :
  strict_ym c = true -> to_datetime' (date_text c) = Ok ts ->
  ts = mkTs (label_year c) (label_month c) 1.
Proof.
  intros Hs H. unfold to_datetime in H. rewrite (date_text_strict c Hs) in H.
  destruct (valid_date (label_year c) (label_month c) 1
            && in_bounds (mkTs (label_year c) (label_month c) 1)); congruence.
Qed.

(** What a returning run of lines 47-71 has computed. *)
Lemma extract_series_returns (df : DataFrame) (data : Series) :
  extract_series' df = Ok (Some data) ->
  exists row dates,
    mapM (fun c => to_datetime' (date_text c)) (filter re_match_ym (columns df)) = Ok dates
    /\ data = sort_by_date (dropna (combine dates
                (map (fun c => to_numeric parse_number (getitem (columns df) row c))
                     (filter re_match_ym (columns df))))).
Proof.
  unfold extract_series. intros H.
  destruct (columns df) as [|first_col tl] eqn:Ecols; [discriminate|].
  rewrite <- Ecols in *.
  match type of H with
  | match ?rows with _ => _ end = _ => destruct rows as [|row rest]; [discriminate|]
  end.
  destruct (filter re_match_ym (columns df)) as [|c0 ym] eqn:Eym; [discriminate|].
  match type of H with
  | bind ?m _ = _ => destruct m as [dates|e] eqn:Em; simpl in H; [|discriminate]
  end.
  exists row, dates. split; [reflexivity|].
  inversion H. reflexivity.
Qed.

Lemma attempt_returns (url : string) (data : Series) :
  attempt' url = Ok (Some data) ->
  exists r xls df,
    requests_get url = Ok r /\ workbook r = Some xls
    /\ select_sheet xls = Some df /\ extract_series' df = Ok (Some data).
Proof.
  unfold attempt. intros H.
  destruct (requests_get url) as [r|e] eqn:Er; simpl in H; [|discriminate].
  destruct (raise_for_status r) as [[]|e]; simpl in H; [|discriminate].
  destruct (workbook r) as [xls|] eqn:Ew; simpl in H; [|discriminate].
  destruct (select_sheet xls) as [df|] eqn:Es; [|discriminate].
  exists r, xls, df. auto.
Qed.

Lemma try_urls_returns (urls : list string) (data : Series) :
  try_urls' urls = Ok data ->
  exists url, In url urls /\ attempt' url = Ok (Some data).
Proof.
  induction urls as [|url rest IH]; simpl; intros H; [discriminate|].
  destruct (attempt' url) as [[d|]|e] eqn:Ea.
  - inversion H; subst. exists url. auto.
  - destruct (IH H) as [u [Hu Ha]]. exists u. auto.
  - destruct (IH H) as [u [Hu Ha]]. exists u. auto.
Qed.

(** When the URL at the head of the list does not return a series, the
    loop goes on with the rest. *)
Lemma try_urls_skip (url : string) (rest : list string) :
  (forall data, attempt' url <> Ok (Some data)) ->
  try_urls' (url :: rest) = try_urls' rest.
Proof.
  intros H. simpl. destruct (attempt' url) as [[d|]|e] eqn:Ea; try reflexivity.
  exfalso. exact (H d eq_refl).
Qed.

Lemma dropna_no_nan (data : Series) :
  Forall (fun p => is_nan (snd p) = false) (dropna data).
Proof.
  apply Forall_forall. intros p Hp. unfold dropna in Hp.
  apply filter_In in Hp. destruct Hp as [_ Hp].
  apply negb_true_iff in Hp. exact Hp.
Qed.

Lemma filter_nonempty {A : Type} (p : A -> bool) (l : list A) (a : A) :
  In a l -> p a = true -> filter p l <> [].
Proof.
  intros Hin Hp E.
  assert (H : In a (filter p l)) by (apply filter_In; auto).
  rewrite E in H. exact H.
Qed.

Lemma getitem_first (c : string) (tl : list string) (row : list Cell) :
  getitem (c :: tl) row c = cell_at 0 row.
Proof. unfold getitem. simpl. rewrite String.eqb_refl. reflexivity. Qed.

Lemma rows_containing_nonempty (needle : string) (df : DataFrame) (c : string) (tl : list string) :
  columns df = c :: tl -> has_row needle df -> rows_containing needle df c <> [].
Proof.
  intros Ecols [row [Hin Hc]]. unfold rows_containing.
  apply (filter_nonempty _ _ row Hin).
  rewrite Ecols, getitem_first. exact Hc.
Qed.

Lemma dates_of_strict_labels (ym : list string) (dates : list Timestamp) :
  (forall c, In c ym -> strict_ym c = true) ->
  mapM (fun c => to_datetime' (date_text c)) ym = Ok dates ->
  dates = map (fun c => mkTs (label_year c) (label_month c) 1) ym.
Proof.
  intros Hs H. apply mapM_ok in H.
  induction H as [|c ts ym dates Hc _ IH]; [reflexivity|].
  simpl. f_equal.
  - apply to_datetime_strict_inv; [apply Hs; left; reflexivity | exact Hc].
  - apply IH. intros c' Hc'. apply Hs. right. exact Hc'.
Qed.

(** The series of a sheet with distinct, strict labels is strictly
    increasing in its dates. *)
Lemma extract_series_sorted (df : DataFrame) (data : Series) :
  NoDup (columns df) ->
  (forall c, In c (columns df) -> re_match_ym c = true -> strict_ym c = true) ->
  extract_series' df = Ok (Some data) ->
  StronglySorted ts_lt (map fst data).
Proof.
  intros Hnd Hstrict H.
  apply extract_series_returns in H. destruct H as (row & dates & Hm & ->).
  set (ym := filter re_match_ym (columns df)) in *.
  assert (Hym : forall c, In c ym -> strict_ym c = true).
  { intros c Hc. apply filter_In in Hc. destruct Hc. apply Hstrict; assumption. }
  pose proof (dates_of_strict_labels ym dates Hym Hm) as Hd.
  apply sort_by_date_strict, dropna_dates_NoDup.
  rewrite map_fst_combine.
  - rewrite Hd. apply NoDup_map_NoDup_ForallPairs; [|apply NoDup_filter, Hnd].
    intros a b Ha Hb E. inversion E.
    apply strict_label_inj; auto.
  - rewrite Hd, !length_map. reflexivity.
Qed.

(** A sheet with a phosphate rock row and strict calendar labels yields
    a series. *)
Lemma extract_series_total (df : DataFrame) :
  (forall c, In c (columns df) -> re_match_ym c = true ->
             strict_ym c = true /\ calendar_label c) ->
  has_row "phosphate rock" df ->
  (exists c, In c (columns df) /\ re_match_ym c = true) ->
  exists data, extract_series' df = Ok (Some data).
Proof.
  intros Hlab Hrow [c0 [Hc0 Hm0]]. unfold extract_series.
  destruct (columns df) as [|first_col tl] eqn:Ecols; [contradiction|].
  rewrite <- Ecols in *.
  pose proof (rows_containing_nonempty _ df first_col tl Ecols Hrow) as Hne.
  destruct (rows_containing "phosphate rock" df first_col) as [|row rest];
    [contradiction|].
  pose proof (filter_nonempty re_match_ym _ c0 Hc0 Hm0) as Hym.
  destruct (filter re_match_ym (columns df)) as [|c1 ym] eqn:Eym; [contradiction|].
  rewrite (mapM_total _ (fun c => mkTs (label_year c) (label_month c) 1)).
  - simpl. eexists. reflexivity.
  - intros c Hc. rewrite <- Eym in Hc. apply filter_In in Hc. destruct Hc as [Hc Hm].
    destruct (Hlab c Hc Hm). apply to_datetime_strict_ok; assumption.
Qed.

Lemma attempt_on_sheet (url : string) (r : Response) (xls : ExcelFile) (df : DataFrame) :
  requests_get url = Ok r -> status_ok r -> workbook r = Some xls ->
  select_sheet xls = Some df ->
  attempt' url = extract_series' df.
Proof.
  intros Hr Hs Hw Hsel. unfold attempt.
  rewrite Hr. simpl. rewrite (raise_for_status_ok r Hs). simpl.
  rewrite Hw. simpl. rewrite Hsel. reflexivity.
Qed.

(** C5: for a price workbook served with a success status whose chosen
    sheet has distinct labels, a phosphate rock row and at least one
    year-month column, all year-month columns being YYYYMmm labels of
    calendar months (in years a Timestamp holds), the extractor returns
    a series whose dates are
    strictly increasing (sorted ascending, no month twice); it is the
    result of [fetch_worldbank_price] when the workbook is the primary
    one, or the fallback one after a primary attempt that returned
    nothing. *)
Theorem price_series_strictly_increasing
    (url : string) (r : Response) (xls : ExcelFile) (df : DataFrame) :
  requests_get url = Ok r -> status_ok r -> workbook r = Some xls ->
  select_sheet xls = Some df ->
  NoDup (columns df) ->
  (forall c, In c (columns df) -> re_match_ym c = true ->
             strict_ym c = true /\ calendar_label c) ->
  has_row "phosphate rock" df ->
  (exists c, In c (columns df) /\ re_match_ym c = true) ->
  exists data,
    attempt' url = Ok (Some data)
    /\ StronglySorted ts_lt (map fst data)
    /\ NoDup (map fst data)
    /\ (url = WB_URL_PRIMARY -> fetch_worldbank_price' = Ok data)
    /\ (url = WB_URL_FALLBACK ->
        (forall d, attempt' WB_URL_PRIMARY <> Ok (Some d)) ->
        fetch_worldbank_price' = Ok data).
Proof.
  intros Hr Hs Hw Hsel Hnd Hlab Hrow Hym.
  destruct (extract_series_total df Hlab Hrow Hym) as [data Hdata].
  assert (Ha : attempt' url = Ok (Some data)).
  { rewrite (attempt_on_sheet url r xls df); assumption. }
  assert (Hsorted : StronglySorted ts_lt (map fst data)).
  { apply (extract_series_sorted df); [exact Hnd | | exact Hdata].
    intros c Hc Hm. apply (Hlab c Hc Hm). }
  exists data. repeat split.
  - exact Ha.
  - exact Hsorted.
  - apply strictly_sorted_NoDup, Hsorted.
  - intros ->. unfold fetch_worldbank_price. simpl. rewrite Ha. reflexivity.
  - intros -> Hp. unfold fetch_worldbank_price.
    rewrite (try_urls_skip _ _ Hp). simpl. rewrite Ha. reflexivity.
Qed.

(** C9: when the chosen sheet of a URL has a YYYYMmm label whose month
    is not a calendar month, that URL returns no series at all (not
    even a partial one without the column) and the loop goes on with
    the next URL; when a phosphate row was found, the attempt ended by
    the exception of the date construction. *)
Theorem invalid_month_label_aborts_url
    (url : string) (rest : list string) (r : Response) (xls : ExcelFile)
    (df : DataFrame) (c : string) :
  requests_get url = Ok r -> workbook r = Some xls -> select_sheet xls = Some df ->
  In c (columns df) -> strict_ym c = true -> ~ (1 <= label_month c <= 12) ->
  (forall data, attempt' url <> Ok (Some data))
  /\ try_urls' (url :: rest) = try_urls' rest
  /\ (status_ok r -> has_row "phosphate" df -> exists e, attempt' url = Raise e).
Proof.
  intros Hr Hw Hsel Hc Hs Hbad.
  assert (Hre : re_match_ym c = true).
  { unfold strict_ym in Hs. apply andb_true_iff in Hs. tauto. }
  assert (Hraise : exists e,
             mapM (fun c => to_datetime' (date_text c)) (filter re_match_ym (columns df))
             = Raise e).
  { apply (mapM_raises _ _ c ValueError).
    - apply filter_In. auto.
    - apply to_datetime_strict_raises; assumption. }
  destruct Hraise as [e He].
  assert (Hno : forall data, attempt' url <> Ok (Some data)).
  { intros data Ha. apply attempt_returns in Ha.
    destruct Ha as (r' & xls' & df' & Hr' & Hw' & Hsel' & Hx).
    assert (r' = r) by congruence. subst r'.
    assert (xls' = xls) by congruence. subst xls'.
    assert (df' = df) by congruence. subst df'.
    apply extract_series_returns in Hx. destruct Hx as (row & dates & Hm & _).
    congruence. }
  split; [exact Hno|]. split; [apply try_urls_skip, Hno|].
  intros Hst Hrow. rewrite (attempt_on_sheet url r xls df Hr Hst Hw Hsel).
  unfold extract_series.
  destruct (columns df) as [|first_col tl] eqn:Ecols; [contradiction|].
  rewrite <- Ecols in *.
  pose proof (rows_containing_nonempty _ df first_col tl Ecols Hrow) as Hne.
  assert (Hrows : exists row rs,
             match rows_containing "phosphate rock" df first_col with
             | [] => rows_containing "phosphate" df first_col
             | _ => rows_containing "phosphate rock" df first_col
             end = row :: rs).
  { destruct (rows_containing "phosphate rock" df first_col) as [|row rs].
    - destruct (rows_containing "phosphate" df first_col) as [|row rs];
        [contradiction | eauto].
    - eauto. }
  destruct Hrows as (row & rs & ->).
  destruct (filter re_match_ym (columns df)) as [|c1 ym] eqn:Eym; [discriminate|].
  rewrite He. simpl. exists e. reflexivity.
Qed.

(** C8 (as amended): every price of a returned series is a number that
    is present (not NaN); its sign is not looked at. *)
Theorem returned_prices_are_present (data : Series) :
  fetch_worldbank_price' = Ok data ->
  Forall (fun p => is_nan (snd p) = false) data.
Proof.
  intros H. apply try_urls_returns in H. destruct H as (url & _ & Ha).
  apply attempt_returns in Ha. destruct Ha as (r & xls & df & _ & _ & _ & Hx).
  apply extract_series_returns in Hx. destruct Hx as (row & dates & _ & ->).
  apply Forall_forall. intros p Hp.
  apply (Permutation_in _ (sort_by_date_perm _)) in Hp.
  pose proof (dropna_no_nan (combine dates
     (map (fun c => to_numeric parse_number (getitem (columns df) row c))
          (filter re_match_ym (columns df))))) as Hall.
  rewrite Forall_forall in Hall. apply Hall, Hp.
Qed.

End PriceProperties.

Section PriceExamples.

Variable requests_get : string -> result Response.
Variable parse_number : string -> float.
Variable to_datetime_lenient : string -> result Timestamp.

(** C7: a "Monthly Prices" sheet whose columns after the first are
    2023M01, 2023M02, 2023M03, and in which the first row that names
    phosphate rock, wherever it stands among the rows, holds under
    these columns cells read as 100, 110 and 121, yields exactly the
    three points (2023-01-01, 100), (2023-02-01, 110),
    (2023-03-01, 121): the cells are those of the matched row, not of
    the rows before it.  In general the date of a YYYYMmm column is the
    first day of month mm of year YYYY. *)
Theorem synthetic_wide_table_roundtrip
    (r : Response) (first_col name : string) (c1 c2 c3 : Cell)
    (before others : list (list Cell)) :
  requests_get WB_URL_PRIMARY = Ok r -> status_ok r ->
  workbook r = Some [("Monthly Prices",
                      mkDF [first_col; "2023M01"; "2023M02"; "2023M03"]
                           (before ++ [CStr name; c1; c2; c3] :: others))] ->
  re_match_ym first_col = false ->
  (forall row, In row before ->
     contains_lower "phosphate rock" (cell_at 0 row) = false) ->
  Py.str_in "phosphate rock" (Py.lower name) = true ->
  to_numeric parse_number c1 = 100%float ->
  to_numeric parse_number c2 = 110%float ->
  to_numeric parse_number c3 = 121%float ->
  fetch_worldbank_price requests_get parse_number to_datetime_lenient
  = Ok [(mkTs 2023 1 1, 100%float); (mkTs 2023 2 1, 110%float); (mkTs 2023 3 1, 121%float)]
  /\ (forall c, strict_ym c = true -> calendar_label c ->
       to_datetime to_datetime_lenient (date_text c)
       = Ok (mkTs (label_year c) (label_month c) 1)).
Proof.
  intros Hr Hs Hw Hfirst Hbefore Hname H1 H2 H3.
  split; [|apply to_datetime_strict_ok].
  assert (N1 : String.eqb "2023M01" first_col = false).
  { destruct (String.eqb_spec "2023M01" first_col) as [<-|]; [discriminate | reflexivity]. }
  assert (N2 : String.eqb "2023M02" first_col = false).
  { destruct (String.eqb_spec "2023M02" first_col) as [<-|]; [discriminate | reflexivity]. }
  assert (N3 : String.eqb "2023M03" first_col = false).
  { destruct (String.eqb_spec "2023M03" first_col) as [<-|]; [discriminate | reflexivity]. }
  assert (I1 : forall row, getitem [first_col; "2023M01"; "2023M02"; "2023M03"] row "2023M01"
                           = cell_at 1 row).
  { intros row. unfold getitem. cbn [Py.index]. rewrite N1. reflexivity. }
  assert (I2 : forall row, getitem [first_col; "2023M01"; "2023M02"; "2023M03"] row "2023M02"
                           = cell_at 2 row).
  { intros row. unfold getitem. cbn [Py.index]. rewrite N2. reflexivity. }
  assert (I3 : forall row, getitem [first_col; "2023M01"; "2023M02"; "2023M03"] row "2023M03"
                           = cell_at 3 row).
  { intros row. unfold getitem. cbn [Py.index]. rewrite N3. reflexivity. }
  unfold fetch_worldbank_price. cbn [try_urls].
  rewrite (attempt_on_sheet _ _ _ _ r _ _ Hr Hs Hw eq_refl).
  unfold extract_series, rows_containing. cbn [columns rows].
  rewrite (filter_first_hit _ before others [CStr name; c1; c2; c3]).
  - cbn [filter]. rewrite Hfirst.
    change (re_match_ym "2023M01") with true.
    change (re_match_ym "2023M02") with true.
    change (re_match_ym "2023M03") with true.
    cbn [map]. rewrite I1, I2, I3. cbn [cell_at nth]. rewrite H1, H2, H3.
    reflexivity.
  - intros row Hrow. rewrite getitem_first. apply Hbefore, Hrow.
  - rewrite getitem_first. exact Hname.
Qed.

(** C1: on a primary workbook whose phosphate rock row has no number in
    any year-month column, the extractor returns the empty series; it
    neither goes on to the fallback URL, which serves a usable
    workbook here, nor raises.  The metrics code then fails on the
    empty series. *)
Theorem all_absent_row_returns_empty_series :
  fetch_worldbank_price
    (serve (serve_workbook sheet_all_absent) (serve_workbook sheet_2023)
           (Raise RequestException))
    parse_number to_datetime_lenient
  = Ok []
  /\ fetch_worldbank_price
       (serve (Raise RequestException) (serve_workbook sheet_2023)
              (Raise RequestException))
       parse_number to_datetime_lenient
     = Ok [(mkTs 2023 1 1, 100%float); (mkTs 2023 2 1, 110%float); (mkTs 2023 3 1, 121%float)]
  /\ price_metrics [] = Raise IndexError.
Proof. repeat split; reflexivity. Qed.

End PriceExamples.

(** C8, as stated, fails: a negative number in the sheet is returned as
    a negative price. *)
Lemma negative_price_is_returned :
  fetch_worldbank_price
    (serve (serve_workbook sheet_negative) (Raise RequestException)
           (Raise RequestException))
    sample_parse_number sample_lenient
  = Ok [(mkTs 2023 1 1, (-5)%float)]
  /\ ((-5) <? 0)%float = true.
Proof. split; reflexivity. Qed.

(** ** Float facts: a division by zero *)

Section FloatFacts.
Local Open Scope float_scope.





End FloatFacts.

(** ** The price metrics *)

Lemma dropna_id (price_df : Series) :
  Forall (fun p => is_nan (snd p) = false) price_df -> dropna price_df = price_df.
Proof.
  unfold dropna. induction 1 as [|p l Hp _ IH]; simpl; [reflexivity|].
  rewrite Hp. simpl. rewrite IH. reflexivity.
Qed.

Lemma iloc_last_ok {A : Type} (l : list A) :
  l <> [] -> exists x, iloc_last l = Ok x /\ In x l.
Proof.
  intros Hne. unfold iloc_last.
  destruct (rev l) as [|x r] eqn:E.
  - exfalso. apply Hne. rewrite <- (rev_involutive l), E. reflexivity.
  - exists x. split; [reflexivity|]. apply in_rev. rewrite E. left. reflexivity.
Qed.

Lemma iloc_second_last_ok {A : Type} (l : list A) :
  (2 <= List.length l)%nat -> exists x, iloc_second_last l = Ok x.
Proof.
  intros Hlen. unfold iloc_second_last.
  rewrite <- length_rev in Hlen.
  destruct (rev l) as [|x [|y r]]; simpl in Hlen; try lia.
  exists y. reflexivity.
Qed.

Lemma iloc_second_last_short {A : Type} (l : list A) :
  (List.length l < 2)%nat -> exists e, iloc_second_last l = Raise e.
Proof.
  intros Hlen. unfold iloc_second_last.
  rewrite <- length_rev in Hlen.
  destruct (rev l) as [|x [|y r]]; simpl in Hlen; try lia; eexists; reflexivity.
Qed.

Lemma filter_head_find {A : Type} (p : A -> bool) (l : list A) :
  match filter p l with x :: _ => Some x | [] => None end = find p l.
Proof.
  induction l as [|a l IH]; simpl; [reflexivity|].
  destruct (p a); [reflexivity | exact IH].
Qed.

(** On a non-empty series without NaN the metrics code runs to the end;
    this is what it computes. *)
Lemma price_metrics_shape (price_df : Series) :
  price_df <> [] ->
  Forall (fun p => is_nan (snd p) = false) price_df ->
  exists lt pm,
    iloc_last price_df = Ok lt /\ In lt price_df
    /\ (forall prev, iloc_second_last price_df = Ok prev <-> pm = Some prev)
    /\ price_metrics price_df
       = Ok (mkMetrics lt
               (option_map (fun p => (snd lt - snd p)%float) pm)
               (option_map (fun p => pct (snd lt) (snd p)) pm)
               (option_map (fun old => pct (snd lt) (snd old))
                           (year_ago_point price_df lt))).
Proof.
  intros Hne Hnan. unfold price_metrics. rewrite (dropna_id _ Hnan).
  destruct (iloc_last_ok price_df Hne) as [lt [Hlt Hin]].
  rewrite Hlt. cbn [bind].
  assert (Hyoy : forall lt0 : Timestamp * float,
     match filter (fun p => ts_eqb (fst p) (minus_one_year (fst lt0))) price_df with
     | old :: _ => Some (pct (snd lt0) (snd old))
     | [] => None
     end = option_map (fun old => pct (snd lt0) (snd old)) (year_ago_point price_df lt0)).
  { intros lt0. unfold year_ago_point. rewrite <- filter_head_find.
    destruct (filter _ price_df); reflexivity. }
  destruct (2 <=? List.length price_df)%nat eqn:Elen.
  - apply Nat.leb_le in Elen.
    destruct (iloc_second_last_ok price_df Elen) as [prev Hprev].
    exists lt, (Some prev). rewrite Hprev. cbn [bind]. rewrite Hyoy.
    split; [reflexivity|]. split; [exact Hin|]. split; [|reflexivity].
    intros prev'. split; intros H; congruence.
  - apply Nat.leb_gt in Elen.
    destruct (iloc_second_last_short price_df Elen) as [e He].
    exists lt, None. cbn [bind]. rewrite Hyoy.
    split; [reflexivity|]. split; [exact Hin|]. split; [|reflexivity].
    intros prev'. split; intros H; congruence.
Qed.





(** ** The production extractor *)

Lemma cell_at_set_at (i : nat) (v : Cell) (row : list Cell) :
  cell_at i (set_at i v row) = v.
Proof.
  revert row. induction i as [|i IH]; intros [|x row]; simpl; try reflexivity.
  - apply (IH []).
  - apply IH.
Qed.

Lemma set_at_app (ids : list Cell) (i : nat) (v : Cell) (tl : list Cell) :
  set_at (List.length ids + i) v (ids ++ tl) = (ids ++ set_at i v tl)%list.
Proof.
  induction ids as [|x ids IH]; simpl; [reflexivity|].
  rewrite IH. reflexivity.
Qed.

Lemma cell_at_app (ids : list Cell) (i : nat) (tl : list Cell) :
  cell_at (List.length ids + i) (ids ++ tl) = cell_at i tl.
Proof.
  unfold cell_at. induction ids as [|x ids IH]; simpl; [reflexivity | exact IH].
Qed.

Lemma index_app_absent (c : string) (ids tl : list string) :
  Py.mem c ids = false ->
  Py.index c (ids ++ tl)
  = option_map (fun i => (List.length ids + i)%nat) (Py.index c tl).
Proof.
  induction ids as [|x ids IH]; simpl; intros H.
  - destruct (Py.index c tl); reflexivity.
  - apply orb_false_iff in H. destruct H as [Hx Hids].
    rewrite Hx, (IH Hids). destruct (Py.index c tl); reflexivity.
Qed.

Lemma rename_columns (old new : string) (df : DataFrame) :
  columns (rename old new df) = map (relabel old new) (columns df).
Proof. reflexivity. Qed.

Lemma index_relabel_other (old new c : string) (cols : list string) :
  c <> old -> c <> new ->
  Py.index c (map (relabel old new) cols) = Py.index c cols.
Proof.
  intros Ho Hn. induction cols as [|x cols IH]; simpl; [reflexivity|].
  rewrite IH. unfold relabel.
  destruct (String.eqb_spec x old) as [->|Hx].
  - apply String.eqb_neq in Ho, Hn. rewrite Ho, Hn. reflexivity.
  - reflexivity.
Qed.

Lemma mem_relabel_other (old new c : string) (cols : list string) :
  c <> old -> c <> new ->
  Py.mem c (map (relabel old new) cols) = Py.mem c cols.
Proof.
  intros Ho Hn. unfold Py.mem.
  induction cols as [|x cols IH]; cbn [map existsb]; [reflexivity|].
  rewrite IH. unfold relabel.
  destruct (String.eqb_spec x old) as [->|Hx].
  - apply String.eqb_neq in Ho, Hn. rewrite Ho, Hn. reflexivity.
  - reflexivity.
Qed.

(** Renaming [old] to a label that is new to the frame puts the new
    label where the old one was. *)
Lemma index_relabel_to (old new : string) (cols : list string) :
  new = old \/ Py.mem new cols = false ->
  Py.index new (map (relabel old new) cols) = Py.index old cols.
Proof.
  intros H. induction cols as [|x cols IH]; simpl; [reflexivity|].
  assert (H' : new = old \/ Py.mem new cols = false).
  { destruct H as [H|H]; [left; exact H | right].
    simpl in H. apply orb_false_iff in H. tauto. }
  rewrite (IH H'). unfold relabel.
  destruct (String.eqb_spec x old) as [->|Hx].
  - rewrite String.eqb_refl, String.eqb_refl. reflexivity.
  - destruct H as [->|H].
    + apply String.eqb_neq in Hx. rewrite String.eqb_sym in Hx. rewrite Hx. reflexivity.
    + simpl in H. apply orb_false_iff in H. destruct H as [H _].
      rewrite H.
      destruct (String.eqb_spec old x) as [->|]; [contradiction | reflexivity].
Qed.

(** *** Repeated labels *)

Lemma count_zero_mem (c : string) (cols : list string) :
  Py.count c cols = 0%nat <-> Py.mem c cols = false.
Proof.
  unfold Py.count, Py.mem.
  induction cols as [|x cols IH]; cbn [filter existsb List.length]; [tauto|].
  destruct (String.eqb c x); cbn [List.length orb]; [split; discriminate | exact IH].
Qed.

Lemma count_app (c : string) (a b : list string) :
  Py.count c (a ++ b) = (Py.count c a + Py.count c b)%nat.
Proof. unfold Py.count. rewrite filter_app, length_app. reflexivity. Qed.

Lemma count_relabel_other (old new c : string) (cols : list string) :
  c <> old -> c <> new ->
  Py.count c (map (relabel old new) cols) = Py.count c cols.
Proof.
  intros Ho Hn. unfold Py.count.
  induction cols as [|x cols IH]; cbn [map filter]; [reflexivity|].
  unfold relabel at 1.
  destruct (String.eqb_spec x old) as [->|Hx].
  - apply String.eqb_neq in Ho, Hn. rewrite Ho, Hn. exact IH.
  - destruct (String.eqb c x); cbn [List.length]; rewrite IH; reflexivity.
Qed.

Lemma count_NoDup (c : string) (cols : list string) :
  NoDup cols -> (Py.count c cols <= 1)%nat.
Proof.
  induction 1 as [|x cols Hx _ IH]; [unfold Py.count; simpl; lia|].
  unfold Py.count in *. cbn [filter].
  destruct (String.eqb_spec c x) as [->|Hc]; [|exact IH].
  cbn [List.length].
  assert (H0 : Py.count x cols = 0%nat).
  { apply count_zero_mem. destruct (Py.mem x cols) eqn:E; [|reflexivity].
    apply mem_In in E. contradiction. }
  unfold Py.count in H0. rewrite H0. lia.
Qed.

Lemma count_single (c : string) (cols : list string) :
  NoDup cols -> Py.mem c cols = true -> Py.count c cols = 1%nat.
Proof.
  intros Hnd Hm. pose proof (count_NoDup c cols Hnd) as Hle.
  destruct (Py.count c cols) as [|n] eqn:E; [|lia].
  apply count_zero_mem in E. congruence.
Qed.

Lemma mem_filter (p : string -> bool) (c : string) (cols : list string) :
  Py.mem c (filter p cols) = Py.mem c cols && p c.
Proof.
  unfold Py.mem. induction cols as [|x cols IH]; cbn [filter existsb]; [reflexivity|].
  destruct (String.eqb_spec c x) as [->|Hc].
  - destruct (p x); cbn [existsb orb andb].
    + rewrite String.eqb_refl. reflexivity.
    + rewrite IH. rewrite andb_false_r. reflexivity.
  - destruct (p x); cbn [existsb orb]; [|exact IH].
    apply String.eqb_neq in Hc. rewrite Hc. exact IH.
Qed.

Lemma count_filter_keep (q : string -> bool) (c : string) (cols : list string) :
  q c = true -> Py.count c (filter q cols) = Py.count c cols.
Proof.
  intros Hq. unfold Py.count.
  induction cols as [|x cols IH]; cbn [filter]; [reflexivity|].
  destruct (String.eqb_spec c x) as [<-|Hx].
  - rewrite Hq. cbn [filter]. rewrite String.eqb_refl. cbn [List.length].
    f_equal. exact IH.
  - destruct (q x); cbn [filter]; [|exact IH].
    apply String.eqb_neq in Hx. rewrite Hx. exact IH.
Qed.

Section UsgsChecks.

Variable parse_number : string -> float.

Local Abbreviation coerced' := (coerced parse_number).
Local Abbreviation assign_numeric' := (assign_numeric parse_number).
Local Abbreviation wide_branch' := (wide_branch parse_number).
Local Abbreviation long_branch' := (long_branch parse_number).
Local Abbreviation wide_table' := (wide_table parse_number).
Local Abbreviation long_table' := (long_table parse_number).

Lemma coerced_columns (c : string) (df : DataFrame) :
  columns (coerced' c df) = columns df.
Proof. unfold coerced. destruct (Py.index c (columns df)); reflexivity. Qed.

(** The assignment goes through exactly on a label that one column
    carries. *)
Lemma assign_numeric_ok (c : string) (df d : DataFrame) :
  assign_numeric' c df = Ok d <->
  Py.count c (columns df) = 1%nat /\ d = coerced' c df.
Proof.
  unfold assign_numeric.
  destruct (Py.count c (columns df)) as [|[|n]]; split.
  - discriminate.
  - intros [H _]. discriminate.
  - intros H. inversion H. auto.
  - intros [_ ->]. reflexivity.
  - discriminate.
  - intros [H _]. discriminate.
Qed.

Lemma assign_numeric_raises (c : string) (df : DataFrame) (e : Exc) :
  assign_numeric' c df = Raise e <->
  (e = KeyError /\ Py.mem c (columns df) = false)
  \/ (e = TypeError /\ (2 <= Py.count c (columns df))%nat).
Proof.
  unfold assign_numeric. rewrite <- count_zero_mem.
  destruct (Py.count c (columns df)) as [|[|n]]; split.
  - intros H. inversion H. left. auto.
  - intros [[-> _]|[_ H]]; [reflexivity | lia].
  - discriminate.
  - intros [[_ H]|[_ H]]; [discriminate | lia].
  - intros H. inversion H. right. split; [reflexivity | lia].
  - intros [[_ H]|[-> _]]; [discriminate | reflexivity].
Qed.

(** The labels of the melted frame: a label that is no year label is
    carried as often as in [df], and [Year] and [Production] once
    more. *)
Lemma count_melt (df : DataFrame) (c : string) :
  re_match_year c = false ->
  Py.count c (columns (melt df (filter re_match_year (columns df))))
  = (Py.count c (columns df) + Py.count c ["Year"; "Production"])%nat.
Proof.
  intros Hc. unfold melt. cbn [columns]. rewrite count_app. f_equal.
  apply count_filter_keep. rewrite mem_filter, Hc, andb_false_r. reflexivity.
Qed.

(** When the wide branch returns, and what. *)
Lemma melt_counts (df : DataFrame) :
  let m := melt df (filter re_match_year (columns df)) in
  Py.count "Year" (columns m) = S (Py.count "Year" (columns df))
  /\ Py.count "Production" (columns m) = S (Py.count "Production" (columns df)).
Proof.
  cbv zeta. rewrite !count_melt by reflexivity.
  change (Py.count "Year" ["Year"; "Production"]) with 1%nat.
  change (Py.count "Production" ["Year"; "Production"]) with 1%nat. lia.
Qed.

Lemma wide_branch_cases (df : DataFrame) :
  (filter re_match_year (columns df) = [] /\ wide_branch' df = Raise RuntimeError)
  \/ (filter re_match_year (columns df) <> []
      /\ ((Py.mem "Year" (columns df) = true /\ wide_branch' df = Raise TypeError)
          \/ (Py.mem "Year" (columns df) = false
              /\ Py.mem "Production" (columns df) = true
              /\ wide_branch' df = Raise TypeError)
          \/ (Py.mem "Year" (columns df) = false
              /\ Py.mem "Production" (columns df) = false
              /\ wide_branch' df = Ok (wide_table' df)))).
Proof.
  destruct (melt_counts df) as [HY HP].
  unfold wide_branch, wide_table. cbv zeta.
  remember (melt df (filter re_match_year (columns df))) as m eqn:Hm.
  destruct (filter re_match_year (columns df)) as [|y ys] eqn:Ey;
    [left; auto | right].
  split; [discriminate|].
  unfold assign_numeric at 1 3 5. rewrite HY.
  destruct (Py.mem "Year" (columns df)) eqn:EmY.
  - left. split; [reflexivity|].
    destruct (Py.count "Year" (columns df)) as [|n] eqn:EY;
      [apply count_zero_mem in EY; congruence|].
    reflexivity.
  - right. apply count_zero_mem in EmY. rewrite EmY. cbn [bind].
    unfold assign_numeric. rewrite coerced_columns, HP.
    destruct (Py.mem "Production" (columns df)) eqn:EmP.
    + left. split; [reflexivity|]. split; [reflexivity|].
      destruct (Py.count "Production" (columns df)) as [|n] eqn:EP;
        [apply count_zero_mem in EP; congruence|].
      reflexivity.
    + right. split; [reflexivity|]. split; [reflexivity|].
      apply count_zero_mem in EmP. rewrite EmP. reflexivity.
Qed.

(** When the wide branch returns, and what. *)
Lemma wide_branch_ok (df out : DataFrame) :
  wide_branch' df = Ok out <->
  filter re_match_year (columns df) <> []
  /\ Py.mem "Year" (columns df) = false
  /\ Py.mem "Production" (columns df) = false
  /\ out = wide_table' df.
Proof.
  destruct (wide_branch_cases df)
    as [[Hy ->]|[Hy [[HY ->]|[(HY & HP & ->)|(HY & HP & ->)]]]]; split;
    try discriminate.
  - intros [H _]. contradiction.
  - intros (_ & H & _). congruence.
  - intros (_ & _ & H & _). congruence.
  - intros H. inversion H. auto.
  - intros (_ & _ & _ & ->). reflexivity.
Qed.

Lemma wide_branch_raises (df : DataFrame) (e : Exc) :
  wide_branch' df = Raise e <->
  (e = RuntimeError /\ filter re_match_year (columns df) = [])
  \/ (e = TypeError /\ filter re_match_year (columns df) <> []
      /\ (Py.mem "Year" (columns df) = true \/ Py.mem "Production" (columns df) = true)).
Proof.
  destruct (wide_branch_cases df)
    as [[Hy ->]|[Hy [[HY ->]|[(HY & HP & ->)|(HY & HP & ->)]]]]; split.
  - intros H. inversion H. left. auto.
  - intros [[-> _]|(_ & H & _)]; [reflexivity | contradiction].
  - intros H. inversion H. right. auto.
  - intros [[_ H]|(-> & _)]; [contradiction | reflexivity].
  - intros H. inversion H. right. auto.
  - intros [[_ H]|(-> & _)]; [contradiction | reflexivity].
  - discriminate.
  - intros [[_ H]|(_ & _ & [H|H])]; [contradiction | congruence | congruence].
Qed.

Lemma long_branch_cases (df : DataFrame) (value_col : string) :
  In value_col candidates ->
  long_branch' df value_col
  = match Py.count "Year" (columns df), Py.count value_col (columns df) with
    | S (S _), _ => Raise TypeError
    | _, O => Raise KeyError
    | _, S O => Ok (long_table' df value_col)
    | _, _ => Raise TypeError
    end.
Proof.
  intros Hcand.
  assert (Hv : value_col <> "Country" /\ value_col <> "CountryName").
  { revert Hcand. unfold candidates. simpl.
    intros [<-|[<-|[<-|[<-|[<-|[]]]]]]; split; discriminate. }
  destruct Hv as [Hv1 Hv2].
  unfold long_branch, long_table. cbv zeta.
  remember (if Py.mem "Country" (columns df)
            then rename "Country" "CountryName" df else df) as d1 eqn:Hd1.
  assert (HY : Py.count "Year" (columns d1) = Py.count "Year" (columns df)).
  { subst d1. destruct (Py.mem "Country" (columns df)); [|reflexivity].
    apply count_relabel_other; discriminate. }
  assert (HV : Py.count value_col (columns d1) = Py.count value_col (columns df)).
  { subst d1. destruct (Py.mem "Country" (columns df)); [|reflexivity].
    apply count_relabel_other; assumption. }
  rewrite <- HY, <- HV. clear HY HV Hd1.
  destruct (Py.mem "Year" (columns d1)) eqn:Em.
  - destruct (Py.count "Year" (columns d1)) as [|[|n]] eqn:EY.
    + apply count_zero_mem in EY. congruence.
    + replace (assign_numeric' "Year" d1) with (Ok (coerced' "Year" d1))
        by (unfold assign_numeric; rewrite EY; reflexivity).
      cbn [bind]. unfold assign_numeric. rewrite coerced_columns.
      destruct (Py.count value_col (columns d1)) as [|[|n]]; reflexivity.
    + replace (assign_numeric' "Year" d1) with (@Raise DataFrame TypeError)
        by (unfold assign_numeric; rewrite EY; reflexivity).
      reflexivity.
  - cbn [bind]. apply count_zero_mem in Em. rewrite Em.
    unfold assign_numeric.
    destruct (Py.count value_col (columns d1)) as [|[|n]]; reflexivity.
Qed.

(** When the long branch returns, and what. *)
Lemma long_branch_ok (df out : DataFrame) (value_col : string) :
  In value_col candidates ->
  long_branch' df value_col = Ok out <->
  (Py.count "Year" (columns df) <= 1)%nat
  /\ Py.count value_col (columns df) = 1%nat
  /\ out = long_table' df value_col.
Proof.
  intros Hcand. rewrite (long_branch_cases df value_col Hcand).
  destruct (Py.count "Year" (columns df)) as [|[|n]];
    destruct (Py.count value_col (columns df)) as [|[|n']]; split;
    try discriminate;
    try (intros (H1 & H2 & _); (discriminate || lia));
    try (intros H; inversion H; repeat split; lia);
    try (intros (_ & _ & ->); reflexivity).
Qed.

Lemma long_branch_raises (df : DataFrame) (value_col : string) (e : Exc) :
  In value_col candidates -> Py.mem value_col (columns df) = true ->
  long_branch' df value_col = Raise e <->
  e = TypeError
  /\ ((2 <= Py.count "Year" (columns df))%nat
      \/ (2 <= Py.count value_col (columns df))%nat).
Proof.
  intros Hcand Hmem. rewrite (long_branch_cases df value_col Hcand).
  destruct (Py.count value_col (columns df)) as [|[|n']] eqn:EV;
    [apply count_zero_mem in EV; congruence | |];
    destruct (Py.count "Year" (columns df)) as [|[|n]]; split;
    try discriminate;
    try (intros [_ [H|H]]; lia);
    try (intros H; inversion H; split; [reflexivity | lia]);
    try (intros [-> _]; reflexivity).
Qed.

End UsgsChecks.

Section UsgsProperties.

Variable requests_get : string -> result Response.
Variable parse_number : string -> float.

Local Abbreviation to_numeric' := (to_numeric parse_number).
Local Abbreviation coerced' := (coerced parse_number).
Local Abbreviation wide_branch' := (wide_branch parse_number).
Local Abbreviation wide_table' := (wide_table parse_number).
Local Abbreviation long_branch' := (long_branch parse_number).
Local Abbreviation long_table' := (long_table parse_number).
Local Abbreviation fetch_usgs_world' := (fetch_usgs_world requests_get parse_number).

(** After the coercion every cell of the column is a number. *)
Lemma coerced_cells (c : string) (df : DataFrame) (i : nat) :
  Py.index c (columns df) = Some i ->
  forall r, In r (rows (coerced' c df)) -> exists f, cell_at i r = CNum f.
Proof.
  intros Hi r Hr. unfold coerced in Hr. rewrite Hi in Hr. simpl in Hr.
  apply in_map_iff in Hr. destruct Hr as [r0 [<- _]].
  rewrite cell_at_set_at. eexists. reflexivity.
Qed.

(** The rows that survive [dropna] hold a present number in a column
    that was numeric and is in the subset. *)
Lemma dropna_subset_numeric (df : DataFrame) (c : string) (i : nat) (labels : list string) :
  Py.index c (columns df) = Some i -> In c labels ->
  (forall r, In r (rows df) -> exists f, cell_at i r = CNum f) ->
  forall r, In r (rows (dropna_subset labels df)) ->
  exists f, getitem (columns df) r c = CNum f /\ is_nan f = false.
Proof.
  intros Hi Hc Hnum r Hr. unfold dropna_subset in Hr. simpl in Hr.
  apply filter_In in Hr. destruct Hr as [Hr Hkeep].
  rewrite forallb_forall in Hkeep. specialize (Hkeep c Hc).
  unfold getitem in *. rewrite Hi in *.
  destruct (Hnum r Hr) as [f Hf]. rewrite Hf in *. simpl in Hkeep.
  exists f. split; [reflexivity|]. apply negb_true_iff. exact Hkeep.
Qed.

Lemma value_col_cases (cols : list string) (v : string) :
  value_col_of cols = Some v ->
  Py.mem v cols = true /\ In v candidates
  /\ (v = "Production" \/ Py.mem "Production" cols = false).
Proof.
  unfold value_col_of. intros H.
  pose proof (find_some _ _ H) as [Hin Hmem].
  split; [exact Hmem|]. split; [exact Hin|].
  unfold candidates in H. cbn [find] in H.
  destruct (Py.mem "Production" cols); [left; congruence | right; reflexivity].
Qed.

Lemma candidates_not_country (v : string) :
  In v candidates -> v <> "Country" /\ v <> "CountryName".
Proof.
  unfold candidates. simpl.
  intros [<-|[<-|[<-|[<-|[<-|[]]]]]]; split; discriminate.
Qed.

Lemma index_In (c : string) (cols : list string) (i : nat) :
  Py.index c cols = Some i -> In c cols.
Proof.
  revert i. induction cols as [|x cols IH]; simpl; intros i H; [discriminate|].
  destruct (String.eqb_spec c x) as [->|Hx]; [left; reflexivity|].
  destruct (Py.index c cols) as [j|]; [|discriminate].
  right. apply (IH j). reflexivity.
Qed.

Lemma wide_branch_production (df out : DataFrame) :
  wide_branch' df = Ok out ->
  In "Production" (columns out)
  /\ forall row, In row (rows out) ->
       exists f, getitem (columns out) row "Production" = CNum f /\ is_nan f = false.
Proof.
  intros H. apply wide_branch_ok in H. destruct H as (_ & _ & _ & ->).
  unfold wide_table.
  set (d1 := coerced' "Year" (melt df (filter re_match_year (columns df)))).
  set (d2 := coerced' "Production" d1).
  set (d3 := rename "Country" "CountryName" d2).
  assert (Hmem : Py.mem "Production" (columns d1) = true).
  { unfold d1. rewrite coerced_columns. apply mem_In. simpl.
    apply in_or_app. right. simpl. auto. }
  destruct (index_mem _ _ Hmem) as [i Hi].
  assert (Hi3 : Py.index "Production" (columns d3) = Some i).
  { unfold d3. rewrite rename_columns, index_relabel_other by discriminate.
    unfold d2. rewrite coerced_columns. exact Hi. }
  split.
  - apply (index_In _ _ i). exact Hi3.
  - apply (dropna_subset_numeric d3 "Production" i); [exact Hi3 | left; reflexivity|].
    intros r Hr. apply (coerced_cells "Production" d1 i Hi r Hr).
Qed.

Lemma long_branch_production (df : DataFrame) (value_col : string) :
  value_col_of (columns df) = Some value_col ->
  In "Production" (columns (long_table' df value_col))
  /\ forall row, In row (rows (long_table' df value_col)) ->
       exists f, getitem (columns (long_table' df value_col)) row "Production" = CNum f
                 /\ is_nan f = false.
Proof.
  intros Hv. destruct (value_col_cases _ _ Hv) as (Hmem & Hcand & Hprod).
  destruct (candidates_not_country _ Hcand) as [Hnc Hncn].
  unfold long_table.
  set (d1 := if Py.mem "Country" (columns df)
             then rename "Country" "CountryName" df else df).
  set (d2 := if Py.mem "Year" (columns d1) then coerced' "Year" d1 else d1).
  set (d3 := coerced' value_col d2).
  set (d4 := rename value_col "Production" d3).
  assert (Hc1 : Py.mem value_col (columns d1) = true
                /\ ("Production" = value_col \/ Py.mem "Production" (columns d1) = false)).
  { unfold d1. destruct (Py.mem "Country" (columns df)).
    - rewrite rename_columns, !mem_relabel_other by (auto; discriminate).
      split; [exact Hmem|]. destruct Hprod; auto.
    - split; [exact Hmem|]. destruct Hprod; auto. }
  assert (Hc2 : columns d2 = columns d1).
  { unfold d2. destruct (Py.mem "Year" (columns d1));
      [apply coerced_columns | reflexivity]. }
  destruct Hc1 as [Hm1 Hp1]. rewrite <- Hc2 in Hm1, Hp1.
  destruct (index_mem _ _ Hm1) as [i Hi].
  assert (Hi4 : Py.index "Production" (columns d4) = Some i).
  { unfold d4. rewrite rename_columns, index_relabel_to.
    - unfold d3. rewrite coerced_columns. exact Hi.
    - unfold d3. rewrite coerced_columns. exact Hp1. }
  split.
  - apply (index_In _ _ i). exact Hi4.
  - apply (dropna_subset_numeric d4 "Production" i); [exact Hi4 | left; reflexivity|].
    intros r Hr. apply (coerced_cells value_col d2 i Hi r Hr).
Qed.

(** C10: every record the production extractor returns, through the
    melt of year columns or through a named production column, has a
    column "Production" holding a number that is not NaN. *)
Theorem returned_production_is_present (out : DataFrame) :
  fetch_usgs_world' = Ok out ->
  In "Production" (columns out)
  /\ forall row, In row (rows out) ->
       exists f, getitem (columns out) row "Production" = CNum f /\ is_nan f = false.
Proof.
  unfold fetch_usgs_world. intros H.
  destruct (requests_get USGS_WORLD_CSV) as [r|e]; simpl in H; [|discriminate].
  destruct (raise_for_status r) as [[]|e]; simpl in H; [|discriminate].
  destruct (csv r) as [raw|]; simpl in H; [|discriminate].
  destruct (filter_commodity raw) as [df|e]; simpl in H; [|discriminate].
  destruct (value_col_of (columns df)) as [value_col|] eqn:Ev.
  - destruct (value_col_cases _ _ Ev) as (_ & Hcand & _).
    apply (long_branch_ok _ _ _ _ Hcand) in H. destruct H as (_ & _ & ->).
    apply long_branch_production, Ev.
  - apply (wide_branch_production df), H.
Qed.

End UsgsProperties.

Section UsgsWide.

Variable requests_get : string -> result Response.
Variable parse_number : string -> float.

Local Abbreviation to_numeric' := (to_numeric parse_number).
Local Abbreviation wide_branch' := (wide_branch parse_number).
Local Abbreviation wide_table' := (wide_table parse_number).
Local Abbreviation fetch_usgs_world' := (fetch_usgs_world requests_get parse_number).

Lemma mem_filter_false (p : string -> bool) (c : string) (cols : list string) :
  Py.mem c cols = false -> Py.mem c (filter p cols) = false.
Proof.
  intros H. destruct (Py.mem c (filter p cols)) eqn:E; [|reflexivity].
  apply mem_In, filter_In in E. destruct E as [E _].
  apply mem_In in E. congruence.
Qed.

Lemma no_named_production_column (cols : list string) :
  value_col_of cols = None -> Py.mem "Production" cols = false.
Proof.
  unfold value_col_of, candidates. cbn [find].
  destruct (Py.mem "Production" cols); [discriminate | reflexivity].
Qed.

Lemma getitem_index (cols : list string) (r : list Cell) (c : string) (i : nat) :
  Py.index c cols = Some i -> getitem cols r c = cell_at i r.
Proof. unfold getitem. intros ->. reflexivity. Qed.

Lemma melted_row_numeric (ids : list Cell) (yc : string) (x : Cell) :
  let n := List.length ids in
  let r1 := set_at (n + 0) (CNum (to_numeric' (cell_at (n + 0) (ids ++ [CStr yc; x]))))
                   (ids ++ [CStr yc; x]) in
  set_at (n + 1) (CNum (to_numeric' (cell_at (n + 1) r1))) r1
  = (ids ++ [CNum (parse_number yc); CNum (to_numeric' x)])%list.
Proof.
  intros n r1. unfold r1, n.
  rewrite cell_at_app, set_at_app. cbn [cell_at nth set_at to_numeric].
  rewrite cell_at_app, set_at_app. reflexivity.
Qed.

End UsgsWide.


(** *** The branch of the named production column *)

Lemma cell_at_set_at_other (i j : nat) (v : Cell) (row : list Cell) :
  i <> j -> cell_at j (set_at i v row) = cell_at j row.
Proof.
  unfold cell_at. revert j row.
  induction i as [|i IH]; intros [|j] [|x row] H; simpl;
    try reflexivity; try contradiction; try (destruct j; reflexivity).
  - rewrite IH by congruence. destruct j; reflexivity.
  - apply IH. congruence.
Qed.

Lemma index_inj (a b : string) (cols : list string) (i : nat) :
  Py.index a cols = Some i -> Py.index b cols = Some i -> a = b.
Proof.
  revert i. induction cols as [|x cols IH]; simpl; intros i Ha Hb; [discriminate|].
  destruct (String.eqb_spec a x) as [->|Hax];
    destruct (String.eqb_spec b x) as [->|Hbx].
  - reflexivity.
  - destruct (Py.index b cols); inversion Ha; subst; discriminate.
  - destruct (Py.index a cols); inversion Hb; subst; discriminate.
  - destruct (Py.index a cols) as [ia|]; [|discriminate].
    destruct (Py.index b cols) as [ib|]; [|discriminate].
    apply (IH ia); [reflexivity|]. congruence.
Qed.

Lemma length_filter_map {A B : Type} (f : A -> B) (p : B -> bool) (l : list A) :
  List.length (filter p (map f l)) = List.length (filter (fun a => p (f a)) l).
Proof.
  induction l as [|a l IH]; simpl; [reflexivity|].
  destruct (p (f a)); simpl; rewrite IH; reflexivity.
Qed.

Lemma mem_index_none (c : string) (cols : list string) :
  Py.mem c cols = false -> Py.index c cols = None.
Proof.
  intros H. destruct (Py.index c cols) as [i|] eqn:E; [|reflexivity].
  apply index_In, mem_In in E. congruence.
Qed.

Section UsgsLong.

Variable requests_get : string -> result Response.
Variable parse_number : string -> float.

Local Abbreviation to_numeric' := (to_numeric parse_number).
Local Abbreviation long_branch' := (long_branch parse_number).
Local Abbreviation long_table' := (long_table parse_number).
Local Abbreviation fetch_usgs_world' := (fetch_usgs_world requests_get parse_number).

(** The rows of the long branch: every row of the table with its
    production (and its year, when there is a Year column) coerced,
    then the rows without production taken out. *)
Lemma long_branch_rows (df : DataFrame) (value_col : string) (iv : nat) :
  value_col_of (columns df) = Some value_col ->
  Py.index value_col (columns df) = Some iv ->
  exists g : list Cell -> list Cell,
    (forall r0, cell_at iv (g r0) = CNum (to_numeric' (cell_at iv r0)))
    /\ (forall iy, Py.index "Year" (columns df) = Some iy ->
        forall r0, cell_at iy (g r0) = CNum (to_numeric' (cell_at iy r0)))
    /\ rows (long_table' df value_col)
       = filter (fun r => negb (isna (cell_at iv r))) (map g (rows df))
    /\ Py.index "Production" (columns (long_table' df value_col)) = Some iv
    /\ (forall iy, Py.index "Year" (columns df) = Some iy ->
        Py.index "Year" (columns (long_table' df value_col)) = Some iy).
Proof.
  intros Hv Hiv. destruct (value_col_cases _ _ Hv) as (Hmem & Hcand & Hprod).
  destruct (candidates_not_country _ Hcand) as [Hnc Hncn].
  assert (HnY : value_col <> "Year").
  { unfold candidates in Hcand. simpl in Hcand.
    destruct Hcand as [<-|[<-|[<-|[<-|[<-|[]]]]]]; discriminate. }
  unfold long_table.
  set (d1 := if Py.mem "Country" (columns df)
             then rename "Country" "CountryName" df else df).
  assert (Hrows1 : rows d1 = rows df).
  { unfold d1. destruct (Py.mem "Country" (columns df)); reflexivity. }
  assert (Hidx1 : forall c, c <> "Country" -> c <> "CountryName" ->
             Py.index c (columns d1) = Py.index c (columns df)
             /\ Py.mem c (columns d1) = Py.mem c (columns df)).
  { intros c H1 H2. unfold d1. destruct (Py.mem "Country" (columns df)).
    - rewrite rename_columns, index_relabel_other, mem_relabel_other by assumption.
      split; reflexivity.
    - split; reflexivity. }
  destruct (Hidx1 value_col Hnc Hncn) as [Hiv1 Hmv1].
  destruct (Hidx1 "Year" ltac:(discriminate) ltac:(discriminate)) as [HiY1 HmY1].
  destruct (Hidx1 "Production" ltac:(discriminate) ltac:(discriminate)) as [_ HmP1].
  rewrite Hiv in Hiv1.
  set (d2 := if Py.mem "Year" (columns d1) then coerced parse_number "Year" d1 else d1).
  assert (Hc2 : columns d2 = columns d1).
  { unfold d2. destruct (Py.mem "Year" (columns d1));
      [apply coerced_columns | reflexivity]. }
  assert (Hrows2 : exists g1 : list Cell -> list Cell,
             rows d2 = map g1 (rows df)
             /\ (forall r0, cell_at iv (g1 r0) = cell_at iv r0)
             /\ (forall iy, Py.index "Year" (columns df) = Some iy ->
                 forall r0, cell_at iy (g1 r0) = CNum (to_numeric' (cell_at iy r0)))).
  { unfold d2. destruct (Py.mem "Year" (columns d1)) eqn:EY.
    - destruct (index_mem _ _ EY) as [iy Hiy].
      exists (fun r => set_at iy (CNum (to_numeric' (cell_at iy r))) r).
      unfold coerced. rewrite Hiy. cbn [rows]. rewrite Hrows1.
      split; [reflexivity|]. split.
      + intros r0. apply cell_at_set_at_other. intros ->.
        apply HnY. symmetry. apply (index_inj _ _ (columns d1) iv); assumption.
      + intros iy' Hiy' r0. rewrite HiY1 in Hiy.
        assert (iy' = iy) by congruence. subst iy'. apply cell_at_set_at.
    - exists (fun r => r). rewrite Hrows1, map_id.
      split; [reflexivity|]. split; [reflexivity|].
      intros iy Hiy. symmetry in HmY1. apply mem_index_none in HmY1. congruence. }
  destruct Hrows2 as (g1 & Hr2 & Hg1v & Hg1y).
  assert (Hiv2 : Py.index value_col (columns d2) = Some iv) by (rewrite Hc2; exact Hiv1).
  set (d3 := coerced parse_number value_col d2).
  assert (HiP : Py.index "Production" (columns (rename value_col "Production" d3)) = Some iv).
  { rewrite rename_columns, index_relabel_to.
    - unfold d3. rewrite coerced_columns. exact Hiv2.
    - unfold d3. rewrite coerced_columns, Hc2, HmP1.
      destruct Hprod; auto. }
  exists (fun r0 => set_at iv (CNum (to_numeric' (cell_at iv (g1 r0)))) (g1 r0)).
  split; [|split; [|split; [|split]]].
  - intros r0. rewrite cell_at_set_at, Hg1v. reflexivity.
  - intros iy Hiy r0. rewrite cell_at_set_at_other; [apply (Hg1y iy Hiy)|].
    intros ->. apply HnY. apply (index_inj _ _ (columns df) iy); assumption.
  - unfold dropna_subset. cbn [rows columns].
    unfold d3 at 2. unfold coerced. rewrite Hiv2. cbn [rows].
    rewrite Hr2, map_map.
    apply filter_ext. intros r. cbn [forallb].
    rewrite (getitem_index _ r "Production" iv HiP). apply andb_true_r.
  - exact HiP.
  - intros iy Hiy. unfold dropna_subset. cbn [columns].
    rewrite rename_columns, index_relabel_other.
    + unfold d3. rewrite coerced_columns, Hc2, HiY1. exact Hiy.
    + congruence.
    + discriminate.
Qed.

(** C3 (as amended): in the branch of the named production column, on
    a table whose labels are distinct once stripped, the rows are
    dropped on production alone.  The records returned are as many as
    the rows whose production is a present number, and each such row
    is returned with that production and, when the table has a Year
    column, with its year coerced, NaN when it is no number. *)
Theorem long_branch_drops_on_production_only
    (r : Response) (raw df : DataFrame) (value_col : string) :
  requests_get USGS_WORLD_CSV = Ok r -> status_ok r -> csv r = Some raw ->
  filter_commodity raw = Ok df ->
  NoDup (columns df) ->
  value_col_of (columns df) = Some value_col ->
  exists out,
    fetch_usgs_world' = Ok out
    /\ List.length (rows out)
       = List.length
           (filter (fun r0 => negb (is_nan (to_numeric' (getitem (columns df) r0 value_col))))
                   (rows df))
    /\ forall r0,
         In r0 (rows df) ->
         is_nan (to_numeric' (getitem (columns df) r0 value_col)) = false ->
         exists row,
           In row (rows out)
           /\ getitem (columns out) row "Production"
              = CNum (to_numeric' (getitem (columns df) r0 value_col))
           /\ (Py.mem "Year" (columns df) = true ->
               getitem (columns out) row "Year"
               = CNum (to_numeric' (getitem (columns df) r0 "Year"))).
Proof.
  intros Hr Hs Hcsv Hf Hnd Hv.
  unfold fetch_usgs_world. rewrite Hr. cbn [bind].
  rewrite (raise_for_status_ok r Hs). cbn [bind]. rewrite Hcsv. cbn [bind].
  rewrite Hf. cbn [bind]. rewrite Hv.
  destruct (value_col_cases _ _ Hv) as (Hmem & Hcand & _).
  rewrite (proj2 (long_branch_ok parse_number df (long_table' df value_col) value_col Hcand))
    by (split; [apply count_NoDup, Hnd | split; [apply count_single; assumption | reflexivity]]).
  destruct (index_mem _ _ Hmem) as [iv Hiv].
  destruct (long_branch_rows df value_col iv Hv Hiv) as (g & Hgv & Hgy & Hrows & HiP & HiY).
  eexists. split; [reflexivity|]. split.
  - rewrite Hrows, length_filter_map. f_equal. apply filter_ext. intros r0.
    rewrite Hgv, (getitem_index _ r0 value_col iv Hiv). reflexivity.
  - intros r0 Hr0 Hp. rewrite (getitem_index _ r0 value_col iv Hiv) in *.
    exists (g r0). split; [|split].
    + rewrite Hrows. apply filter_In. split; [apply in_map, Hr0|].
      rewrite Hgv. cbn [isna]. rewrite Hp. reflexivity.
    + rewrite (getitem_index _ (g r0) "Production" iv HiP). apply Hgv.
    + intros HY. destruct (index_mem _ _ HY) as [iy Hiy].
      rewrite (getitem_index _ (g r0) "Year" iy (HiY iy Hiy)).
      rewrite (getitem_index _ r0 "Year" iy Hiy). apply (Hgy iy Hiy).
Qed.

End UsgsLong.

(** C3, as stated, fails: the row whose year is no number is returned,
    its year NaN. *)
Lemma row_with_failed_year_is_returned :
  is_nan (sample_parse_number "unknown") = true
  /\ fetch_usgs_world (serve_usgs csv_long) sample_parse_number
     = Ok (mkDF ["Commodity"; "CountryName"; "Year"; "Production"]
                [[CStr "Phosphate rock"; CStr "Morocco"; CNum nan; CNum 38000]]).
Proof. split; reflexivity. Qed.

(** ** The theorems at sample inputs *)

(** Discharges [NoDup] on a list of literal labels. *)
Ltac distinct_labels := repeat constructor; simpl; intuition discriminate.

Lemma price_series_strictly_increasing_witness :
  exists data,
    attempt net_2023 sample_parse_number sample_lenient WB_URL_PRIMARY = Ok (Some data)
    /\ StronglySorted ts_lt (map fst data)
    /\ NoDup (map fst data)
    /\ (WB_URL_PRIMARY = WB_URL_PRIMARY ->
        fetch_worldbank_price net_2023 sample_parse_number sample_lenient = Ok data)
    /\ (WB_URL_PRIMARY = WB_URL_FALLBACK ->
        (forall d, attempt net_2023 sample_parse_number sample_lenient WB_URL_PRIMARY
                   <> Ok (Some d)) ->
        fetch_worldbank_price net_2023 sample_parse_number sample_lenient = Ok data).
Proof.
  apply (price_series_strictly_increasing net_2023 sample_parse_number sample_lenient
           WB_URL_PRIMARY (mkResponse 200 (Some [("Monthly Prices", sheet_2023)]) None)
           [("Monthly Prices", sheet_2023)] sheet_2023).
  - reflexivity.
  - left. simpl. lia.
  - reflexivity.
  - reflexivity.
  - repeat constructor; simpl; intuition discriminate.
  - intros c Hc Hm. simpl in Hc.
    destruct Hc as [<-|[<-|[<-|[<-|[]]]]]; vm_compute in Hm; try discriminate Hm;
      (split; [reflexivity | vm_compute; repeat split; intros H; discriminate H]).
  - exists [CStr "Phosphate rock (Morocco)"; CNum 100%float; CNum 110%float; CNum 121%float].
    split; [left; reflexivity | reflexivity].
  - exists "2023M01". split; [simpl; auto | reflexivity].
Defined.

Lemma invalid_month_label_aborts_url_witness :
  (forall data,
      attempt net_month_13 sample_parse_number sample_lenient WB_URL_PRIMARY
      <> Ok (Some data))
  /\ try_urls net_month_13 sample_parse_number sample_lenient
       [WB_URL_PRIMARY; WB_URL_FALLBACK]
     = try_urls net_month_13 sample_parse_number sample_lenient [WB_URL_FALLBACK]
  /\ (status_ok (mkResponse 200 (Some [("Monthly Prices", sheet_month_13)]) None) ->
      has_row "phosphate" sheet_month_13 ->
      exists e,
        attempt net_month_13 sample_parse_number sample_lenient WB_URL_PRIMARY = Raise e).
Proof.
  apply (invalid_month_label_aborts_url net_month_13 sample_parse_number sample_lenient
           WB_URL_PRIMARY [WB_URL_FALLBACK]
           (mkResponse 200 (Some [("Monthly Prices", sheet_month_13)]) None)
           [("Monthly Prices", sheet_month_13)] sheet_month_13 "2023M13").
  - reflexivity.
  - reflexivity.
  - reflexivity.
  - simpl. auto.
  - reflexivity.
  - simpl. lia.
Defined.

Lemma returned_prices_are_present_witness :
  fetch_worldbank_price net_2023 sample_parse_number sample_lenient = Ok series_2023
  /\ Forall (fun p => is_nan (snd p) = false) series_2023.
Proof.
  split; [reflexivity|].
  apply (returned_prices_are_present net_2023 sample_parse_number sample_lenient).
  reflexivity.
Defined.

Lemma synthetic_wide_table_roundtrip_witness :
  fetch_worldbank_price
    (serve (serve_workbook sheet_rock_second) (Raise RequestException)
           (Raise RequestException))
    sample_parse_number sample_lenient
  = Ok series_2023
  /\ (forall c, strict_ym c = true -> calendar_label c ->
       to_datetime sample_lenient (date_text c)
       = Ok (mkTs (label_year c) (label_month c) 1)).
Proof.
  apply (synthetic_wide_table_roundtrip
           (serve (serve_workbook sheet_rock_second) (Raise RequestException)
                  (Raise RequestException))
           sample_parse_number sample_lenient
           (mkResponse 200 (Some [("Monthly Prices", sheet_rock_second)]) None)
           "Commodity" "Phosphate rock (Morocco)"
           (CNum 100%float) (CNum 110%float) (CNum 121%float)
           [[CStr "Crude oil, average"; CNum 80%float; CNum 81%float; CNum 82%float]]
           [[CStr "Phosphate, TSP"; CNum 1%float; CNum 2%float; CNum 3%float]]).
  - reflexivity.
  - left. simpl. lia.
  - reflexivity.
  - reflexivity.
  - intros row [<- | []]. reflexivity.
  - reflexivity.
  - reflexivity.
  - reflexivity.
  - reflexivity.
Defined.



Lemma returned_production_is_present_witness :
  fetch_usgs_world (serve_usgs csv_long) sample_parse_number
  = Ok (mkDF ["Commodity"; "CountryName"; "Year"; "Production"]
             [[CStr "Phosphate rock"; CStr "Morocco"; CNum nan; CNum 38000]])
  /\ In "Production" ["Commodity"; "CountryName"; "Year"; "Production"]
  /\ forall row,
       In row [[CStr "Phosphate rock"; CStr "Morocco"; CNum nan; CNum 38000%float]] ->
       exists f,
         getitem ["Commodity"; "CountryName"; "Year"; "Production"] row "Production"
         = CNum f /\ is_nan f = false.
Proof.
  split; [reflexivity|].
  apply (returned_production_is_present (serve_usgs csv_long) sample_parse_number
           (mkDF ["Commodity"; "CountryName"; "Year"; "Production"]
                 [[CStr "Phosphate rock"; CStr "Morocco"; CNum nan; CNum 38000%float]])).
  reflexivity.
Defined.


Lemma long_branch_drops_on_production_only_witness :
  exists out,
    fetch_usgs_world (serve_usgs csv_long) sample_parse_number = Ok out
    /\ List.length (rows out)
       = List.length
           (filter (fun r0 => negb (is_nan (to_numeric sample_parse_number
                                              (getitem (columns csv_long_phosphate) r0
                                                       "Production"))))
                   (rows csv_long_phosphate))
    /\ forall r0,
         In r0 (rows csv_long_phosphate) ->
         is_nan (to_numeric sample_parse_number
                   (getitem (columns csv_long_phosphate) r0 "Production")) = false ->
         exists row,
           In row (rows out)
           /\ getitem (columns out) row "Production"
              = CNum (to_numeric sample_parse_number
                        (getitem (columns csv_long_phosphate) r0 "Production"))
           /\ (Py.mem "Year" (columns csv_long_phosphate) = true ->
               getitem (columns out) row "Year"
               = CNum (to_numeric sample_parse_number
                         (getitem (columns csv_long_phosphate) r0 "Year"))).
Proof.
  apply (long_branch_drops_on_production_only (serve_usgs csv_long) sample_parse_number
           (mkResponse 200 None (Some csv_long)) csv_long csv_long_phosphate "Production").
  - reflexivity.
  - left. simpl. lia.
  - reflexivity.
  - reflexivity.
  - distinct_labels.
  - reflexivity.
Defined.

(** * Further properties *)

(** ** The loop over the URLs *)

Lemma prefix_app_l (a b s : string) :
  String.prefix (a ++ b) s = true -> String.prefix a s = true.
Proof.
  revert s. induction a as [|x a IH]; intros [|y s] H; simpl in *;
    try reflexivity; try discriminate.
  destruct (ascii_dec x y); [|discriminate]. apply IH, H.
Qed.

Lemma str_in_app_l (a b s : string) :
  Py.str_in (a ++ b) s = true -> Py.str_in a s = true.
Proof.
  induction s as [|y s IH]; cbn [Py.str_in]; intros H;
    apply orb_true_iff in H; apply orb_true_iff; destruct H as [H|H].
  - left. apply (prefix_app_l a b _ H).
  - discriminate.
  - left. apply (prefix_app_l a b _ H).
  - right. apply IH, H.
Qed.

(** A cell with "phosphate rock" has "phosphate". *)
Lemma rock_is_phosphate (x : Cell) :
  contains_lower "phosphate rock" x = true -> contains_lower "phosphate" x = true.
Proof.
  destruct x as [f|s]; simpl; [discriminate|].
  apply (str_in_app_l "phosphate" " rock").
Qed.

Section PriceFlow.

Variable requests_get : string -> result Response.
Variable parse_number : string -> float.
Variable to_datetime_lenient : string -> result Timestamp.

Local Abbreviation extract_series' := (extract_series parse_number to_datetime_lenient).
Local Abbreviation attempt' := (attempt requests_get parse_number to_datetime_lenient).
Local Abbreviation try_urls' := (try_urls requests_get parse_number to_datetime_lenient).
Local Abbreviation fetch_worldbank_price' :=
  (fetch_worldbank_price requests_get parse_number to_datetime_lenient).

Lemma extract_series_no_row (df : DataFrame) (data : Series) :
  (forall row, In row (rows df) -> contains_lower "phosphate" (cell_at 0 row) = false) ->
  extract_series' df <> Ok (Some data).
Proof.
  intros Hno H. unfold extract_series in H.
  destruct (columns df) as [|first_col tl] eqn:Ecols; [discriminate|].
  assert (E2 : rows_containing "phosphate" df first_col = []).
  { unfold rows_containing. apply filter_all_false. intros r Hr.
    rewrite Ecols, getitem_first. apply Hno, Hr. }
  assert (E1 : rows_containing "phosphate rock" df first_col = []).
  { unfold rows_containing. apply filter_all_false. intros r Hr.
    rewrite Ecols, getitem_first.
    destruct (contains_lower "phosphate rock" (cell_at 0 r)) eqn:E; [|reflexivity].
    apply rock_is_phosphate in E. rewrite (Hno r Hr) in E. discriminate. }
  rewrite E1, E2 in H. discriminate.
Qed.

Lemma extract_series_no_ym (df : DataFrame) (data : Series) :
  (forall c, In c (columns df) -> re_match_ym c = false) ->
  extract_series' df <> Ok (Some data).
Proof.
  intros Hno H. unfold extract_series in H.
  rewrite (filter_all_false re_match_ym (columns df) Hno) in H.
  destruct (columns df) as [|first_col tl]; [discriminate|].
  match type of H with
  | match ?rs with _ => _ end = _ => destruct rs; discriminate
  end.
Qed.

Lemma attempt_returns_status (url : string) (data : Series) :
  attempt' url = Ok (Some data) ->
  exists r xls df,
    requests_get url = Ok r /\ ~ (400 <= status_code r < 600)
    /\ workbook r = Some xls /\ select_sheet xls = Some df
    /\ extract_series' df = Ok (Some data).
Proof.
  unfold attempt. intros H.
  destruct (requests_get url) as [r|e] eqn:Er; simpl in H; [|discriminate].
  unfold raise_for_status in H.
  destruct ((400 <=? status_code r) && (status_code r <? 600)) eqn:Est;
    simpl in H; [discriminate|].
  destruct (workbook r) as [xls|] eqn:Ew; simpl in H; [|discriminate].
  destruct (select_sheet xls) as [df|] eqn:Es; [|discriminate].
  exists r, xls, df. repeat split; auto.
  intros [H1 H2]. apply Z.leb_le in H1. apply Z.ltb_lt in H2.
  rewrite H1, H2 in Est. discriminate.
Qed.

(** An unusable source gives no series, not even an empty one. *)
Lemma unusable_no_series (url : string) :
  unusable requests_get url -> forall data, attempt' url <> Ok (Some data).
Proof.
  intros U data Ha. apply attempt_returns_status in Ha.
  destruct Ha as (r & xls & df & Hr & Hst & Hw & Hsel & Hx).
  destruct U as [e He | r' Hr' Hbad | r' Hr' Hnw | r' xls' Hr' Hw' Hns
                 | r' xls' df' Hr' Hw' Hs' Hrow | r' xls' df' Hr' Hw' Hs' Hym].
  - congruence.
  - assert (r' = r) by congruence. subst. contradiction.
  - assert (r' = r) by congruence. subst. congruence.
  - assert (r' = r) by congruence. subst.
    assert (xls' = xls) by congruence. subst. congruence.
  - assert (r' = r) by congruence. subst.
    assert (xls' = xls) by congruence. subst.
    assert (df' = df) by congruence. subst.
    exact (extract_series_no_row df data Hrow Hx).
  - assert (r' = r) by congruence. subst.
    assert (xls' = xls) by congruence. subst.
    assert (df' = df) by congruence. subst.
    exact (extract_series_no_ym df data Hym Hx).
Qed.

(** X1: when the primary source is unusable (transport failure, 4xx/5xx
    status, unreadable workbook, no sheet, no phosphate row or no
    year-month column), the result is what the fallback URL alone
    gives: its series when it yields one, RuntimeError when it does
    not. *)
Theorem fallback_alone_when_primary_unusable :
  unusable requests_get WB_URL_PRIMARY ->
  (forall data, attempt' WB_URL_FALLBACK = Ok (Some data) ->
                fetch_worldbank_price' = Ok data)
  /\ ((forall data, attempt' WB_URL_FALLBACK <> Ok (Some data)) ->
      fetch_worldbank_price' = Raise RuntimeError).
Proof.
  intros U. pose proof (unusable_no_series _ U) as Hp.
  unfold fetch_worldbank_price. rewrite (try_urls_skip _ _ _ _ _ Hp). split.
  - intros data Ha. simpl. rewrite Ha. reflexivity.
  - intros Hf. rewrite (try_urls_skip _ _ _ _ _ Hf). reflexivity.
Qed.

(** X2: the extractor fails with RuntimeError and with nothing else, and
    it fails exactly when neither URL yields a series: no transport,
    status or parsing exception of an attempt reaches the caller. *)
Theorem fetch_fails_only_with_RuntimeError (e : Exc) :
  fetch_worldbank_price' = Raise e <->
  e = RuntimeError
  /\ (forall data, attempt' WB_URL_PRIMARY <> Ok (Some data))
  /\ (forall data, attempt' WB_URL_FALLBACK <> Ok (Some data)).
Proof.
  unfold fetch_worldbank_price. simpl. split.
  - intros H.
    destruct (attempt' WB_URL_PRIMARY) as [[d|]|e1]; [discriminate| |];
      (destruct (attempt' WB_URL_FALLBACK) as [[d|]|e2]; [discriminate| |]);
      inversion H; repeat split; intros; discriminate.
  - intros (-> & Hp & Hf).
    destruct (attempt' WB_URL_PRIMARY) as [[d|]|e1]; [exfalso; exact (Hp d eq_refl)| |];
      (destruct (attempt' WB_URL_FALLBACK) as [[d|]|e2];
       [exfalso; exact (Hf d eq_refl)| |]); reflexivity.
Qed.

End PriceFlow.

Lemma attempt_ext (net1 net2 : string -> result Response) (pn : string -> float)
    (len : string -> result Timestamp) (url : string) :
  net1 url = net2 url -> attempt net1 pn len url = attempt net2 pn len url.
Proof. intros H. unfold attempt. rewrite H. reflexivity. Qed.

(** X3: a series from the primary URL is the result whatever the
    fallback URL serves: two networks that agree on the primary URL
    give the same result once the primary attempt returns. *)
Theorem primary_series_wins
    (net1 net2 : string -> result Response) (pn : string -> float)
    (len : string -> result Timestamp) (data : Series) :
  net1 WB_URL_PRIMARY = net2 WB_URL_PRIMARY ->
  attempt net1 pn len WB_URL_PRIMARY = Ok (Some data) ->
  fetch_worldbank_price net1 pn len = Ok data
  /\ fetch_worldbank_price net2 pn len = Ok data.
Proof.
  intros Hagree Ha. unfold fetch_worldbank_price. simpl.
  rewrite <- (attempt_ext net1 net2 pn len _ Hagree), Ha. split; reflexivity.
Qed.

(** ** The choice of the sheet and of the row *)

Lemma read_excel_absent (xls : ExcelFile) (name : string) :
  (forall sn df, In (sn, df) xls -> sn <> name) -> read_excel xls name = Raise ValueError.
Proof.
  induction xls as [|[sn df] xls IH]; simpl; intros H; [reflexivity|].
  destruct (String.eqb_spec sn name) as [->|Hne].
  - exfalso. exact (H name df (or_introl eq_refl) eq_refl).
  - apply IH. intros sn' df' Hin. apply (H sn' df'). right. exact Hin.
Qed.

(** X4: the sheet the extractor works on.  A sheet named "Monthly
    Prices" is taken, the first of that name, whatever the other sheets
    hold; without one, the first sheet with a cell that mentions
    phosphate is taken; without that either, no sheet is. *)
Theorem select_sheet_choice (pre post : ExcelFile) (sn : string) (df : DataFrame) :
  ((forall sn' df', In (sn', df') pre -> sn' <> "Monthly Prices") ->
   sn = "Monthly Prices" ->
   select_sheet (pre ++ (sn, df) :: post)%list = Some df)
  /\ ((forall sn' df', In (sn', df') (pre ++ (sn, df) :: post)%list -> sn' <> "Monthly Prices") ->
      (forall sn' df', In (sn', df') pre -> mentions_phosphate df' = false) ->
      mentions_phosphate df = true ->
      select_sheet (pre ++ (sn, df) :: post)%list = Some df)
  /\ ((forall sn' df', In (sn', df') pre ->
         sn' <> "Monthly Prices" /\ mentions_phosphate df' = false) ->
      select_sheet pre = None).
Proof.
  split; [|split].
  - intros Hpre ->. unfold select_sheet.
    assert (E : read_excel (pre ++ ("Monthly Prices", df) :: post)%list "Monthly Prices" = Ok df).
    { induction pre as [|[sn' df'] pre IH]; simpl.
      - reflexivity.
      - destruct (String.eqb_spec sn' "Monthly Prices") as [->|Hne].
        + exfalso. exact (Hpre _ df' (or_introl eq_refl) eq_refl).
        + apply IH. intros s d Hin. apply (Hpre s d). right. exact Hin. }
    rewrite E. reflexivity.
  - intros Hname Hpre Hdf. unfold select_sheet.
    rewrite (read_excel_absent _ _ Hname).
    clear Hname. induction pre as [|[sn' df'] pre IH]; simpl.
    + rewrite Hdf. reflexivity.
    + rewrite (Hpre sn' df' (or_introl eq_refl)).
      apply IH. intros s d Hin. apply (Hpre s d). right. exact Hin.
  - intros Hpre. unfold select_sheet.
    rewrite (read_excel_absent pre "Monthly Prices")
      by (intros s d Hin; apply (Hpre s d Hin)).
    induction pre as [|[sn' df'] pre IH]; simpl; [reflexivity|].
    destruct (Hpre sn' df' (or_introl eq_refl)) as [_ Hm]. rewrite Hm.
    apply IH. intros s d Hin. apply (Hpre s d). right. exact Hin.
Qed.

Section PriceRow.

Variable parse_number : string -> float.
Variable to_datetime_lenient : string -> result Timestamp.

Local Abbreviation to_datetime' := (to_datetime to_datetime_lenient).
Local Abbreviation extract_series' := (extract_series parse_number to_datetime_lenient).

(** X5: one row decides the series.  It is the first row with
    "phosphate rock" in its first cell or, when no row has that, the
    first with "phosphate"; the extractor gives on the sheet what it
    gives on that row alone. *)
Theorem first_matching_row_decides
    (df : DataFrame) (pre post : list (list Cell)) (row : list Cell) :
  rows df = (pre ++ row :: post)%list ->
  ((forall r, In r pre -> contains_lower "phosphate rock" (cell_at 0 r) = false)
   /\ contains_lower "phosphate rock" (cell_at 0 row) = true)
  \/ ((forall r, In r (rows df) -> contains_lower "phosphate rock" (cell_at 0 r) = false)
      /\ (forall r, In r pre -> contains_lower "phosphate" (cell_at 0 r) = false)
      /\ contains_lower "phosphate" (cell_at 0 row) = true) ->
  extract_series' df = extract_series' (mkDF (columns df) [row]).
Proof.
  intros Hrows Hcase. unfold extract_series. cbn [columns].
  destruct (columns df) as [|first_col tl] eqn:Ecols; [reflexivity|].
  assert (Hsel : forall needle (d : DataFrame),
             columns d = first_col :: tl ->
             rows_containing needle d first_col
             = filter (fun r => contains_lower needle (cell_at 0 r)) (rows d)).
  { intros needle d Hd. unfold rows_containing. apply filter_ext. intros r.
    rewrite Hd, getitem_first. reflexivity. }
  rewrite !(Hsel _ df Ecols), !(Hsel _ (mkDF (first_col :: tl) [row]) eq_refl).
  cbn [rows]. rewrite Hrows.
  destruct Hcase as [[Hpre Hrow] | (Hnone & Hpre & Hrow)].
  - rewrite (filter_first_hit _ pre post row Hpre Hrow).
    cbn [filter]. rewrite Hrow. reflexivity.
  - rewrite Hrows in Hnone.
    rewrite (filter_all_false _ _ Hnone).
    rewrite (filter_first_hit _ pre post row Hpre Hrow).
    cbn [filter]. rewrite (Hnone row (in_elt row pre post)), Hrow. reflexivity.
Qed.

Lemma combine_map_map {A B C : Type} (f : A -> B) (g : A -> C) (l : list A) :
  combine (map f l) (map g l) = map (fun a => (f a, g a)) l.
Proof. induction l as [|a l IH]; simpl; [reflexivity | rewrite IH; reflexivity]. Qed.

(** A returning run names the row it read, one with phosphate in its
    first cell. *)
Lemma extract_series_returns_row (df : DataFrame) (data : Series) :
  extract_series' df = Ok (Some data) ->
  exists row dates,
    In row (rows df)
    /\ contains_lower "phosphate" (cell_at 0 row) = true
    /\ mapM (fun c => to_datetime' (date_text c)) (filter re_match_ym (columns df)) = Ok dates
    /\ data = sort_by_date (dropna (combine dates
                (map (fun c => to_numeric parse_number (getitem (columns df) row c))
                     (filter re_match_ym (columns df))))).
Proof.
  unfold extract_series. intros H.
  destruct (columns df) as [|first_col tl] eqn:Ecols; [discriminate|].
  rewrite <- Ecols in *.
  assert (Hin : forall needle r, In r (rows_containing needle df first_col) ->
             In r (rows df) /\ contains_lower needle (cell_at 0 r) = true).
  { intros needle r Hr. unfold rows_containing in Hr. apply filter_In in Hr.
    rewrite Ecols, getitem_first in Hr. exact Hr. }
  assert (Hrow : forall row rest,
             match rows_containing "phosphate rock" df first_col with
             | [] => rows_containing "phosphate" df first_col
             | _ :: _ => rows_containing "phosphate rock" df first_col
             end = row :: rest ->
             In row (rows df) /\ contains_lower "phosphate" (cell_at 0 row) = true).
  { intros row rest E.
    destruct (rows_containing "phosphate rock" df first_col) as [|r0 rs] eqn:E1.
    - apply (Hin "phosphate"). rewrite E. left. reflexivity.
    - inversion E; subst.
      destruct (Hin "phosphate rock" row) as [H1 H2]; [rewrite E1; left; reflexivity|].
      split; [exact H1 | apply rock_is_phosphate, H2]. }
  match type of H with
  | match ?rs with _ => _ end = _ => destruct rs as [|row rest] eqn:Ers; [discriminate|]
  end.
  destruct (Hrow row rest eq_refl) as [Hr1 Hr2].
  destruct (filter re_match_ym (columns df)) as [|c0 ym] eqn:Eym; [discriminate|].
  match type of H with
  | bind ?m _ = _ => destruct m as [dates|e] eqn:Em; simpl in H; [|discriminate]
  end.
  exists row, dates. repeat split; auto.
  inversion H. reflexivity.
Qed.

(** X6: what a returned series holds.  On a sheet whose year-month
    labels are all of the form YYYYMmm, the points are exactly the
    present numbers of one phosphate row under the year-month columns,
    each dated the first day of the month its label names: no number
    is lost and no point is made up. *)
Theorem series_holds_the_numbers_of_the_row (df : DataFrame) (data : Series) :
  (forall c, In c (columns df) -> re_match_ym c = true -> strict_ym c = true) ->
  extract_series' df = Ok (Some data) ->
  exists row,
    In row (rows df)
    /\ contains_lower "phosphate" (cell_at 0 row) = true
    /\ forall d v,
         In (d, v) data <->
         exists c,
           In c (columns df) /\ re_match_ym c = true
           /\ d = mkTs (label_year c) (label_month c) 1
           /\ v = to_numeric parse_number (getitem (columns df) row c)
           /\ is_nan v = false.
Proof.
  intros Hstrict H. apply extract_series_returns_row in H.
  destruct H as (row & dates & Hin & Hph & Hm & ->).
  exists row. split; [exact Hin|]. split; [exact Hph|].
  assert (Hym : forall c, In c (filter re_match_ym (columns df)) -> strict_ym c = true).
  { intros c Hc. apply filter_In in Hc. destruct Hc. auto. }
  rewrite (dates_of_strict_labels _ _ _ Hym Hm), combine_map_map.
  intros d v. split.
  - intros Hp. apply (Permutation_in _ (sort_by_date_perm _)) in Hp.
    unfold dropna in Hp. apply filter_In in Hp. destruct Hp as [Hp Hv].
    apply in_map_iff in Hp. destruct Hp as [c [E Hc]]. inversion E; subst.
    apply filter_In in Hc. destruct Hc as [Hc Hre].
    exists c. simpl in Hv. apply negb_true_iff in Hv. auto.
  - intros (c & Hc & Hre & -> & -> & Hv).
    apply (Permutation_in _ (Permutation_sym (sort_by_date_perm _))).
    unfold dropna. apply filter_In. split.
    + apply in_map_iff. exists c. split; [reflexivity|]. apply filter_In. auto.
    + simpl. rewrite Hv. reflexivity.
Qed.

(** X7: two different columns with labels of the form YYYYMmm never
    get the same date. *)
Theorem distinct_labels_distinct_dates (a b : string) (t : Timestamp) :
  strict_ym a = true -> strict_ym b = true ->
  to_datetime' (date_text a) = Ok t -> to_datetime' (date_text b) = Ok t ->
  a = b.
Proof.
  intros Ha Hb Hta Htb.
  apply (to_datetime_strict_inv _ _ _ Ha) in Hta.
  apply (to_datetime_strict_inv _ _ _ Hb) in Htb.
  rewrite Hta in Htb. inversion Htb.
  apply strict_label_inj; auto.
Qed.

End PriceRow.

(** ** The metrics on what the extractor returns *)

Lemma iloc_last_app {A : Type} (l : list A) (x : A) : iloc_last (l ++ [x]) = Ok x.
Proof. unfold iloc_last. rewrite rev_unit. reflexivity. Qed.


Lemma iloc_last_inv {A : Type} (l : list A) (x : A) :
  iloc_last l = Ok x -> exists l', l = (l' ++ [x])%list.
Proof.
  unfold iloc_last. intros H.
  destruct (rev l) as [|y r] eqn:E; [discriminate|]. inversion H; subst.
  exists (rev r). rewrite <- (rev_involutive l), E. reflexivity.
Qed.

Lemma iloc_second_last_inv {A : Type} (l : list A) (x : A) :
  iloc_second_last l = Ok x -> exists l' y, l = (l' ++ [x; y])%list.
Proof.
  unfold iloc_second_last. intros H.
  destruct (rev l) as [|y [|z r]] eqn:E; try discriminate. inversion H; subst.
  exists (rev r), y. rewrite <- (rev_involutive l), E. simpl.
  rewrite <- app_assoc. reflexivity.
Qed.

Lemma sorted_before_last (l : list Timestamp) (x : Timestamp) :
  StronglySorted ts_lt (l ++ [x]) -> Forall (fun y => ts_lt y x) l.
Proof.
  induction l as [|a l IH]; simpl; intros H; [constructor|].
  inversion H as [|? ? Hs Hall]; subst. constructor.
  - rewrite Forall_forall in Hall. apply Hall. apply in_or_app. right. left. reflexivity.
  - apply IH, Hs.
Qed.

Lemma sorted_app_l (l1 l2 : list Timestamp) :
  StronglySorted ts_lt (l1 ++ l2) -> StronglySorted ts_lt l1.
Proof.
  induction l1 as [|a l1 IH]; simpl; intros H; [constructor|].
  inversion H as [|? ? Hs Hall]; subst. constructor; [apply IH, Hs|].
  rewrite Forall_forall in *. intros y Hy. apply Hall, in_or_app. left. exact Hy.
Qed.

Section MetricsOnFetched.

Variable requests_get : string -> result Response.
Variable parse_number : string -> float.
Variable to_datetime_lenient : string -> result Timestamp.

Local Abbreviation fetch_worldbank_price' :=
  (fetch_worldbank_price requests_get parse_number to_datetime_lenient).



End MetricsOnFetched.

(** X9: on a strictly increasing series without NaN the latest point
    is the chronologically last one, and the point the MoM tile
    compares with is the last one before it. *)
Theorem latest_is_chronologically_last (price_df : Series) (m : Metrics) :
  StronglySorted ts_lt (map fst price_df) ->
  Forall (fun p => is_nan (snd p) = false) price_df ->
  price_metrics price_df = Ok m ->
  (forall p, In p price_df -> p = latest m \/ ts_lt (fst p) (fst (latest m)))
  /\ (forall prev, iloc_second_last price_df = Ok prev ->
        ts_lt (fst prev) (fst (latest m))
        /\ forall p, In p price_df ->
             p = latest m \/ p = prev \/ ts_lt (fst p) (fst prev)).
Proof.
  intros Hs Hnan Hm.
  assert (Hne : price_df <> []).
  { intros ->. discriminate. }
  destruct (price_metrics_shape price_df Hne Hnan) as (lt & pm & Hlt & _ & _ & E).
  rewrite E in Hm. inversion Hm; subst m. clear Hm E. simpl.
  destruct (iloc_last_inv _ _ Hlt) as [l' El].
  assert (Hbefore : Forall (fun y => ts_lt y (fst lt)) (map fst l')).
  { apply sorted_before_last. rewrite El, map_app in Hs. exact Hs. }
  rewrite Forall_forall in Hbefore.
  split.
  - intros p Hp. rewrite El in Hp. apply in_app_or in Hp.
    destruct Hp as [Hp | [<- | []]]; [right | left; reflexivity].
    apply Hbefore, in_map, Hp.
  - intros prev Hprev. destruct (iloc_second_last_inv _ _ Hprev) as (l2 & y & E2).
    assert (y = lt).
    { rewrite E2 in Hlt. change [prev; y] with ([prev] ++ [y])%list in Hlt.
      rewrite app_assoc, iloc_last_app in Hlt. congruence. }
    subst y.
    assert (El' : l' = (l2 ++ [prev])%list).
    { rewrite E2 in El. change [prev; lt] with ([prev] ++ [lt])%list in El.
      rewrite app_assoc in El. apply app_inj_tail in El. symmetry. tauto. }
    split.
    + apply Hbefore, in_map. rewrite El'. apply in_or_app. right. left. reflexivity.
    + assert (Hb2 : Forall (fun y => ts_lt y (fst prev)) (map fst l2)).
      { apply sorted_before_last.
        rewrite El, El', !map_app in Hs. simpl in Hs.
        apply sorted_app_l in Hs. exact Hs. }
      rewrite Forall_forall in Hb2.
      intros p Hp. rewrite E2 in Hp. apply in_app_or in Hp.
      destruct Hp as [Hp | [<- | [<- | []]]]; auto.
      right. right. apply Hb2, in_map, Hp.
Qed.


(** ** More on the production extractor *)

Lemma raise_for_status_refused (r : Response) :
  400 <= status_code r < 600 -> raise_for_status r = Raise HTTPError.
Proof.
  intros [H1 H2]. unfold raise_for_status.
  apply Z.leb_le in H1. apply Z.ltb_lt in H2. rewrite H1, H2. reflexivity.
Qed.

Lemma status_ok_or_refused (r : Response) :
  status_ok r \/ 400 <= status_code r < 600.
Proof. unfold status_ok. lia. Qed.

Lemma index_none_mem (c : string) (cols : list string) :
  Py.index c cols = None -> Py.mem c cols = false.
Proof.
  intros H. destruct (Py.mem c cols) eqn:E; [|reflexivity].
  destruct (index_mem _ _ E) as [i Hi]. congruence.
Qed.

Lemma value_col_none (cols : list string) :
  value_col_of cols = None <-> forall c, In c cols -> Py.mem c candidates = false.
Proof.
  unfold value_col_of. split.
  - intros H c Hc. destruct (Py.mem c candidates) eqn:E; [|reflexivity].
    apply mem_In in E. pose proof (find_none _ _ H c E) as Hn. simpl in Hn.
    apply mem_In in Hc. congruence.
  - intros H. destruct (find (fun c => Py.mem c cols) candidates) as [v|] eqn:E;
      [|reflexivity].
    apply find_some in E. destruct E as [Hin Hm].
    apply mem_In in Hm. apply mem_In in Hin. rewrite (H v Hm) in Hin. discriminate.
Qed.

Section UsgsFlow.

Variable requests_get : string -> result Response.
Variable parse_number : string -> float.

Local Abbreviation wide_branch' := (wide_branch parse_number).
Local Abbreviation wide_table' := (wide_table parse_number).
Local Abbreviation long_branch' := (long_branch parse_number).
Local Abbreviation long_table' := (long_table parse_number).
Local Abbreviation fetch_usgs_world' := (fetch_usgs_world requests_get parse_number).

Lemma filter_commodity_columns (raw df : DataFrame) :
  filter_commodity raw = Ok df -> columns df = map Py.strip (columns raw).
Proof.
  unfold filter_commodity. intros H.
  destruct (Py.index "Commodity" (map Py.strip (columns raw))); [|discriminate].
  destruct (1 <? Py.count "Commodity" (map Py.strip (columns raw)))%nat; [discriminate|].
  inversion H. reflexivity.
Qed.

Lemma filter_commodity_raises (raw : DataFrame) (e : Exc) :
  filter_commodity raw = Raise e <->
  (e = KeyError /\ forall c, In c (columns raw) -> Py.strip c <> "Commodity")
  \/ (e = AttributeError
      /\ (2 <= Py.count "Commodity" (map Py.strip (columns raw)))%nat).
Proof.
  unfold filter_commodity.
  destruct (Py.index "Commodity" (map Py.strip (columns raw))) as [i|] eqn:E.
  - assert (Hsome : ~ forall c, In c (columns raw) -> Py.strip c <> "Commodity").
    { intros Hno. apply index_In, in_map_iff in E. destruct E as [c [Hs Hc]].
      exact (Hno c Hc Hs). }
    destruct (Nat.ltb_spec 1 (Py.count "Commodity" (map Py.strip (columns raw))))
      as [Hlt|Hge]; split.
    + intros H. inversion H. right. split; [reflexivity | lia].
    + intros [[_ Hno]|[-> _]]; [contradiction | reflexivity].
    + discriminate.
    + intros [[_ Hno]|[_ H]]; [contradiction | lia].
  - apply index_none_mem in E. split.
    + intros H. inversion H. left. split; [reflexivity|]. intros c Hc Hs.
      assert (Hm : Py.mem "Commodity" (map Py.strip (columns raw)) = true).
      { apply mem_In. rewrite <- Hs. apply in_map, Hc. }
      congruence.
    + intros [[-> _]|[_ H]]; [reflexivity|].
      apply count_zero_mem in E. lia.
Qed.

(** X11: on a table whose labels are distinct once stripped, the
    production extractor fails in six ways and no other: the exception
    of the request, HTTPError on a 4xx/5xx status, the parser's error
    on a body that is no CSV, KeyError when no label is "Commodity"
    once stripped, RuntimeError when the table has neither a named
    production column nor a four-digit-year column, and TypeError when
    it has no named production column, some four-digit-year column and
    a column called Year, which the melt doubles.  Nothing is caught
    and nothing is guessed. *)
Theorem usgs_fails_exactly_when (e : Exc) :
  (forall r raw, requests_get USGS_WORLD_CSV = Ok r -> csv r = Some raw ->
                 NoDup (map Py.strip (columns raw))) ->
  fetch_usgs_world' = Raise e <-> usgs_failure requests_get e.
Proof.
  intros Hdistinct. unfold fetch_usgs_world. split.
  - intros H.
    destruct (requests_get USGS_WORLD_CSV) as [r|e0] eqn:Er; simpl in H;
      [|inversion H; subst; apply usgs_transport_failed; exact Er].
    destruct (status_ok_or_refused r) as [Hs|Hs].
    + rewrite (raise_for_status_ok r Hs) in H. simpl in H.
      destruct (csv r) as [raw|] eqn:Ec; simpl in H;
        [|inversion H; subst; apply (usgs_not_a_csv _ r); assumption].
      pose proof (Hdistinct r raw eq_refl Ec) as Hnd.
      destruct (filter_commodity raw) as [df|e1] eqn:Ef; simpl in H.
      * pose proof (filter_commodity_columns _ _ Ef) as Hcols.
        assert (Hcomm : exists c, In c (columns raw) /\ Py.strip c = "Commodity").
        { destruct (Py.mem "Commodity" (map Py.strip (columns raw))) eqn:Em.
          - apply mem_In, in_map_iff in Em. destruct Em as [c [Hc1 Hc2]]. eauto.
          - exfalso. unfold filter_commodity in Ef.
            rewrite (mem_index_none _ _ Em) in Ef. discriminate. }
        destruct (value_col_of (columns df)) as [v|] eqn:Ev.
        -- exfalso. destruct (value_col_cases _ _ Ev) as (Hmem & Hcand & _).
           apply (long_branch_raises _ _ _ _ Hcand Hmem) in H.
           rewrite Hcols in H, Hmem. destruct H as [_ [H|H]].
           ++ pose proof (count_NoDup "Year" _ Hnd). lia.
           ++ pose proof (count_NoDup v _ Hnd). lia.
        -- assert (Hnc : forall c, In c (columns raw) ->
                           Py.mem (Py.strip c) candidates = false).
           { intros c Hc. rewrite Hcols in Ev.
             apply (proj1 (value_col_none _) Ev). apply in_map, Hc. }
           apply wide_branch_raises in H.
           destruct H as [[-> Hny]|(-> & Hy & [HY|HP])].
           ++ apply (usgs_unknown_layout _ r raw); try assumption.
              intros c Hc. split; [apply Hnc, Hc|].
              destruct (re_match_year (Py.strip c)) eqn:Em; [|reflexivity].
              assert (Hin : In (Py.strip c) (filter re_match_year (columns df))).
              { apply filter_In. split; [rewrite Hcols; apply in_map, Hc | exact Em]. }
              rewrite Hny in Hin. contradiction.
           ++ apply (usgs_year_beside_year_columns _ r raw); try assumption.
              ** destruct (filter re_match_year (columns df)) as [|y ys] eqn:Ey;
                   [contradiction|].
                 assert (Hin : In y (filter re_match_year (columns df)))
                   by (rewrite Ey; left; reflexivity).
                 apply filter_In in Hin. destruct Hin as [Hin Hm].
                 rewrite Hcols in Hin. apply in_map_iff in Hin.
                 destruct Hin as [c [<- Hc]]. eauto.
              ** rewrite Hcols in HY. apply mem_In, in_map_iff in HY.
                 destruct HY as [c [Hc1 Hc2]]. eauto.
           ++ exfalso. rewrite (no_named_production_column _ Ev) in HP. discriminate.
      * inversion H; subst. apply filter_commodity_raises in Ef.
        destruct Ef as [[-> Hno]|[_ Hc]].
        -- apply (usgs_no_commodity_column _ r raw); assumption.
        -- pose proof (count_NoDup "Commodity" _ Hnd). lia.
    + rewrite (raise_for_status_refused r Hs) in H. simpl in H.
      inversion H; subst. apply (usgs_status_refused _ r); assumption.
  - intros [e0 Hr | r Hr Hs | r Hr Hs Hc | r raw Hr Hs Hc Hno
            | r raw Hr Hs Hc [c0 [Hc0 Hs0]] Hun
            | r raw Hr Hs Hc [c0 [Hc0 Hs0]] Hnc [cy [Hcy Hmy]] [cY [HcY HsY]]];
      rewrite Hr; simpl.
    + reflexivity.
    + rewrite (raise_for_status_refused r Hs). reflexivity.
    + rewrite (raise_for_status_ok r Hs). simpl. rewrite Hc. reflexivity.
    + rewrite (raise_for_status_ok r Hs). simpl. rewrite Hc. simpl.
      rewrite (proj2 (filter_commodity_raises raw KeyError) (or_introl (conj eq_refl Hno))).
      reflexivity.
    + rewrite (raise_for_status_ok r Hs). simpl. rewrite Hc. simpl.
      pose proof (Hdistinct r raw Hr Hc) as Hnd.
      destruct (filter_commodity raw) as [df|e1] eqn:Ef; simpl.
      * pose proof (filter_commodity_columns _ _ Ef) as Hcols.
        assert (Ev : value_col_of (columns df) = None).
        { apply value_col_none. rewrite Hcols. intros c Hc'.
          apply in_map_iff in Hc'. destruct Hc' as [c1 [<- Hc1]]. apply (Hun c1 Hc1). }
        rewrite Ev. apply wide_branch_raises. left. split; [reflexivity|].
        apply filter_all_false. rewrite Hcols. intros c Hc'.
        apply in_map_iff in Hc'. destruct Hc' as [c1 [<- Hc1]]. apply (Hun c1 Hc1).
      * exfalso. apply filter_commodity_raises in Ef.
        destruct Ef as [[_ Hno]|[_ Hcnt]].
        -- exact (Hno c0 Hc0 Hs0).
        -- pose proof (count_NoDup "Commodity" _ Hnd). lia.
    + rewrite (raise_for_status_ok r Hs). simpl. rewrite Hc. simpl.
      pose proof (Hdistinct r raw Hr Hc) as Hnd.
      destruct (filter_commodity raw) as [df|e1] eqn:Ef; simpl.
      * pose proof (filter_commodity_columns _ _ Ef) as Hcols.
        assert (Ev : value_col_of (columns df) = None).
        { apply value_col_none. rewrite Hcols. intros c Hc'.
          apply in_map_iff in Hc'. destruct Hc' as [c1 [<- Hc1]]. apply (Hnc c1 Hc1). }
        rewrite Ev. apply wide_branch_raises. right. split; [reflexivity|]. split.
        -- intros Hempty.
           assert (Hin : In (Py.strip cy) (filter re_match_year (columns df))).
           { apply filter_In. split; [rewrite Hcols; apply in_map, Hcy | exact Hmy]. }
           rewrite Hempty in Hin. contradiction.
        -- left. apply mem_In. rewrite Hcols, <- HsY. apply in_map, HcY.
      * exfalso. apply filter_commodity_raises in Ef.
        destruct Ef as [[_ Hno]|[_ Hcnt]].
        -- exact (Hno c0 Hc0 Hs0).
        -- pose proof (count_NoDup "Commodity" _ Hnd). lia.
Qed.

End UsgsFlow.

Lemma relabel_not_old (old new : string) (cols : list string) :
  old <> new -> ~ In old (map (relabel old new) cols).
Proof.
  intros Hne Hin. apply in_map_iff in Hin. destruct Hin as [c [E _]].
  unfold relabel in E. destruct (String.eqb_spec c old); congruence.
Qed.

Lemma In_relabel_other (old new c : string) (cols : list string) :
  c <> old -> c <> new -> (In c (map (relabel old new) cols) <-> In c cols).
Proof.
  intros Ho Hn. rewrite <- !mem_In, mem_relabel_other by assumption. reflexivity.
Qed.

Lemma In_relabel_new (old new : string) (cols : list string) :
  In new (map (relabel old new) cols) <-> In old cols \/ In new cols.
Proof.
  rewrite in_map_iff. unfold relabel. split.
  - intros [c [E Hc]]. destruct (String.eqb_spec c old); subst; auto.
  - intros [H|H].
    + exists old. rewrite String.eqb_refl. auto.
    + exists new. destruct (String.eqb_spec new old); auto.
Qed.

Lemma year_label_not_named (c : string) :
  re_match_year c = true -> c <> "Country" /\ c <> "CountryName" /\ c <> "Commodity".
Proof. intros H. repeat split; intros ->; discriminate. Qed.

Lemma In_id_vars (df : DataFrame) (c : string) :
  re_match_year c = false -> (In c (id_vars_of df) <-> In c (columns df)).
Proof.
  intros Hc. unfold id_vars_of. rewrite filter_In. split; [tauto|].
  intros Hin. split; [exact Hin|].
  destruct (Py.mem c (year_cols_of df)) eqn:E; [|reflexivity].
  apply mem_In in E. unfold year_cols_of in E. apply filter_In in E.
  destruct E. congruence.
Qed.

Lemma wide_branch_columns (pn : string -> float) (df out : DataFrame) :
  wide_branch pn df = Ok out ->
  columns out
  = map (relabel "Country" "CountryName") (id_vars_of df ++ ["Year"; "Production"]).
Proof.
  intros H. apply wide_branch_ok in H. destruct H as (_ & _ & _ & ->).
  unfold wide_table, dropna_subset. cbn [columns].
  rewrite rename_columns, !coerced_columns. unfold melt. cbn [columns].
  reflexivity.
Qed.

Lemma long_branch_columns (pn : string -> float) (df : DataFrame) (value_col : string) :
  columns (long_table pn df value_col)
  = map (relabel value_col "Production")
        (if Py.mem "Country" (columns df)
         then map (relabel "Country" "CountryName") (columns df)
         else columns df).
Proof.
  unfold long_table, dropna_subset. cbn [columns].
  rewrite rename_columns, coerced_columns.
  destruct (Py.mem "Country" (columns df)) eqn:Ec.
  - destruct (Py.mem "Year" (columns (rename "Country" "CountryName" df)));
      [rewrite coerced_columns|]; reflexivity.
  - destruct (Py.mem "Year" (columns df));
      [rewrite coerced_columns|]; reflexivity.
Qed.

Lemma candidates_not_year (v : string) :
  In v candidates -> v <> "Year" /\ v <> "Commodity".
Proof.
  unfold candidates. simpl.
  intros [<-|[<-|[<-|[<-|[<-|[]]]]]]; split; discriminate.
Qed.

(** X12: the schema of the returned table.  It never has a column
    "Country": that column comes out as "CountryName".  It has a
    column "Year" exactly when the year columns were melted or the
    table had one, and a column "CountryName" exactly when the table
    had "Country" or "CountryName". *)
Theorem returned_schema
    (requests_get : string -> result Response) (pn : string -> float)
    (r : Response) (raw df out : DataFrame) :
  requests_get USGS_WORLD_CSV = Ok r -> status_ok r -> csv r = Some raw ->
  filter_commodity raw = Ok df ->
  fetch_usgs_world requests_get pn = Ok out ->
  ~ In "Country" (columns out)
  /\ (In "Year" (columns out) <->
      value_col_of (columns df) = None \/ In "Year" (columns df))
  /\ (In "CountryName" (columns out) <->
      In "Country" (columns df) \/ In "CountryName" (columns df)).
Proof.
  intros Hr Hs Hc Hf H. unfold fetch_usgs_world in H.
  rewrite Hr in H. simpl in H. rewrite (raise_for_status_ok r Hs) in H. simpl in H.
  rewrite Hc in H. simpl in H. rewrite Hf in H. simpl in H.
  destruct (value_col_of (columns df)) as [v|] eqn:Ev.
  - destruct (value_col_cases _ _ Ev) as (_ & Hcand & _).
    apply (long_branch_ok _ _ _ _ Hcand) in H. destruct H as (_ & _ & ->).
    rewrite long_branch_columns.
    destruct (candidates_not_country _ Hcand) as [Hv1 Hv2].
    destruct (candidates_not_year _ Hcand) as [Hv3 _].
    assert (HY : forall X, In "Year" (map (relabel v "Production") X) <-> In "Year" X).
    { intros X. apply In_relabel_other; [auto | discriminate]. }
    assert (HC : forall X, In "Country" (map (relabel v "Production") X) <-> In "Country" X).
    { intros X. apply In_relabel_other; [auto | discriminate]. }
    assert (HN : forall X, In "CountryName" (map (relabel v "Production") X)
                           <-> In "CountryName" X).
    { intros X. apply In_relabel_other; [auto | discriminate]. }
    rewrite HY, HC, HN.
    destruct (Py.mem "Country" (columns df)) eqn:Em.
    + split; [|split].
      * apply relabel_not_old. discriminate.
      * rewrite In_relabel_other by discriminate.
        split; [auto | intros [?|?]; [discriminate | auto]].
      * split; [intros _; left; apply mem_In, Em|].
        intros _. apply In_relabel_new. left. apply mem_In, Em.
    + assert (Hno : ~ In "Country" (columns df)).
      { intros Hin. apply mem_In in Hin. congruence. }
      split; [exact Hno|]. split.
      * split; [auto | intros [?|?]; [discriminate | auto]].
      * split; [auto | intros [?|?]; [contradiction | auto]].
  - rewrite (wide_branch_columns _ _ _ H).
    split; [|split].
    + apply relabel_not_old. discriminate.
    + split; [auto|]. intros _. apply In_relabel_other; try discriminate.
      apply in_or_app. right. simpl. auto.
    + split.
      * intros Hin. apply In_relabel_new in Hin.
        destruct Hin as [Hin|Hin]; apply in_app_or in Hin;
          destruct Hin as [Hin|[Hin|[Hin|[]]]]; try discriminate.
        -- left. apply (In_id_vars df "Country" eq_refl), Hin.
        -- right. apply (In_id_vars df "CountryName" eq_refl), Hin.
      * intros Hin. apply In_relabel_new.
        destruct Hin as [Hin|Hin]; [left|right]; apply in_or_app; left.
        -- apply (In_id_vars df "Country" eq_refl), Hin.
        -- apply (In_id_vars df "CountryName" eq_refl), Hin.
Qed.

Lemma find_first {A : Type} (p : A -> bool) (l : list A) (v : A) :
  find p l = Some v <->
  exists pre post,
    l = (pre ++ v :: post)%list /\ p v = true /\ forall x, In x pre -> p x = false.
Proof.
  split.
  - induction l as [|a l IH]; simpl; intros H; [discriminate|].
    destruct (p a) eqn:Ea.
    + inversion H; subst. exists [], l. repeat split; auto. intros x [].
    + destruct (IH H) as (pre & post & -> & Hv & Hpre).
      exists (a :: pre), post. repeat split; auto.
      intros x [<-|Hx]; auto.
  - intros (pre & post & -> & Hv & Hpre).
    induction pre as [|a pre IH]; simpl.
    + rewrite Hv. reflexivity.
    + rewrite (Hpre a (or_introl eq_refl)). apply IH.
      intros x Hx. apply Hpre. right. exact Hx.
Qed.

(** X13: the production column is chosen by rank: it is the first name
    of the list Production, Mine Production, Mine production, World
    Production, Production (kt) that is a label of the table, and
    there is none exactly when the table has none of the five. *)
Theorem value_col_is_first_candidate_present (cols : list string) :
  (forall v,
     value_col_of cols = Some v <->
     exists pre post,
       candidates = (pre ++ v :: post)%list /\ In v cols
       /\ forall c, In c pre -> ~ In c cols)
  /\ (value_col_of cols = None <-> forall c, In c candidates -> ~ In c cols).
Proof.
  split.
  - intros v. unfold value_col_of. rewrite find_first. split.
    + intros (pre & post & E & Hv & Hpre). exists pre, post.
      split; [exact E|]. split; [apply mem_In, Hv|].
      intros c Hc Hin. apply mem_In in Hin. rewrite (Hpre c Hc) in Hin. discriminate.
    + intros (pre & post & E & Hv & Hpre). exists pre, post.
      split; [exact E|]. split; [apply mem_In, Hv|].
      intros c Hc. destruct (Py.mem c cols) eqn:Em; [|reflexivity].
      apply mem_In in Em. exfalso. exact (Hpre c Hc Em).
  - unfold value_col_of. split.
    + intros H c Hc Hin. pose proof (find_none _ _ H c Hc) as Hn. simpl in Hn.
      apply mem_In in Hin. congruence.
    + intros H. destruct (find (fun c => Py.mem c cols) candidates) as [v|] eqn:E;
        [|reflexivity].
      apply find_some in E. destruct E as [Hin Hm]. apply mem_In in Hm.
      exfalso. exact (H v Hin Hm).
Qed.

Lemma flat_map_list_prod {A B C : Type} (f : A -> B -> C) (l : list A) (l' : list B) :
  flat_map (fun a => map (f a) l') l
  = map (fun ab => f (fst ab) (snd ab)) (list_prod l l').
Proof.
  induction l as [|a l IH]; simpl; [reflexivity|].
  rewrite map_app, map_map, IH. reflexivity.
Qed.

Lemma filter_map_comm {A B : Type} (f : A -> B) (p : B -> bool) (l : list A) :
  filter p (map f l) = map f (filter (fun a => p (f a)) l).
Proof.
  induction l as [|a l IH]; simpl; [reflexivity|].
  destruct (p (f a)); simpl; rewrite IH; reflexivity.
Qed.

Section UsgsMeltOrder.

Variable requests_get : string -> result Response.
Variable parse_number : string -> float.

Local Abbreviation to_numeric' := (to_numeric parse_number).
Local Abbreviation fetch_usgs_world' := (fetch_usgs_world requests_get parse_number).

(** X14: the order of the melted records, on a table whose labels are
    distinct once stripped.  They come one block per year column, in
    the order of the columns, and inside a block in the order of the
    rows; the pairs without a present year or production are left out,
    so there are at most rows times year columns of them. *)
Theorem melted_records_in_column_then_row_order (r : Response) (raw df : DataFrame) :
  requests_get USGS_WORLD_CSV = Ok r -> status_ok r -> csv r = Some raw ->
  filter_commodity raw = Ok df ->
  NoDup (columns df) ->
  value_col_of (columns df) = None ->
  (exists c, In c (columns df) /\ re_match_year c = true) ->
  Py.mem "Year" (columns df) = false ->
  exists out,
    fetch_usgs_world' = Ok out
    /\ rows out
       = map (fun yr => melted_record parse_number df (snd yr) (fst yr))
             (filter (pair_is_numeric parse_number df) (list_prod (year_cols_of df) (rows df)))
    /\ (List.length (rows out)
        <= List.length (year_cols_of df) * List.length (rows df))%nat.
Proof.
  intros Hr Hs Hcsv Hf _ Hv [c0 [Hc0 Hm0]] Hyear.
  unfold fetch_usgs_world. rewrite Hr. cbn [bind].
  rewrite (raise_for_status_ok r Hs). cbn [bind]. rewrite Hcsv. cbn [bind].
  rewrite Hf. cbn [bind]. rewrite Hv.
  pose proof (filter_nonempty re_match_year _ c0 Hc0 Hm0) as Hne.
  rewrite (proj2 (wide_branch_ok parse_number df (wide_table parse_number df)))
    by (repeat split; auto using no_named_production_column).
  unfold wide_table. clear Hne.
  fold (year_cols_of df) in *.
  set (n := List.length (id_vars_of df)).
  assert (HiY : Py.index "Year" (columns (melt df (year_cols_of df))) = Some (n + 0)%nat).
  { unfold melt. cbn [columns]. fold (year_cols_of df). fold (id_vars_of df).
    rewrite index_app_absent; [reflexivity|].
    apply mem_filter_false, Hyear. }
  assert (HiP : Py.index "Production" (columns (melt df (year_cols_of df))) = Some (n + 1)%nat).
  { unfold melt. cbn [columns]. fold (year_cols_of df). fold (id_vars_of df).
    rewrite index_app_absent; [reflexivity|].
    apply mem_filter_false, no_named_production_column, Hv. }
  set (long_df := rename "Country" "CountryName"
                    (coerced parse_number "Production"
                       (coerced parse_number "Year" (melt df (year_cols_of df))))).
  assert (HiY' : Py.index "Year" (columns long_df) = Some (n + 0)%nat).
  { unfold long_df. rewrite rename_columns, !coerced_columns.
    rewrite index_relabel_other by discriminate. exact HiY. }
  assert (HiP' : Py.index "Production" (columns long_df) = Some (n + 1)%nat).
  { unfold long_df. rewrite rename_columns, !coerced_columns.
    rewrite index_relabel_other by discriminate. exact HiP. }
  assert (Hrows : rows long_df
            = map (fun yr => melted_record parse_number df (snd yr) (fst yr))
                  (list_prod (year_cols_of df) (rows df))).
  { unfold long_df, rename. cbn [rows].
    unfold coerced at 1. rewrite coerced_columns, HiP. cbn [rows].
    unfold coerced at 1. rewrite HiY. cbn [rows].
    unfold melt. cbn [rows]. fold (year_cols_of df). fold (id_vars_of df).
    rewrite (flat_map_list_prod
               (fun yc r => (map (getitem (columns df) r) (id_vars_of df)
                             ++ [CStr yc; getitem (columns df) r yc])%list)).
    rewrite !map_map. apply map_ext. intros [yc r0]. cbn [fst snd]. unfold n.
    rewrite <- (length_map (getitem (columns df) r0) (id_vars_of df)).
    apply melted_row_numeric. }
  assert (Hfinal : rows (dropna_subset ["Production"; "Year"] long_df)
            = map (fun yr => melted_record parse_number df (snd yr) (fst yr))
                  (filter (pair_is_numeric parse_number df) (list_prod (year_cols_of df) (rows df)))).
  { unfold dropna_subset. cbn [rows]. rewrite Hrows, filter_map_comm. f_equal.
    apply filter_ext. intros [yc r0]. cbn [forallb fst snd].
    rewrite (getitem_index _ _ "Year" _ HiY'), (getitem_index _ _ "Production" _ HiP').
    unfold melted_record, n.
    rewrite <- (length_map (getitem (columns df) r0) (id_vars_of df)).
    rewrite !cell_at_app. cbn [cell_at nth isna]. unfold pair_is_numeric.
    cbn [fst snd]. rewrite andb_true_r. reflexivity. }
  eexists. split; [reflexivity|]. split; [exact Hfinal|].
  rewrite Hfinal, length_map.
  eapply Nat.le_trans; [apply filter_length_le|]. rewrite length_prod. lia.
Qed.

End UsgsMeltOrder.

Lemma index_app_present (c : string) (ids tl : list string) (k : nat) :
  Py.index c ids = Some k -> Py.index c (ids ++ tl) = Some k.
Proof.
  revert k. induction ids as [|x ids IH]; simpl; intros k H; [discriminate|].
  destruct (String.eqb c x); [exact H|].
  destruct (Py.index c ids) as [j|]; [|discriminate].
  rewrite (IH j eq_refl). exact H.
Qed.

Lemma cell_at_map_index (f : string -> Cell) (ids : list string) (tl : list Cell)
    (c : string) (k : nat) :
  Py.index c ids = Some k -> cell_at k (map f ids ++ tl) = f c.
Proof.
  unfold cell_at. revert k. induction ids as [|x ids IH]; simpl; intros k H; [discriminate|].
  destruct (String.eqb_spec c x) as [->|Hne].
  - inversion H. reflexivity.
  - destruct (Py.index c ids) as [j|]; [|discriminate].
    inversion H. apply (IH j). reflexivity.
Qed.

Section UsgsRecords.

Variable requests_get : string -> result Response.
Variable parse_number : string -> float.

Local Abbreviation to_numeric' := (to_numeric parse_number).
Local Abbreviation coerced' := (coerced parse_number).
Local Abbreviation long_branch' := (long_branch parse_number).
Local Abbreviation long_table' := (long_table parse_number).
Local Abbreviation fetch_usgs_world' := (fetch_usgs_world requests_get parse_number).

(** An assignment to one column leaves the cells of the others. *)
Lemma coerced_rows (c : string) (df : DataFrame) :
  exists h : list Cell -> list Cell,
    rows (coerced' c df) = map h (rows df)
    /\ forall k r, Py.index c (columns df) <> Some k -> cell_at k (h r) = cell_at k r.
Proof.
  unfold coerced. destruct (Py.index c (columns df)) as [i|].
  - exists (fun r => set_at i (CNum (to_numeric' (cell_at i r))) r).
    split; [reflexivity|]. intros k r Hk. apply cell_at_set_at_other. congruence.
  - exists (fun r => r). split; [symmetry; apply map_id | reflexivity].
Qed.

Lemma filter_commodity_rows (raw df : DataFrame) :
  filter_commodity raw = Ok df ->
  exists ic,
    Py.index "Commodity" (columns df) = Some ic
    /\ forall r, In r (rows df) -> contains_upper "PHOSPHATE ROCK" (cell_at ic r) = true.
Proof.
  unfold filter_commodity. intros H.
  destruct (Py.index "Commodity" (map Py.strip (columns raw))) as [ic|] eqn:E;
    [|discriminate].
  destruct (1 <? Py.count "Commodity" (map Py.strip (columns raw)))%nat; [discriminate|].
  inversion H; subst df. exists ic. split; [exact E|].
  cbn [rows]. intros r Hr. apply filter_In in Hr. tauto.
Qed.

(** The rows of the branch of the named production column, in full. *)
Lemma long_branch_rows_exact (df : DataFrame) (value_col : string) (iv : nat) :
  value_col_of (columns df) = Some value_col ->
  Py.index value_col (columns df) = Some iv ->
  exists g : list Cell -> list Cell,
    rows (long_table' df value_col)
    = map g (filter (fun r0 => negb (is_nan (to_numeric' (cell_at iv r0)))) (rows df))
    /\ (forall r0, cell_at iv (g r0) = CNum (to_numeric' (cell_at iv r0)))
    /\ (forall iy, Py.index "Year" (columns df) = Some iy ->
        forall r0, cell_at iy (g r0) = CNum (to_numeric' (cell_at iy r0)))
    /\ (forall j r0, j <> iv -> Py.index "Year" (columns df) <> Some j ->
        cell_at j (g r0) = cell_at j r0).
Proof.
  intros Hv Hiv. destruct (value_col_cases _ _ Hv) as (Hmem & Hcand & Hprod).
  destruct (candidates_not_country _ Hcand) as [Hnc Hncn].
  destruct (candidates_not_year _ Hcand) as [HnY _].
  unfold long_table.
  set (d1 := if Py.mem "Country" (columns df)
             then rename "Country" "CountryName" df else df).
  assert (Hrows1 : rows d1 = rows df).
  { unfold d1. destruct (Py.mem "Country" (columns df)); reflexivity. }
  assert (Hidx1 : forall c, c <> "Country" -> c <> "CountryName" ->
             Py.index c (columns d1) = Py.index c (columns df)
             /\ Py.mem c (columns d1) = Py.mem c (columns df)).
  { intros c H1 H2. unfold d1. destruct (Py.mem "Country" (columns df)).
    - rewrite rename_columns, index_relabel_other, mem_relabel_other by assumption.
      split; reflexivity.
    - split; reflexivity. }
  destruct (Hidx1 value_col Hnc Hncn) as [Hiv1 _].
  destruct (Hidx1 "Year" ltac:(discriminate) ltac:(discriminate)) as [HiY1 _].
  destruct (Hidx1 "Production" ltac:(discriminate) ltac:(discriminate)) as [_ HmP1].
  rewrite Hiv in Hiv1.
  set (d2 := if Py.mem "Year" (columns d1) then coerced' "Year" d1 else d1).
  assert (Hc2 : columns d2 = columns d1).
  { unfold d2. destruct (Py.mem "Year" (columns d1));
      [apply coerced_columns | reflexivity]. }
  assert (Hrows2 : exists g1 : list Cell -> list Cell,
             rows d2 = map g1 (rows df)
             /\ (forall j r0, Py.index "Year" (columns df) <> Some j ->
                 cell_at j (g1 r0) = cell_at j r0)
             /\ (forall iy, Py.index "Year" (columns df) = Some iy ->
                 forall r0, cell_at iy (g1 r0) = CNum (to_numeric' (cell_at iy r0)))).
  { unfold d2. destruct (Py.mem "Year" (columns d1)) eqn:EY.
    - destruct (index_mem _ _ EY) as [iy Hiy].
      exists (fun r => set_at iy (CNum (to_numeric' (cell_at iy r))) r).
      unfold coerced. rewrite Hiy. cbn [rows]. rewrite Hrows1.
      rewrite HiY1 in Hiy.
      split; [reflexivity|]. split.
      + intros j r0 Hj. apply cell_at_set_at_other. congruence.
      + intros iy' Hiy' r0.
        assert (iy' = iy) by congruence. subst iy'. apply cell_at_set_at.
    - exists (fun r => r). rewrite Hrows1, map_id.
      split; [reflexivity|]. split; [reflexivity|].
      intros iy Hiy. apply mem_index_none in EY. congruence. }
  destruct Hrows2 as (g1 & Hr2 & Hg1o & Hg1y).
  assert (Hiv2 : Py.index value_col (columns d2) = Some iv) by (rewrite Hc2; exact Hiv1).
  assert (HivY : Py.index "Year" (columns df) <> Some iv).
  { intros HY. apply HnY. apply (index_inj _ _ (columns df) iv); assumption. }
  set (d3 := coerced' value_col d2).
  assert (HiP : Py.index "Production" (columns (rename value_col "Production" d3)) = Some iv).
  { rewrite rename_columns, index_relabel_to.
    - unfold d3. rewrite coerced_columns. exact Hiv2.
    - unfold d3. rewrite coerced_columns, Hc2, HmP1.
      destruct Hprod; auto. }
  exists (fun r0 => set_at iv (CNum (to_numeric' (cell_at iv (g1 r0)))) (g1 r0)).
  split; [|split; [|split]].
  - assert (Hr3 : rows (rename value_col "Production" d3)
                   = map (fun r => set_at iv (CNum (to_numeric' (cell_at iv r))) r) (rows d2)).
    { unfold rename, d3, coerced. rewrite Hiv2. reflexivity. }
    unfold dropna_subset. cbn [rows].
    rewrite Hr3, Hr2, map_map, filter_map_comm. f_equal.
    apply filter_ext. intros r. cbn [forallb].
    rewrite (getitem_index _ _ "Production" iv HiP), cell_at_set_at, (Hg1o iv r HivY).
    cbn [isna]. apply andb_true_r.
  - intros r0. rewrite cell_at_set_at, (Hg1o iv r0 HivY). reflexivity.
  - intros iy Hiy r0. rewrite cell_at_set_at_other; [apply (Hg1y iy Hiy)|].
    intros ->. congruence.
  - intros j r0 Hj HjY. rewrite cell_at_set_at_other by congruence.
    apply Hg1o, HjY.
Qed.

(** X15: a named production column leaves the table in place, when the
    labels of the table are distinct once stripped: the returned
    records are the rows whose production is a present number, in the
    order of the table, and only the production cell and the cell of a
    Year column are changed, each to its number. *)
Theorem long_branch_keeps_rows_in_place
    (r : Response) (raw df : DataFrame) (value_col : string) (iv : nat) :
  requests_get USGS_WORLD_CSV = Ok r -> status_ok r -> csv r = Some raw ->
  filter_commodity raw = Ok df ->
  NoDup (columns df) ->
  value_col_of (columns df) = Some value_col ->
  Py.index value_col (columns df) = Some iv ->
  exists out (g : list Cell -> list Cell),
    fetch_usgs_world' = Ok out
    /\ rows out
       = map g (filter (fun r0 => negb (is_nan (to_numeric' (cell_at iv r0)))) (rows df))
    /\ (forall r0, cell_at iv (g r0) = CNum (to_numeric' (cell_at iv r0)))
    /\ (forall iy, Py.index "Year" (columns df) = Some iy ->
        forall r0, cell_at iy (g r0) = CNum (to_numeric' (cell_at iy r0)))
    /\ (forall j r0, j <> iv -> Py.index "Year" (columns df) <> Some j ->
        cell_at j (g r0) = cell_at j r0).
Proof.
  intros Hr Hs Hcsv Hf Hnd Hv Hiv.
  unfold fetch_usgs_world. rewrite Hr. cbn [bind].
  rewrite (raise_for_status_ok r Hs). cbn [bind]. rewrite Hcsv. cbn [bind].
  rewrite Hf. cbn [bind]. rewrite Hv.
  destruct (value_col_cases _ _ Hv) as (Hmem & Hcand & _).
  rewrite (proj2 (long_branch_ok parse_number df (long_table' df value_col) value_col Hcand))
    by (split; [apply count_NoDup, Hnd | split; [apply count_single; assumption | reflexivity]]).
  destruct (long_branch_rows_exact df value_col iv Hv Hiv) as (g & H1 & H2 & H3 & H4).
  exists (long_table' df value_col), g. auto.
Qed.

(** X16: every returned record is a phosphate rock record: its cell in
    the column "Commodity" contains PHOSPHATE ROCK, whatever the case
    of its letters. *)
Theorem returned_records_are_phosphate_rock (out : DataFrame) :
  fetch_usgs_world' = Ok out ->
  forall row, In row (rows out) ->
    contains_upper "PHOSPHATE ROCK" (getitem (columns out) row "Commodity") = true.
Proof.
  unfold fetch_usgs_world. intros H.
  destruct (requests_get USGS_WORLD_CSV) as [r|e]; simpl in H; [|discriminate].
  destruct (raise_for_status r) as [[]|e]; simpl in H; [|discriminate].
  destruct (csv r) as [raw|]; simpl in H; [|discriminate].
  destruct (filter_commodity raw) as [df|e] eqn:Ef; simpl in H; [|discriminate].
  destruct (filter_commodity_rows _ _ Ef) as (ic & Hic & Hrock).
  destruct (value_col_of (columns df)) as [v|] eqn:Ev.
  - destruct (value_col_cases _ _ Ev) as (Hmem & Hcand & _).
    apply (long_branch_ok _ _ _ _ Hcand) in H. destruct H as (_ & _ & ->).
    destruct (candidates_not_country _ Hcand) as [Hnc Hncn].
    destruct (candidates_not_year _ Hcand) as [_ HnC].
    destruct (index_mem _ _ Hmem) as [iv Hiv].
    destruct (long_branch_rows_exact df v iv Ev Hiv) as (g & Hrows & _ & _ & Hother).
    assert (Hidx : Py.index "Commodity" (columns (long_table' df v)) = Some ic).
    { rewrite long_branch_columns, index_relabel_other by (try discriminate; congruence).
      destruct (Py.mem "Country" (columns df));
        [rewrite index_relabel_other by discriminate|]; exact Hic. }
    intros row Hrow. rewrite (getitem_index _ _ _ _ Hidx).
    rewrite Hrows in Hrow. apply in_map_iff in Hrow. destruct Hrow as [r0 [<- Hr0]].
    apply filter_In in Hr0. destruct Hr0 as [Hr0 _].
    rewrite Hother.
    + apply Hrock, Hr0.
    + intros ->. apply HnC. symmetry. apply (index_inj _ _ (columns df) iv); assumption.
    + intros HY. assert ("Year" = "Commodity") by
        (apply (index_inj _ _ (columns df) ic); assumption). discriminate.
  - apply wide_branch_ok in H. destruct H as (_ & _ & _ & ->).
    unfold wide_table.
    set (m0 := melt df (filter re_match_year (columns df))).
    assert (Hk : exists k, Py.index "Commodity" (id_vars_of df) = Some k).
    { apply index_mem, mem_In, (In_id_vars df "Commodity" eq_refl).
      apply (index_In _ _ ic), Hic. }
    destruct Hk as [k Hk].
    assert (Hm0 : columns m0 = (id_vars_of df ++ ["Year"; "Production"])%list).
    { unfold m0, melt, id_vars_of, year_cols_of. reflexivity. }
    assert (Hk0 : Py.index "Commodity" (columns m0) = Some k).
    { rewrite Hm0. apply index_app_present, Hk. }
    destruct (coerced_rows "Year" m0) as (h1 & Hh1 & Hh1o).
    destruct (coerced_rows "Production" (coerced' "Year" m0))
      as (h2 & Hh2 & Hh2o).
    rewrite coerced_columns in Hh2o.
    assert (Hidx : Py.index "Commodity"
              (columns (dropna_subset ["Production"; "Year"]
                 (rename "Country" "CountryName"
                    (coerced' "Production" (coerced' "Year" m0)))))
              = Some k).
    { unfold dropna_subset. cbn [columns].
      rewrite rename_columns, index_relabel_other by discriminate.
      rewrite !coerced_columns. exact Hk0. }
    intros row Hrow. rewrite (getitem_index _ _ _ _ Hidx).
    unfold dropna_subset in Hrow. cbn [rows] in Hrow.
    apply filter_In in Hrow. destruct Hrow as [Hrow _].
    unfold rename in Hrow. cbn [rows] in Hrow.
    rewrite Hh2, Hh1, map_map in Hrow.
    apply in_map_iff in Hrow. destruct Hrow as [row0 [<- Hrow0]].
    rewrite Hh2o, Hh1o.
    + unfold m0, melt in Hrow0. cbn [rows] in Hrow0.
      apply in_flat_map in Hrow0. destruct Hrow0 as [yc [_ Hrow0]].
      apply in_map_iff in Hrow0. destruct Hrow0 as [r0 [<- Hr0]].
      fold (year_cols_of df). fold (id_vars_of df).
      rewrite (cell_at_map_index _ _ _ "Commodity" k Hk).
      rewrite (getitem_index _ _ _ _ Hic). apply Hrock, Hr0.
    + intros HY. assert ("Year" = "Commodity") by
        (apply (index_inj _ _ (columns m0) k); assumption). discriminate.
    + intros HP. assert ("Production" = "Commodity") by
        (apply (index_inj _ _ (columns m0) k); assumption). discriminate.
Qed.

End UsgsRecords.

(** ** The string operations *)

Lemma prefix_iff (a s : string) :
  String.prefix a s = true <-> exists post, s = a ++ post.
Proof.
  revert s. induction a as [|x a IH]; intros s.
  - split; [intros _; exists s; reflexivity | intros _; destruct s; reflexivity].
  - destruct s as [|y s]; simpl.
    + split; [discriminate | intros [post E]; discriminate].
    + destruct (ascii_dec x y) as [->|Hne].
      * rewrite IH. split; intros [post E]; exists post; [rewrite E; reflexivity|].
        inversion E. reflexivity.
      * split; [discriminate | intros [post E]; inversion E; congruence].
Qed.

(** X17: [needle in hay] holds exactly when [hay] is some text, then
    [needle], then some text. *)
Theorem str_in_is_substring (needle hay : string) :
  Py.str_in needle hay = true <-> exists pre post, hay = pre ++ needle ++ post.
Proof.
  induction hay as [|c hay IH]; cbn [Py.str_in]; rewrite orb_true_iff, prefix_iff.
  - split.
    + intros [[post E] | H]; [|discriminate]. exists "", post. exact E.
    + intros (pre & post & E). left.
      destruct pre; [exists post; exact E | discriminate].
  - rewrite IH. split.
    + intros [[post E] | (pre & post & E)].
      * exists "", post. exact E.
      * exists (String c pre), post. rewrite E. reflexivity.
    + intros (pre & post & E). destruct pre as [|x pre].
      * left. exists post. exact E.
      * right. inversion E. exists pre, post. reflexivity.
Qed.

Lemma lower_upper_char (c : ascii) :
  Py.lower_char (Py.upper_char c) = Py.lower_char c
  /\ Py.upper_char (Py.lower_char c) = Py.upper_char c.
Proof. destruct c as [[] [] [] [] [] [] [] []]; split; reflexivity. Qed.

Lemma lower_upper (s : string) :
  Py.lower (Py.upper s) = Py.lower s /\ Py.upper (Py.lower s) = Py.upper s.
Proof.
  induction s as [|c s [IH1 IH2]]; simpl; [split; reflexivity|].
  destruct (lower_upper_char c) as [H1 H2]. rewrite H1, H2, IH1, IH2.
  split; reflexivity.
Qed.

(** X18: the searches do not see the case of the letters A to Z: a text
    cell matches a needle exactly when the same text in upper case, or
    in lower case, does. *)
Theorem matching_ignores_case (needle s : string) :
  contains_lower needle (CStr (Py.upper s)) = contains_lower needle (CStr s)
  /\ contains_upper needle (CStr (Py.lower s)) = contains_upper needle (CStr s).
Proof.
  destruct (lower_upper s) as [H1 H2]. simpl. rewrite H1, H2. split; reflexivity.
Qed.

(** X19: what the year-month pattern accepts: the labels of the form
    YYYYMmm, and those labels followed by one newline (Python's [$]),
    and nothing else. *)
Theorem year_month_pattern_accepts (c : string) :
  re_match_ym c = true <->
  strict_ym c = true \/ exists c0, strict_ym c0 = true /\ c = c0 ++ newline.
Proof.
  split.
  - intros H.
    destruct c as [|y1 [|y2 [|y3 [|y4 [|m [|m1 [|m2 tl]]]]]]]; try discriminate.
    cbn [re_match_ym] in H. rewrite !andb_true_iff in H.
    destruct H as [Hd Htl]. unfold at_dollar in Htl. apply orb_true_iff in Htl.
    destruct Htl as [Htl|Htl]; apply String.eqb_eq in Htl; subst tl.
    + left. unfold strict_ym. cbn [re_match_ym]. rewrite !andb_true_iff.
      split; [split; [exact Hd | reflexivity] | reflexivity].
    + right.
      exists (String y1 (String y2 (String y3 (String y4 (String m (String m1 (String m2 ""))))))).
      split; [|reflexivity].
      unfold strict_ym. cbn [re_match_ym]. rewrite !andb_true_iff.
      split; [split; [exact Hd | reflexivity] | reflexivity].
  - intros [H | (c0 & H & ->)].
    + unfold strict_ym in H. apply andb_true_iff in H. tauto.
    + apply strict_ym_inv in H.
      destruct H as (y1 & y2 & y3 & y4 & m1 & m2 & -> & H1 & H2 & H3 & H4 & H5 & H6).
      simpl. rewrite H1, H2, H3, H4, H5, H6. reflexivity.
Qed.

Lemma lstrip_spec (s : string) :
  exists l, s = l ++ Py.lstrip s /\ all_space l = true
            /\ forall ch rest, Py.lstrip s = String ch rest -> Py.is_space ch = false.
Proof.
  induction s as [|c s (l & E & Hl & Hfirst)]; simpl.
  - exists "". repeat split. intros ch rest H. discriminate.
  - destruct (Py.is_space c) eqn:Ec.
    + exists (String c l). simpl. rewrite <- E, Ec, Hl. repeat split. exact Hfirst.
    + exists "". repeat split. intros ch rest H. inversion H; subst. exact Ec.
Qed.

Lemma rstrip_spec (s : string) :
  exists r, s = Py.rstrip s ++ r /\ all_space r = true
            /\ (forall body ch, Py.rstrip s = body ++ String ch "" -> Py.is_space ch = false)
            /\ (forall ch rest, s = String ch rest -> Py.is_space ch = false ->
                exists rest', Py.rstrip s = String ch rest').
Proof.
  induction s as [|c s (r & E & Hr & Hlast & _)].
  - exists "". repeat split.
    + intros body ch H. destruct body; discriminate.
    + intros ch rest H. discriminate.
  - cbn [Py.rstrip]. destruct (Py.rstrip s) as [|c' t] eqn:Et.
    + simpl in E. subst r.
      destruct (Py.is_space c) eqn:Ec.
      * exists (String c s). split; [reflexivity|].
        split; [simpl; rewrite Ec, Hr; reflexivity|]. split.
        -- intros body ch H. destruct body; discriminate.
        -- intros ch rest H Hch. inversion H; subst. congruence.
      * exists s. split; [reflexivity|]. split; [exact Hr|]. split.
        -- intros body ch H. destruct body as [|b body].
           ++ inversion H; subst. exact Ec.
           ++ inversion H. destruct body; discriminate.
        -- intros ch rest H Hch. inversion H; subst. eauto.
    + exists r. split; [simpl; f_equal; exact E|]. split; [exact Hr|]. split.
      * intros body ch H. destruct body as [|b body]; [discriminate|].
        inversion H; subst. apply (Hlast body ch). assumption.
      * intros ch rest H Hch. inversion H; subst. eauto.
Qed.

(** X20: [strip] takes whitespace off the two ends and nothing else:
    the text is whitespace, then the stripped text, then whitespace,
    and the stripped text neither begins nor ends with whitespace. *)
Theorem strip_removes_outer_whitespace (s : string) :
  exists l r,
    s = l ++ Py.strip s ++ r
    /\ all_space l = true /\ all_space r = true
    /\ (forall ch rest, Py.strip s = String ch rest -> Py.is_space ch = false)
    /\ (forall body ch, Py.strip s = body ++ String ch "" -> Py.is_space ch = false).
Proof.
  unfold Py.strip.
  destruct (lstrip_spec s) as (l & El & Hl & Hfirst).
  destruct (rstrip_spec (Py.lstrip s)) as (r & Er & Hr & Hlast & Hkeep).
  exists l, r. split; [rewrite <- Er; exact El|]. repeat split; auto.
  intros ch rest H.
  destruct (Py.lstrip s) as [|c0 t0] eqn:E0.
  - simpl in H. discriminate.
  - destruct (Hkeep c0 t0 eq_refl (Hfirst c0 t0 eq_refl)) as [rest' H'].
    rewrite H' in H. inversion H; subst. apply (Hfirst ch t0). reflexivity.
Qed.

(** ** More on the sort and the metrics *)

Lemma ts_le_trans (a b c : Timestamp) : ts_le a b -> ts_le b c -> ts_le a c.
Proof.
  unfold ts_le. intros H1 H2.
  destruct (ts_ltb c a) eqn:E; [|reflexivity].
  assert (N1 : ~ ts_ltb b a = true) by (rewrite H1; discriminate).
  assert (N2 : ~ ts_ltb c b = true) by (rewrite H2; discriminate).
  rewrite ts_ltb_spec in *. lia.
Qed.

Lemma ts_lt_le (a b : Timestamp) : ts_ltb a b = true -> ts_le a b.
Proof.
  unfold ts_le. intros H. destruct (ts_ltb b a) eqn:E; [|reflexivity].
  rewrite ts_ltb_spec in *. lia.
Qed.

Lemma insert_by_date_ascending (p : Timestamp * float) (l : Series) :
  StronglySorted ts_le (map fst l) ->
  StronglySorted ts_le (map fst (insert_by_date p l)).
Proof.
  induction l as [|q l IH]; simpl; intros Hs.
  - repeat constructor.
  - inversion Hs as [|x xs Hs' Hall]; subst.
    destruct (ts_ltb (fst p) (fst q)) eqn:E; simpl.
    + constructor; [exact Hs|].
      constructor; [apply ts_lt_le, E|].
      eapply Forall_impl; [|exact Hall].
      intros t Ht. eapply ts_le_trans; [apply ts_lt_le, E | exact Ht].
    + constructor; [apply IH, Hs'|].
      apply Forall_forall. intros t Ht.
      apply (Permutation_in _ (Permutation_map fst (insert_by_date_perm p l))) in Ht.
      simpl in Ht. destruct Ht as [<- | Ht]; [exact E|].
      rewrite Forall_forall in Hall. apply Hall, Ht.
Qed.

Lemma sort_by_date_ascending (l : Series) :
  StronglySorted ts_le (map fst (sort_by_date l)).
Proof.
  induction l as [|p l IH]; simpl; [constructor | apply insert_by_date_ascending, IH].
Qed.

(** X21: whatever the sheets hold, a returned series is in ascending
    order of date (no point is dated before a point that precedes it).
    It is the series extracted from the sheet chosen in the workbook
    served, with a status that is no error, at one of the two World
    Bank URLs, at the fallback one only when the primary one gave no
    series; and it has at most one point per year-month column of that
    sheet. *)
Theorem returned_series_is_ascending
    (requests_get : string -> result Response) (parse_number : string -> float)
    (to_datetime_lenient : string -> result Timestamp) (data : Series) :
  fetch_worldbank_price requests_get parse_number to_datetime_lenient = Ok data ->
  StronglySorted ts_le (map fst data)
  /\ exists url r xls df,
       (url = WB_URL_PRIMARY
        \/ url = WB_URL_FALLBACK
           /\ forall d, attempt requests_get parse_number to_datetime_lenient
                          WB_URL_PRIMARY <> Ok (Some d))
       /\ requests_get url = Ok r /\ status_ok r /\ workbook r = Some xls
       /\ select_sheet xls = Some df
       /\ extract_series parse_number to_datetime_lenient df = Ok (Some data)
       /\ (List.length data <= List.length (filter re_match_ym (columns df)))%nat.
Proof.
  intros H.
  assert (Hu : exists url,
             (url = WB_URL_PRIMARY
              \/ url = WB_URL_FALLBACK
                 /\ forall d, attempt requests_get parse_number to_datetime_lenient
                                WB_URL_PRIMARY <> Ok (Some d))
             /\ attempt requests_get parse_number to_datetime_lenient url
                = Ok (Some data)).
  { unfold fetch_worldbank_price in H. cbn [try_urls] in H.
    destruct (attempt requests_get parse_number to_datetime_lenient WB_URL_PRIMARY)
      as [[d|]|e] eqn:Ep.
    - inversion H; subst d. exists WB_URL_PRIMARY. split; [left; reflexivity | exact Ep].
    - destruct (attempt requests_get parse_number to_datetime_lenient WB_URL_FALLBACK)
        as [[d|]|e] eqn:Ef; try discriminate.
      inversion H; subst d. exists WB_URL_FALLBACK.
      split; [right; split; [reflexivity | intros d; discriminate] | exact Ef].
    - destruct (attempt requests_get parse_number to_datetime_lenient WB_URL_FALLBACK)
        as [[d|]|e'] eqn:Ef; try discriminate.
      inversion H; subst d. exists WB_URL_FALLBACK.
      split; [right; split; [reflexivity | intros d; discriminate] | exact Ef]. }
  destruct Hu as (url & Hurl & Ha).
  apply attempt_returns_status in Ha.
  destruct Ha as (r & xls & df & Hr & Hst & Hw & Hs & Hx).
  pose proof Hx as Hx'.
  apply extract_series_returns in Hx. destruct Hx as (row & dates & Hm & ->).
  split; [apply sort_by_date_ascending|].
  exists url, r, xls, df.
  split; [exact Hurl|]. split; [exact Hr|].
  split; [unfold status_ok; lia|]. split; [exact Hw|]. split; [exact Hs|].
  split; [exact Hx'|].
  rewrite (Permutation_length (sort_by_date_perm _)).
  unfold dropna. eapply Nat.le_trans; [apply filter_length_le|].
  rewrite length_combine, length_map. apply Nat.le_min_r.
Qed.






(** ** What pandas refuses *)

Section Refusals.

Variable requests_get : string -> result Response.
Variable parse_number : string -> float.
Variable to_datetime_lenient : string -> result Timestamp.

Local Abbreviation to_datetime' := (to_datetime to_datetime_lenient).
Local Abbreviation attempt' := (attempt requests_get parse_number to_datetime_lenient).
Local Abbreviation try_urls' := (try_urls requests_get parse_number to_datetime_lenient).
Local Abbreviation fetch_usgs_world' := (fetch_usgs_world requests_get parse_number).

(** X24: a YYYYMmm label whose year no Timestamp can hold (before 1677
    or after 2262) acts as a label with a wrong month does: the URL
    whose chosen sheet has it returns no series, and the loop goes on
    with the next URL. *)
Theorem year_out_of_range_aborts_url
    (url : string) (rest : list string) (r : Response) (xls : ExcelFile)
    (df : DataFrame) (c : string) :
  requests_get url = Ok r -> workbook r = Some xls -> select_sheet xls = Some df ->
  In c (columns df) -> strict_ym c = true -> ~ (1677 <= label_year c <= 2262) ->
  (forall data, attempt' url <> Ok (Some data))
  /\ try_urls' (url :: rest) = try_urls' rest.
Proof.
  intros Hr Hw Hsel Hc Hs Hbad.
  assert (Hre : re_match_ym c = true).
  { unfold strict_ym in Hs. apply andb_true_iff in Hs. tauto. }
  assert (Hraise : exists e,
             mapM (fun c => to_datetime' (date_text c)) (filter re_match_ym (columns df))
             = Raise e).
  { apply (mapM_raises _ _ c ValueError).
    - apply filter_In. auto.
    - apply to_datetime_strict_out_of_bounds; assumption. }
  destruct Hraise as [e He].
  assert (Hno : forall data, attempt' url <> Ok (Some data)).
  { intros data Ha. apply attempt_returns in Ha.
    destruct Ha as (r' & xls' & df' & Hr' & Hw' & Hsel' & Hx).
    assert (r' = r) by congruence. subst r'.
    assert (xls' = xls) by congruence. subst xls'.
    assert (df' = df) by congruence. subst df'.
    apply extract_series_returns in Hx. destruct Hx as (row & dates & Hm & _).
    congruence. }
  split; [exact Hno | apply try_urls_skip, Hno].
Qed.

(** X25: when two labels of the table are "Commodity" once stripped,
    the extractor raises AttributeError: the filter of line 86 asks
    [.str] of a frame. *)
Theorem repeated_commodity_label_raises (r : Response) (raw : DataFrame) :
  requests_get USGS_WORLD_CSV = Ok r -> status_ok r -> csv r = Some raw ->
  (2 <= Py.count "Commodity" (map Py.strip (columns raw)))%nat ->
  fetch_usgs_world' = Raise AttributeError.
Proof.
  intros Hr Hs Hc Hcnt. unfold fetch_usgs_world. rewrite Hr. cbn [bind].
  rewrite (raise_for_status_ok r Hs). cbn [bind]. rewrite Hc. cbn [bind].
  unfold filter_commodity.
  destruct (Py.index "Commodity" (map Py.strip (columns raw))) as [i|] eqn:E.
  - replace (1 <? Py.count "Commodity" (map Py.strip (columns raw)))%nat with true
      by (symmetry; apply Nat.ltb_lt; lia).
    reflexivity.
  - apply index_none_mem, count_zero_mem in E. lia.
Qed.

(** X26: in the branch of the named production column, a label "Year"
    or a production label that several columns carry makes the
    extractor raise TypeError: [to_numeric] is handed a frame. *)
Theorem repeated_year_or_production_label_raises
    (r : Response) (raw df : DataFrame) (value_col : string) :
  requests_get USGS_WORLD_CSV = Ok r -> status_ok r -> csv r = Some raw ->
  filter_commodity raw = Ok df ->
  value_col_of (columns df) = Some value_col ->
  (2 <= Py.count "Year" (columns df))%nat
  \/ (2 <= Py.count value_col (columns df))%nat ->
  fetch_usgs_world' = Raise TypeError.
Proof.
  intros Hr Hs Hc Hf Hv Hcnt. unfold fetch_usgs_world. rewrite Hr. cbn [bind].
  rewrite (raise_for_status_ok r Hs). cbn [bind]. rewrite Hc. cbn [bind].
  rewrite Hf. cbn [bind]. rewrite Hv.
  destruct (value_col_cases _ _ Hv) as (Hmem & Hcand & _).
  apply (long_branch_raises _ _ _ _ Hcand Hmem). auto.
Qed.

End Refusals.

(** ** The further properties at sample inputs *)

Lemma fallback_alone_when_primary_unusable_witness :
  (forall data,
      attempt net_primary_down sample_parse_number sample_lenient WB_URL_FALLBACK
      = Ok (Some data) ->
      fetch_worldbank_price net_primary_down sample_parse_number sample_lenient = Ok data)
  /\ ((forall data,
          attempt net_primary_down sample_parse_number sample_lenient WB_URL_FALLBACK
          <> Ok (Some data)) ->
      fetch_worldbank_price net_primary_down sample_parse_number sample_lenient
      = Raise RuntimeError).
Proof.
  apply (fallback_alone_when_primary_unusable net_primary_down sample_parse_number
           sample_lenient).
  apply (transport_failed _ _ RequestException). reflexivity.
Defined.

Lemma primary_series_wins_witness :
  fetch_worldbank_price net_2023 sample_parse_number sample_lenient = Ok series_2023
  /\ fetch_worldbank_price net_2023_other_fallback sample_parse_number sample_lenient
     = Ok series_2023.
Proof.
  apply (primary_series_wins net_2023 net_2023_other_fallback sample_parse_number
           sample_lenient series_2023); reflexivity.
Defined.

Lemma first_matching_row_decides_witness :
  extract_series sample_parse_number sample_lenient sheet_rock_second
  = extract_series sample_parse_number sample_lenient
      (mkDF (columns sheet_rock_second)
            [[CStr "Phosphate rock (Morocco)"; CNum 100%float; CNum 110%float; CNum 121%float]]).
Proof.
  apply (first_matching_row_decides sample_parse_number sample_lenient sheet_rock_second
           [[CStr "Crude oil, average"; CNum 80%float; CNum 81%float; CNum 82%float]]
           [[CStr "Phosphate, TSP"; CNum 1%float; CNum 2%float; CNum 3%float]]).
  - reflexivity.
  - left. split; [|reflexivity].
    intros r [<- | []]. reflexivity.
Defined.

Lemma series_holds_the_numbers_of_the_row_witness :
  exists row,
    In row (rows sheet_2023)
    /\ contains_lower "phosphate" (cell_at 0 row) = true
    /\ forall d v,
         In (d, v) series_2023 <->
         exists c,
           In c (columns sheet_2023) /\ re_match_ym c = true
           /\ d = mkTs (label_year c) (label_month c) 1
           /\ v = to_numeric sample_parse_number (getitem (columns sheet_2023) row c)
           /\ is_nan v = false.
Proof.
  apply (series_holds_the_numbers_of_the_row sample_parse_number sample_lenient
           sheet_2023 series_2023).
  - intros c Hc Hm. simpl in Hc.
    destruct Hc as [<-|[<-|[<-|[<-|[]]]]]; vm_compute in Hm; try discriminate Hm;
      reflexivity.
  - reflexivity.
Defined.

Lemma distinct_labels_distinct_dates_witness :
  to_datetime sample_lenient (date_text "2023M01") = Ok (mkTs 2023 1 1)
  /\ "2023M01" = "2023M01".
Proof.
  split; [reflexivity|].
  apply (distinct_labels_distinct_dates sample_lenient "2023M01" "2023M01" (mkTs 2023 1 1));
    reflexivity.
Defined.


Lemma latest_is_chronologically_last_witness :
  exists m,
    price_metrics series_2023 = Ok m
    /\ (forall p, In p series_2023 -> p = latest m \/ ts_lt (fst p) (fst (latest m)))
    /\ (forall prev, iloc_second_last series_2023 = Ok prev ->
          ts_lt (fst prev) (fst (latest m))
          /\ forall p, In p series_2023 ->
               p = latest m \/ p = prev \/ ts_lt (fst p) (fst prev)).
Proof.
  eexists. split; [reflexivity|].
  apply (latest_is_chronologically_last series_2023).
  - repeat constructor.
  - repeat constructor.
  - reflexivity.
Defined.


Lemma usgs_fails_exactly_when_witness :
  fetch_usgs_world (serve_usgs csv_year_beside_years) sample_parse_number = Raise TypeError
  /\ usgs_failure (serve_usgs csv_year_beside_years) TypeError.
Proof.
  split; [reflexivity|].
  apply (usgs_fails_exactly_when (serve_usgs csv_year_beside_years) sample_parse_number
           TypeError).
  - intros r raw Hr Hc.
    change (serve_usgs csv_year_beside_years USGS_WORLD_CSV)
      with (Ok (mkResponse 200 None (Some csv_year_beside_years))) in Hr.
    inversion Hr; subst r. cbn [csv] in Hc. inversion Hc; subst raw.
    distinct_labels.
  - reflexivity.
Defined.

Lemma returned_schema_witness :
  exists out,
    fetch_usgs_world (serve_usgs csv_long) sample_parse_number = Ok out
    /\ ~ In "Country" (columns out)
    /\ (In "Year" (columns out) <->
        value_col_of (columns csv_long_phosphate) = None
        \/ In "Year" (columns csv_long_phosphate))
    /\ (In "CountryName" (columns out) <->
        In "Country" (columns csv_long_phosphate)
        \/ In "CountryName" (columns csv_long_phosphate)).
Proof.
  eexists. split; [reflexivity|].
  apply (returned_schema (serve_usgs csv_long) sample_parse_number
           (mkResponse 200 None (Some csv_long)) csv_long csv_long_phosphate).
  - reflexivity.
  - left. simpl. lia.
  - reflexivity.
  - reflexivity.
  - reflexivity.
Defined.

Lemma melted_records_in_column_then_row_order_witness :
  exists out,
    fetch_usgs_world (serve_usgs csv_wide) sample_parse_number = Ok out
    /\ rows out
       = map (fun yr => melted_record sample_parse_number csv_wide_phosphate (snd yr) (fst yr))
             (filter (pair_is_numeric sample_parse_number csv_wide_phosphate)
                     (list_prod (year_cols_of csv_wide_phosphate) (rows csv_wide_phosphate)))
    /\ (List.length (rows out)
        <= List.length (year_cols_of csv_wide_phosphate)
           * List.length (rows csv_wide_phosphate))%nat.
Proof.
  apply (melted_records_in_column_then_row_order (serve_usgs csv_wide) sample_parse_number
           (mkResponse 200 None (Some csv_wide)) csv_wide csv_wide_phosphate).
  - reflexivity.
  - left. simpl. lia.
  - reflexivity.
  - reflexivity.
  - distinct_labels.
  - reflexivity.
  - exists "2020". split; [simpl; auto | reflexivity].
  - reflexivity.
Defined.

Lemma long_branch_keeps_rows_in_place_witness :
  exists out (g : list Cell -> list Cell),
    fetch_usgs_world (serve_usgs csv_long) sample_parse_number = Ok out
    /\ rows out
       = map g (filter (fun r0 => negb (is_nan (to_numeric sample_parse_number (cell_at 3 r0))))
                       (rows csv_long_phosphate))
    /\ (forall r0, cell_at 3 (g r0) = CNum (to_numeric sample_parse_number (cell_at 3 r0)))
    /\ (forall iy, Py.index "Year" (columns csv_long_phosphate) = Some iy ->
        forall r0, cell_at iy (g r0) = CNum (to_numeric sample_parse_number (cell_at iy r0)))
    /\ (forall j r0, j <> 3%nat -> Py.index "Year" (columns csv_long_phosphate) <> Some j ->
        cell_at j (g r0) = cell_at j r0).
Proof.
  apply (long_branch_keeps_rows_in_place (serve_usgs csv_long) sample_parse_number
           (mkResponse 200 None (Some csv_long)) csv_long csv_long_phosphate
           "Production" 3).
  - reflexivity.
  - left. simpl. lia.
  - reflexivity.
  - reflexivity.
  - distinct_labels.
  - reflexivity.
  - reflexivity.
Defined.

Lemma returned_records_are_phosphate_rock_witness :
  exists out,
    fetch_usgs_world (serve_usgs csv_wide) sample_parse_number = Ok out
    /\ forall row, In row (rows out) ->
         contains_upper "PHOSPHATE ROCK" (getitem (columns out) row "Commodity") = true.
Proof.
  eexists. split; [reflexivity|].
  apply (returned_records_are_phosphate_rock (serve_usgs csv_wide) sample_parse_number).
  reflexivity.
Defined.

Lemma returned_series_is_ascending_witness :
  StronglySorted ts_le (map fst series_2023)
  /\ exists url r xls df,
       (url = WB_URL_PRIMARY
        \/ url = WB_URL_FALLBACK
           /\ forall d, attempt net_2023 sample_parse_number sample_lenient
                          WB_URL_PRIMARY <> Ok (Some d))
       /\ net_2023 url = Ok r /\ status_ok r /\ workbook r = Some xls
       /\ select_sheet xls = Some df
       /\ extract_series sample_parse_number sample_lenient df = Ok (Some series_2023)
       /\ (List.length series_2023 <= List.length (filter re_match_ym (columns df)))%nat.
Proof.
  apply (returned_series_is_ascending net_2023 sample_parse_number sample_lenient
           series_2023).
  reflexivity.
Defined.


Lemma year_out_of_range_aborts_url_witness :
  (forall data,
      attempt (serve (serve_workbook sheet_year_1500) (serve_workbook sheet_2023)
                     (Raise RequestException))
              sample_parse_number sample_lenient WB_URL_PRIMARY
      <> Ok (Some data))
  /\ fetch_worldbank_price
       (serve (serve_workbook sheet_year_1500) (serve_workbook sheet_2023)
              (Raise RequestException))
       sample_parse_number sample_lenient
     = try_urls (serve (serve_workbook sheet_year_1500) (serve_workbook sheet_2023)
                       (Raise RequestException))
                sample_parse_number sample_lenient [WB_URL_FALLBACK].
Proof.
  apply (year_out_of_range_aborts_url
           (serve (serve_workbook sheet_year_1500) (serve_workbook sheet_2023)
                  (Raise RequestException))
           sample_parse_number sample_lenient
           WB_URL_PRIMARY [WB_URL_FALLBACK]
           (mkResponse 200 (Some [("Monthly Prices", sheet_year_1500)]) None)
           [("Monthly Prices", sheet_year_1500)] sheet_year_1500 "1500M01").
  - reflexivity.
  - reflexivity.
  - reflexivity.
  - simpl. auto.
  - reflexivity.
  - simpl. lia.
Defined.

Lemma repeated_commodity_label_raises_witness :
  fetch_usgs_world (serve_usgs csv_two_commodity) sample_parse_number
  = Raise AttributeError.
Proof.
  apply (repeated_commodity_label_raises (serve_usgs csv_two_commodity) sample_parse_number
           (mkResponse 200 None (Some csv_two_commodity)) csv_two_commodity).
  - reflexivity.
  - left. simpl. lia.
  - reflexivity.
  - vm_compute. lia.
Defined.

Lemma repeated_year_or_production_label_raises_witness :
  fetch_usgs_world (serve_usgs csv_two_year) sample_parse_number = Raise TypeError.
Proof.
  apply (repeated_year_or_production_label_raises
           (serve_usgs csv_two_year) sample_parse_number
           (mkResponse 200 None (Some csv_two_year)) csv_two_year
           (mkDF ["Commodity"; "Year"; "Year"; "Production"]
                 [[CStr "Phosphate rock"; CNum 2023%float; CNum 2024%float;
                   CNum 38000%float]])
           "Production").
  - reflexivity.
  - left. simpl. lia.
  - reflexivity.
  - reflexivity.
  - reflexivity.
  - left. vm_compute. lia.
Defined.
